(** * n8n-rag retrieval core: query analysis, reranking, context assembly,
      feedback store and chunker, embedded from the Python sources.

    Conventions of the embedding.
    - A Python [str] is a [string]; the model covers ASCII text (bytes above
      127 are left alone by [lower] and are never whitespace).
    - A Python [float] is a rational [Q]: the literals of the source
      (0.5, 0.3, 0.1, ...) are exact rationals and arithmetic is exact;
      where the rounding of the code's floats could matter, the
      statements are about an order or a sign, which it keeps.
    - A [dict] used as a map is a [gmap]; a [dict] with a fixed set of
      keys is a record; a [dict] whose keys are read with [.get(k, default)]
      is a record of [option] fields.
    - A Python exception is [None] in an [option] result; a method that
      leaves the store changed when it raises returns an [Outcome]
      together with the state.
    - The SQLite file of the feedback store has its write lock: a
      connection that writes while another holds an uncommitted
      statement is refused. *)

From Stdlib Require Import Ascii String List Bool Arith ZArith QArith Lia Lqa.
From Stdlib Require Import DecimalString DecimalNat.
From Stdlib Require Import Sorting.Sorted Sorting.Permutation.
From stdpp Require Import gmap strings list fin_maps sorting.

Local Open Scope string_scope.
Local Open Scope list_scope.

(* ===================================================================== *)
(** ** Python string primitives *)
(* ===================================================================== *)

Module PyStr.

(** [contains needle hay] is Python's [needle in hay] on strings. *)
Fixpoint contains (needle hay : string) : bool :=
  String.prefix needle hay ||
  match hay with
  | EmptyString => false
  | String _ rest => contains needle rest
  end.

(** [x in l] on a list of strings. *)
Definition mem (x : string) (l : list string) : bool :=
  existsb (String.eqb x) l.

Definition lower_ascii (c : ascii) : ascii :=
  let n := nat_of_ascii c in
  if (65 <=? n)%nat && (n <=? 90)%nat then ascii_of_nat (n + 32) else c.

(** [s.lower()] *)
Fixpoint lower (s : string) : string :=
  match s with
  | EmptyString => EmptyString
  | String c rest => String (lower_ascii c) (lower rest)
  end.

(** The ASCII code points [str.strip()] removes: TAB, LF, VT, FF, CR,
    FS, GS, RS, US and SPACE. *)
Definition is_space (c : ascii) : bool :=
  let n := nat_of_ascii c in
  ((9 <=? n)%nat && (n <=? 13)%nat) || ((28 <=? n)%nat && (n <=? 32)%nat).

Fixpoint lstrip (s : string) : string :=
  match s with
  | EmptyString => EmptyString
  | String c rest => if is_space c then lstrip rest else s
  end.

Fixpoint rev (s : string) : string :=
  match s with
  | EmptyString => EmptyString
  | String c rest => rev rest ++ String c EmptyString
  end.

Definition rstrip (s : string) : string := rev (lstrip (rev s)).

(** [s.strip()] *)
Definition strip (s : string) : string := rstrip (lstrip s).

(** [s[:n]] *)
Definition take (n : nat) (s : string) : string := String.substring 0 n s.

(** [sep.join(l)] *)
Fixpoint join (sep : string) (l : list string) : string :=
  match l with
  | [] => ""
  | [x] => x
  | x :: rest => x ++ sep ++ join sep rest
  end.

(** [s.split(sep)[-1]] for a one-character separator: the part after the
    last occurrence of [sep], or all of [s] when there is none. *)
Fixpoint has_char (sep : ascii) (s : string) : bool :=
  match s with
  | EmptyString => false
  | String c rest => Ascii.eqb c sep || has_char sep rest
  end.

Fixpoint after_last (sep : ascii) (s : string) : string :=
  match s with
  | EmptyString => EmptyString
  | String c rest =>
      if has_char sep rest then after_last sep rest
      else if Ascii.eqb c sep then rest else s
  end.

End PyStr.

(* ===================================================================== *)
(** ** Python list primitives *)
(* ===================================================================== *)

Module PyList.

(** A non-empty list is truthy. *)
Definition truthy {A} (l : list A) : bool :=
  match l with [] => false | _ => true end.

(** Insertion of [x] in front of a list sorted by descending key: [x]
    goes before the first element whose key is not larger than its own,
    so that among equal keys the element met first stays first. *)
Fixpoint insert_desc {A} (key : A -> Q) (x : A) (l : list A) : list A :=
  match l with
  | [] => [x]
  | y :: l' => if Qle_bool (key y) (key x) then x :: l else y :: insert_desc key x l'
  end.

(** [sorted(l, key=key, reverse=True)] and [l.sort(key=key, reverse=True)]:
    a stable sort by descending key. *)
Definition sorted_desc {A} (key : A -> Q) (l : list A) : list A :=
  List.fold_right (insert_desc key) [] l.

(** [zip(a, b, c)] read through a constructor [f]: stops at the shortest. *)
Fixpoint zip3_with {A B C D} (f : A -> B -> C -> D)
    (a : list A) (b : list B) (c : list C) : list D :=
  match a, b, c with
  | x :: a', y :: b', z :: c' => f x y z :: zip3_with f a' b' c'
  | _, _, _ => []
  end.

(** [a < b] on floats. *)
Definition Qlt_bool (a b : Q) : bool := negb (Qle_bool b a).

End PyList.

(* ===================================================================== *)
(** ** 3_retrieval_pipeline.py: N8nQueryProcessor *)
(* ===================================================================== *)

Module QueryProcessor.

Import PyStr PyList.

Inductive WorkflowIntent :=
| WEBHOOK_TRIGGER
| API_INTEGRATION
| DATA_TRANSFORMATION
| DATABASE_OPERATION
| AI_AUTOMATION
| NOTIFICATION
| FILE_PROCESSING
| SCHEDULING
| ERROR_HANDLING
| MULTI_STEP_WORKFLOW.

(** [intent.value] *)
Definition intent_value (i : WorkflowIntent) : string :=
  match i with
  | WEBHOOK_TRIGGER => "webhook_trigger"
  | API_INTEGRATION => "api_integration"
  | DATA_TRANSFORMATION => "data_transformation"
  | DATABASE_OPERATION => "database_operation"
  | AI_AUTOMATION => "ai_automation"
  | NOTIFICATION => "notification"
  | FILE_PROCESSING => "file_processing"
  | SCHEDULING => "scheduling"
  | ERROR_HANDLING => "error_handling"
  | MULTI_STEP_WORKFLOW => "multi_step_workflow"
  end.

(** [self.intent_keywords], in the insertion order of the dict literal. *)
Definition intent_keywords : list (WorkflowIntent * list string) :=
  [ (WEBHOOK_TRIGGER,
      ["webhook"; "trigger"; "receive"; "endpoint"; "listen"; "http post"; "incoming"]);
    (API_INTEGRATION,
      ["api"; "rest"; "http"; "request"; "fetch"; "get"; "post"; "external"; "service"]);
    (DATA_TRANSFORMATION,
      ["transform"; "convert"; "process"; "modify"; "format"; "parse"; "extract"; "filter"]);
    (DATABASE_OPERATION,
      ["database"; "db"; "sql"; "postgres"; "mysql"; "mongodb"; "query"; "insert"; "update"]);
    (AI_AUTOMATION,
      ["ai"; "gpt"; "openai"; "llm"; "artificial intelligence"; "ml"; "summarize";
       "summarise"; "analyze"; "analyse"; "generate text"; "completion"]);
    (NOTIFICATION,
      ["notify"; "alert"; "email"; "slack"; "discord"; "telegram"; "send"; "message"]);
    (FILE_PROCESSING,
      ["file"; "csv"; "excel"; "pdf"; "upload"; "download"; "read"; "write"; "storage"]);
    (SCHEDULING,
      ["schedule"; "cron"; "timer"; "interval"; "daily"; "weekly"; "periodic"; "recurring"]);
    (ERROR_HANDLING,
      ["error"; "retry"; "fail"; "exception"; "handle"; "catch"; "fallback"; "recovery"]) ].

(** [self.intent_to_nodes]; [None] is a key that is not in the dict. *)
Definition intent_to_nodes (i : WorkflowIntent) : option (list string) :=
  match i with
  | WEBHOOK_TRIGGER => Some ["n8n-nodes-base.webhook"]
  | API_INTEGRATION => Some ["n8n-nodes-base.httpRequest"]
  | DATA_TRANSFORMATION =>
      Some ["n8n-nodes-base.code"; "n8n-nodes-base.function"; "n8n-nodes-base.itemLists"]
  | DATABASE_OPERATION =>
      Some ["n8n-nodes-base.postgres"; "n8n-nodes-base.mysql"; "n8n-nodes-base.mongodb"]
  | AI_AUTOMATION => Some ["@n8n/n8n-nodes-langchain.openAi"]
  | NOTIFICATION =>
      Some ["n8n-nodes-base.slack"; "n8n-nodes-base.emailSend"; "n8n-nodes-base.discord"]
  | FILE_PROCESSING =>
      Some ["n8n-nodes-base.readBinaryFiles"; "n8n-nodes-base.spreadsheetFile"]
  | SCHEDULING => Some ["n8n-nodes-base.scheduleTrigger"; "n8n-nodes-base.cron"]
  | ERROR_HANDLING => Some ["n8n-nodes-base.errorTrigger"; "n8n-nodes-base.stopAndError"]
  | MULTI_STEP_WORKFLOW => None
  end.

(** The [entities] dict of [_extract_entities]: five fixed keys. *)
Record Entities := {
  triggers : list string;
  actions : list string;
  services : list string;
  data_types : list string;
  conditions : list string
}.

Record QueryAnalysis := {
  original_query : string;
  cleaned_query : string;
  intent : WorkflowIntent;
  entities : Entities;
  required_nodes : list string;
  workflow_complexity : string
}.

(** [sum(1 for keyword in keywords if keyword in query)] *)
Definition keyword_score (query : string) (keywords : list string) : nat :=
  length (List.filter (fun keyword => contains keyword query) keywords).

(** The [intent_scores] dict, as the list of its items in insertion
    order: only the intents with a positive score are entered. *)
Definition intent_scores (query : string) : list (WorkflowIntent * nat) :=
  List.filter (fun p => (0 <? snd p)%nat)
    (List.map (fun p => (fst p, keyword_score query (snd p))) intent_keywords).

(** [max(d, key=d.get)]: the first key, in iteration order, whose value
    is maximal. [best] is replaced only by a strictly larger score. *)
Fixpoint max_by_score (best : WorkflowIntent * nat) (rest : list (WorkflowIntent * nat))
  : WorkflowIntent :=
  match rest with
  | [] => fst best
  | c :: rest' => max_by_score (if (snd best <? snd c)%nat then c else best) rest'
  end.

Definition _detect_intent (query : string) : WorkflowIntent :=
  match intent_scores query with
  | first :: rest => max_by_score first rest
  | [] => MULTI_STEP_WORKFLOW
  end.

(** [for word in vocabulary: if word in query: out.append(word)] *)
Definition scan (vocabulary : list string) (query : string) : list string :=
  List.filter (fun word => contains word query) vocabulary.

Definition trigger_words : list string :=
  ["when"; "on"; "trigger"; "receive"; "schedule"; "every"].

Definition service_words : list string :=
  ["slack"; "email"; "discord"; "telegram"; "google"; "github";
   "gitlab"; "jira"; "notion"; "airtable"; "salesforce"; "hubspot"].

Definition action_words : list string :=
  ["send"; "create"; "update"; "delete"; "fetch"; "transform";
   "notify"; "store"; "process"; "analyze"; "generate"].

Definition data_type_words : list string :=
  ["json"; "csv"; "xml"; "pdf"; "image"; "file"; "data"; "message"; "email"].

Definition condition_words : list string :=
  ["if"; "when"; "filter"; "contains"; "equals"; "greater"; "less"].

Definition _extract_entities (query : string) : Entities :=
  {| triggers := scan trigger_words query;
     actions := scan action_words query;
     services := scan service_words query;
     data_types := scan data_type_words query;
     conditions := scan condition_words query |}.

(** The [service_to_node] dict literal of [_identify_required_nodes]. *)
Definition service_to_node : list (string * string) :=
  [ ("slack", "n8n-nodes-base.slack");
    ("email", "n8n-nodes-base.emailSend");
    ("discord", "n8n-nodes-base.discord");
    ("telegram", "n8n-nodes-base.telegram");
    ("google", "n8n-nodes-base.googleSheets");
    ("github", "n8n-nodes-base.github");
    ("postgres", "n8n-nodes-base.postgres");
    ("mysql", "n8n-nodes-base.mysql");
    ("mongodb", "n8n-nodes-base.mongodb");
    ("openai", "@n8n/n8n-nodes-langchain.openAi");
    ("gpt", "@n8n/n8n-nodes-langchain.openAi");
    ("chatgpt", "@n8n/n8n-nodes-langchain.chatOpenAi");
    ("summarize", "@n8n/n8n-nodes-langchain.openAi");
    ("summarise", "@n8n/n8n-nodes-langchain.openAi");
    ("analyze", "@n8n/n8n-nodes-langchain.openAi");
    ("completion", "@n8n/n8n-nodes-langchain.openAi");
    ("ai_agent", "@n8n/n8n-nodes-langchain.chatOpenAi");
    ("conversational_ai", "@n8n/n8n-nodes-langchain.chatOpenAi");
    ("langchain", "@n8n/n8n-nodes-langchain.chatOpenAi");
    ("intelligent_agent", "@n8n/n8n-nodes-langchain.agent");
    ("reasoning_agent", "@n8n/n8n-nodes-langchain.agent") ].

(** Lookup in a dict literal with distinct keys. *)
Fixpoint dict_get (d : list (string * string)) (k : string) : option string :=
  match d with
  | [] => None
  | (k', v) :: rest => if String.eqb k k' then Some v else dict_get rest k
  end.

(** The loop over [entities["services"]]: a mapped block is appended
    unless it is already in the list. *)
Fixpoint add_service_nodes (svcs : list string) (required : list string) : list string :=
  match svcs with
  | [] => required
  | service :: rest =>
      match dict_get service_to_node service with
      | Some node =>
          if mem node required then add_service_nodes rest required
          else add_service_nodes rest (required ++ [node])
      | None => add_service_nodes rest required
      end
  end.

(** [any("Trigger" in node for node in required_nodes)] *)
Definition any_Trigger (required : list string) : bool :=
  existsb (contains "Trigger") required.

(** The list built by [_identify_required_nodes] before the final
    "Add trigger if needed" step. *)
Definition nodes_before_trigger (int : WorkflowIntent) (ents : Entities) : list string :=
  let r0 := match intent_to_nodes int with Some ns => ns | None => [] end in
  let r1 := add_service_nodes (services ents) r0 in
  if truthy (conditions ents) || mem "transform" (actions ents) then
    if mem "n8n-nodes-base.code" r1 then r1 else r1 ++ ["n8n-nodes-base.code"]
  else r1.

(** The entry block chosen by the "Add trigger if needed" step. *)
Definition entry_block (query : string) : string :=
  if contains "schedule" query || contains "every" query
  then "n8n-nodes-base.scheduleTrigger"
  else "n8n-nodes-base.webhook".

Definition _identify_required_nodes
    (query : string) (int : WorkflowIntent) (ents : Entities) : list string :=
  let required := nodes_before_trigger int ents in
  if truthy (triggers ents) && negb (any_Trigger required)
  then entry_block query :: required
  else required.

Definition _assess_complexity (required : list string) (ents : Entities) : string :=
  let node_count := length required in
  let has_conditions := truthy (conditions ents) in
  if (node_count <=? 2)%nat && negb has_conditions then "simple"
  else if (node_count <=? 4)%nat || ((node_count <=? 3)%nat && has_conditions) then "moderate"
  else "complex".

Definition analyze_query (query : string) : QueryAnalysis :=
  let cleaned := strip (lower query) in
  let int := _detect_intent cleaned in
  let ents := _extract_entities cleaned in
  let required := _identify_required_nodes cleaned int ents in
  {| original_query := query;
     cleaned_query := cleaned;
     intent := int;
     entities := ents;
     required_nodes := required;
     workflow_complexity := _assess_complexity required ents |}.

(** [expand_query]: the cleaned query, an intent-specific phrase for five
    of the intents, and one phrase per required block. *)
Definition intent_expansion (i : WorkflowIntent) : list string :=
  match i with
  | WEBHOOK_TRIGGER => ["webhook receiver http endpoint trigger"]
  | API_INTEGRATION => ["http request api call rest service"]
  | DATA_TRANSFORMATION => ["transform data javascript code function"]
  | AI_AUTOMATION => ["ai agent llm automation gpt openai"]
  | NOTIFICATION => ["send notification message alert"]
  | _ => []
  end.

Definition expand_query (analysis : QueryAnalysis) : list string :=
  [cleaned_query analysis]
  ++ intent_expansion (intent analysis)
  ++ List.map (fun node => String.append (after_last "." node) " node configuration example")
       (required_nodes analysis).

End QueryProcessor.

(* ===================================================================== *)
(** ** 3_retrieval_pipeline.py: N8nContextAssembler *)
(* ===================================================================== *)

Module ContextAssembler.

Import PyStr PyList QueryProcessor.

(** Chroma metadata: a flat dict of scalars, read here as strings. *)
Abbreviation Metadata := (gmap string string).

(** One formatted hit, with the three keys [_format_results] gives it. *)
Record Chunk := {
  content : string;
  metadata : Metadata;
  relevance_score : Q
}.

(** [retrieved_chunks]: collection key to hits; a key may be missing. *)
Abbreviation Retrieved := (gmap string (list Chunk)).

(** [retrieved_chunks.get(key, [])] *)
Definition get_chunks (retrieved : Retrieved) (key : string) : list Chunk :=
  default [] (retrieved !! key).

(** The [node_doc] dict of [_get_node_documentation]. *)
Record NodeDoc := {
  doc_node_type : string;
  doc_properties : Metadata;
  doc_description : string;
  doc_configuration : Metadata
}.

(** The keys [node_doc] is created with; none is ever removed. *)
Definition NodeDoc_keys : list string :=
  ["node_type"; "properties"; "description"; "configuration"].

(** [if node_docs:] a dict is falsy only when it has no key. *)
Definition node_doc_truthy (d : NodeDoc) : bool := truthy NodeDoc_keys.

Record Pattern := {
  pattern : string;
  pattern_description : string;
  relevance : Q
}.

Record Example_ := {
  example_type : string;
  example_content : string
}.

Record Context := {
  ctx_query : string;
  ctx_intent : string;
  ctx_complexity : string;
  ctx_required_nodes : list string;
  node_documentation : list NodeDoc;
  workflow_patterns : list Pattern;
  examples : list Example_;
  validation_rules : list string;
  prompt : string
}.

(** The loop of [_get_node_documentation] over the "nodes" hits: every
    hit whose content contains [node_type] overwrites the description;
    the first such hit whose metadata names exactly [node_type] also sets
    the properties and ends the loop. *)
Fixpoint scan_node_chunks (node_type : string) (chunks : list Chunk) (doc : NodeDoc)
  : NodeDoc :=
  match chunks with
  | [] => doc
  | chunk :: rest =>
      if contains node_type (content chunk) then
        let doc1 := {| doc_node_type := doc_node_type doc;
                       doc_properties := doc_properties doc;
                       doc_description := take 500 (content chunk);
                       doc_configuration := doc_configuration doc |} in
        if decide (metadata chunk !! "node_type" = Some node_type) then
          {| doc_node_type := doc_node_type doc1;
             doc_properties := metadata chunk;
             doc_description := doc_description doc1;
             doc_configuration := doc_configuration doc1 |}
        else scan_node_chunks node_type rest doc1
      else scan_node_chunks node_type rest doc
  end.

Definition _get_node_documentation (node_type : string) (retrieved : Retrieved) : NodeDoc :=
  scan_node_chunks node_type (get_chunks retrieved "nodes")
    {| doc_node_type := node_type;
       doc_properties := ∅;
       doc_description := "";
       doc_configuration := ∅ |}.

(** The "Add node documentation" loop of [assemble_context]. *)
Fixpoint collect_node_docs (required : list string) (retrieved : Retrieved)
  : list NodeDoc :=
  match required with
  | [] => []
  | node_type :: rest =>
      let node_docs := _get_node_documentation node_type retrieved in
      if node_doc_truthy node_docs
      then node_docs :: collect_node_docs rest retrieved
      else collect_node_docs rest retrieved
  end.

Definition _get_workflow_patterns (retrieved : Retrieved) : list Pattern :=
  List.firstn 3
    (List.map
       (fun template =>
          {| pattern := default "unknown" (metadata template !! "template_id");
             pattern_description := take 300 (content template);
             relevance := relevance_score template |})
       (List.filter (fun template => Qlt_bool (7 # 10) (relevance_score template))
          (get_chunks retrieved "templates"))).

Definition _get_relevant_examples (retrieved : Retrieved) : list Example_ :=
  List.firstn 2
    (List.map
       (fun task =>
          {| example_type := "task_configuration";
             example_content := take 400 (content task) |})
       (List.filter (fun task => Qlt_bool (6 # 10) (relevance_score task))
          (get_chunks retrieved "tasks"))).

(** The four rules every rule list starts with. *)
Definition base_rules : list string :=
  [ "Workflow must have at least one trigger node";
    "All node connections must be valid";
    "Node IDs must be unique";
    "Position arrays must have [x, y] coordinates" ].

Definition trigger_rule : string := "Only one trigger node per workflow".
Definition webhook_rule : string := "Webhook must have httpMethod and path parameters".
Definition code_rule : string :=
  "Code node must have valid JavaScript in jsCode parameter".

(** [_get_validation_rules]. The first test is a substring test on every
    element; the other two are list membership of the literal. *)
Definition _get_validation_rules (required : list string) : list string :=
  base_rules
  ++ (if any_Trigger required then [trigger_rule] else [])
  ++ (if mem "nodes-base.webhook" required then [webhook_rule] else [])
  ++ (if mem "nodes-base.code" required then [code_rule] else []).

Definition nl : string := String (ascii_of_nat 10) EmptyString.

Definition cat (parts : list string) : string := String.concat "" parts.

Definition _create_structured_prompt (ctx : Context) : string :=
  cat
    ([ "Generate an n8n workflow JSON for the following request:"; nl; nl;
       "USER REQUEST: "; ctx_query ctx; nl; nl;
       "WORKFLOW REQUIREMENTS:"; nl;
       "- Intent: "; ctx_intent ctx; nl;
       "- Complexity: "; ctx_complexity ctx; nl;
       "- Required Nodes: "; join ", " (ctx_required_nodes ctx); nl; nl;
       "NODE DOCUMENTATION:"; nl ]
     ++ List.map (fun d => cat [nl; doc_node_type d; ":"; nl; doc_description d; nl])
          (node_documentation ctx)
     ++ (if truthy (workflow_patterns ctx)
         then cat [nl; "RELEVANT PATTERNS:"; nl]
              :: List.map (fun p => cat ["- "; pattern_description p; nl])
                   (workflow_patterns ctx)
         else [])
     ++ (if truthy (examples ctx)
         then cat [nl; "EXAMPLES:"; nl]
              :: List.map (fun e => cat [example_content e; nl]) (examples ctx)
         else [])
     ++ [ nl; "VALIDATION RULES:"; nl;
          join nl (List.map (fun rule => String.append "- " rule) (validation_rules ctx)); nl; nl;
          "INSTRUCTIONS:"; nl;
          "1. Create a complete n8n workflow JSON"; nl;
          "2. Include all required nodes with proper configuration"; nl;
          "3. Set up correct connections between nodes"; nl;
          "4. Use appropriate node IDs and positions"; nl;
          "5. Ensure the workflow follows n8n JSON schema"; nl; nl;
          "Generate the workflow JSON:"; nl ]).

Definition assemble_context (analysis : QueryAnalysis) (retrieved : Retrieved) : Context :=
  let ctx :=
    {| ctx_query := original_query analysis;
       ctx_intent := intent_value (intent analysis);
       ctx_complexity := workflow_complexity analysis;
       ctx_required_nodes := required_nodes analysis;
       node_documentation := collect_node_docs (required_nodes analysis) retrieved;
       workflow_patterns := _get_workflow_patterns retrieved;
       examples := _get_relevant_examples retrieved;
       validation_rules := _get_validation_rules (required_nodes analysis);
       prompt := "" |} in
  {| ctx_query := ctx_query ctx;
     ctx_intent := ctx_intent ctx;
     ctx_complexity := ctx_complexity ctx;
     ctx_required_nodes := ctx_required_nodes ctx;
     node_documentation := node_documentation ctx;
     workflow_patterns := workflow_patterns ctx;
     examples := examples ctx;
     validation_rules := validation_rules ctx;
     prompt := _create_structured_prompt ctx |}.

End ContextAssembler.

(* ===================================================================== *)
(** ** 3_retrieval_pipeline.py: AdvancedN8nRetriever *)
(* ===================================================================== *)

Module Retriever.

Import PyStr PyList QueryProcessor ContextAssembler.

(** The answer of [collection.query] to one query embedding: parallel
    lists with one row per query embedding. *)
Record RawResults := {
  documents : list (list string);
  metadatas : list (list Metadata);
  distances : list (list Q)
}.

(** [_format_results]. [None] is the IndexError of [metadatas[0]] or
    [distances[0]] when the answer has a documents row but not theirs. *)
Definition _format_results (raw_results : RawResults) : option (list Chunk) :=
  match documents raw_results with
  | [] => Some []
  | docs0 :: _ =>
      metas0 ← head (metadatas raw_results);
      dists0 ← head (distances raw_results);
      Some (zip3_with
              (fun doc meta distance =>
                 {| content := doc;
                    metadata := meta;
                    relevance_score := 1 - distance / 2 |})
              docs0 metas0 dists0)
  end.

Section MultiStage.

(** The collaborators: the embedding model, the vector store's
    collections (a collection answers an embedding and a result count)
    and Python's string hash. [k_per_stage] is a count, a natural
    number: the store refuses a result count that is not positive. *)
Context {Embedding : Type}.
Variable encode : string -> Embedding.
Variable collections : gmap string (Embedding -> nat -> RawResults).
Variable hash : string -> Z.

(** The "Deduplicate and sort by relevance" loop: [acc] is
    [results["nodes"]], [seen] the set of content hashes. *)
Fixpoint dedup_loop (k_per_stage : nat) (sorted : list Chunk)
    (seen : gset Z) (acc : list Chunk) : list Chunk :=
  match sorted with
  | [] => acc
  | result :: rest =>
      let content_hash := hash (take 100 (content result)) in
      if decide (content_hash ∈ seen) then dedup_loop k_per_stage rest seen acc
      else
        let acc' := acc ++ [result] in
        if (k_per_stage <=? length acc')%nat then acc'
        else dedup_loop k_per_stage rest ({[content_hash]} ∪ seen) acc'
  end.

(** The loop over [query_embeddings[:2]] of stage 1. *)
Fixpoint node_stage_query (nodes_coll : Embedding -> nat -> RawResults)
    (embeddings : list Embedding) (k_per_stage : nat) : option (list Chunk) :=
  match embeddings with
  | [] => Some []
  | embedding :: rest =>
      here ← _format_results (nodes_coll embedding k_per_stage);
      more ← node_stage_query nodes_coll rest k_per_stage;
      Some (here ++ more)
  end.

(** Stages 2 to 4: one query with [query_embeddings[0]] when the
    collection is loaded; the key keeps its initial [[]] otherwise.
    [None] is the IndexError of [query_embeddings[0]] or of
    [_format_results]. *)
Definition single_stage (name : string) (query_embeddings : list Embedding)
    (n_results : nat) : option (list Chunk) :=
  match collections !! name with
  | None => Some []
  | Some coll =>
      embedding ← head query_embeddings;
      _format_results (coll embedding n_results)
  end.

Definition _multi_stage_retrieval (queries : list string) (analysis : QueryAnalysis)
    (k_per_stage : nat) : option Retrieved :=
  let query_embeddings := List.map encode queries in
  nodes ←
    match collections !! "n8n_nodes" with
    | None => Some []
    | Some coll =>
        node_results ← node_stage_query coll (List.firstn 2 query_embeddings) k_per_stage;
        Some (dedup_loop k_per_stage (sorted_desc relevance_score node_results) ∅ [])
    end;
  templates ← single_stage "n8n_templates" query_embeddings (Nat.min k_per_stage 3);
  tasks ← single_stage "n8n_tasks" query_embeddings (Nat.min k_per_stage 3);
  connections ← single_stage "n8n_connections" query_embeddings (Nat.min k_per_stage 2);
  Some (<["connections" := connections]>
        (<["tasks" := tasks]>
         (<["templates" := templates]>
          (<["nodes" := nodes]> ∅)))).

(** [retrieve_for_generation] without its printing. *)
Definition retrieve_for_generation (query : string) (k_per_stage : nat) : option Context :=
  let analysis := analyze_query query in
  let expanded_queries := expand_query analysis in
  retrieved_chunks ← _multi_stage_retrieval expanded_queries analysis k_per_stage;
  Some (assemble_context analysis retrieved_chunks).

End MultiStage.

End Retriever.

(* ===================================================================== *)
(** ** 4_ollama_integration.py: service-aware reranking *)
(* ===================================================================== *)

Module OllamaIntegration.

Import PyStr PyList.

Abbreviation Metadata := (gmap string string).

(** The answer of [collection.query(query_texts=[query], ...)]; a hit's
    metadata may be [None]. *)
Record QueryResults := {
  documents : list (list string);
  metadatas : list (list (option Metadata));
  distances : list (list Q)
}.

(** One entry of [scored_results]. *)
Record ScoredResult := {
  document : string;
  metadata : option Metadata;
  distance : Q;
  score : Q;
  service_bonus : Q
}.

(** [service_patterns] of [_detect_service_mentions], in dict order. *)
Definition service_patterns : list (string * list string) :=
  [ ("gmail", ["gmail"; "google mail"; "gmail account"; "gmail api"]);
    ("whatsapp", ["whatsapp"; "whats app"; "whatsapp message"; "whatsapp business"; "wa message"]);
    ("telegram", ["telegram"; "telegram bot"; "telegram message"]);
    ("slack", ["slack"; "slack channel"; "slack notification"]);
    ("discord", ["discord"; "discord bot"; "discord message"]);
    ("reddit", ["reddit"; "reddit post"; "reddit posts"; "reddit subreddit"; "subreddit";
                "r/"; "/r/"; "reddit data"; "reddit feed"; "reddit api"; "from reddit";
                "reddit content"]);
    ("twitter", ["twitter"; "tweet"; "x.com"]);
    ("linkedin", ["linkedin"; "linkedin post"]);
    ("facebook", ["facebook"; "fb"]);
    ("instagram", ["instagram"; "insta"]);
    ("youtube", ["youtube"; "youtube video"]);
    ("postgres", ["postgres"; "postgresql"; "pg"]);
    ("mysql", ["mysql"]);
    ("mongodb", ["mongodb"; "mongo"]);
    ("salesforce", ["salesforce"; "sfdc"]);
    ("hubspot", ["hubspot"]);
    ("notion", ["notion"]);
    ("trello", ["trello"]);
    ("asana", ["asana"]);
    ("jira", ["jira"]);
    ("github", ["github"; "git"]);
    ("aws", ["aws"; "amazon web services"]);
    ("outlook", ["outlook"; "microsoft outlook"; "office 365"]);
    ("smtp", ["smtp"; "email server"; "mail server"]);
    ("webhook", ["webhook"; "http trigger"]);
    ("openai", ["openai"; "open ai"; "gpt"; "chatgpt"; "summarize"; "summarise";
                "ai summary"; "ai analysis"; "ai processing"; "llm"; "language model"]);
    ("openai_assistant", ["assistant"; "create assistant"; "openai assistant"; "ai assistant"]) ].

(** A service is detected when one of its patterns occurs in the query. *)
Definition _detect_service_mentions (query : string) : list string :=
  List.map fst
    (List.filter (fun entry => existsb (fun p => contains p query) (snd entry))
       service_patterns).

(** The bonus one detected service adds to a hit whose lowered block
    identifier [node_type] contains it. *)
Definition match_bonus (service node_type : string) : Q :=
  if String.eqb service "gmail" && contains "gmail" node_type then 5 # 10
  else if String.eqb service "reddit" && contains "reddit" node_type then 5 # 10
  else if String.eqb service "whatsapp" && contains "whatsapp" node_type then 5 # 10
  else if String.eqb service "openai" && contains "openai" node_type then 5 # 10
  else if String.eqb service "smtp" && contains "emailsend" node_type then 2 # 10
  else 3 # 10.

(** The loop "Strong bonus for exact service matches". *)
Fixpoint entity_bonus (service_mentions : list string) (node_type : string) (acc : Q) : Q :=
  match service_mentions with
  | [] => acc
  | service :: rest =>
      if contains service node_type
      then entity_bonus rest node_type (acc + match_bonus service node_type)%Q
      else entity_bonus rest node_type acc
  end.

(** "Penalize generic nodes when specific service is detected": the
    amount subtracted from the bonus. *)
Definition generic_penalty (service_mentions : list string) (node_type : string) : Q :=
  if truthy service_mentions then
    if mem "reddit" service_mentions && contains "httprequest" (lower node_type) then 3 # 10
    else if mem "gmail" service_mentions && contains "emailsend" (lower node_type) then 3 # 10
    else 0
  else 0.

(** The loop "Content relevance bonus" over the lowered document. *)
Fixpoint content_bonus (service_mentions : list string) (doc_lower : string) (acc : Q) : Q :=
  match service_mentions with
  | [] => acc
  | service :: rest =>
      if contains service doc_lower
      then content_bonus rest doc_lower (acc + (1 # 10))%Q
      else content_bonus rest doc_lower acc
  end.

(** [metadata and metadata.get('node_type')]: the block identifier of a
    hit whose metadata is a non-empty dict with a non-empty "node_type". *)
Definition block_identifier (metadata : option Metadata) : option string :=
  match metadata with
  | Some m =>
      match m !! "node_type" with
      | Some "" => None
      | other => other
      end
  | None => None
  end.

(** [service_bonus] of one hit. *)
Definition hit_service_bonus (service_mentions : list string)
    (document : string) (metadata : option Metadata) : Q :=
  match block_identifier metadata with
  | Some raw_node_type =>
      let node_type := lower raw_node_type in
      let b1 := entity_bonus service_mentions node_type 0 in
      let b2 := (b1 - generic_penalty service_mentions node_type)%Q in
      if String.eqb document "" then b2
      else content_bonus service_mentions (lower document) b2
  | None => 0
  end.

(** [1.0 / (1.0 + distance)]; [None] is the ZeroDivisionError at
    distance -1. *)
Definition base_score (distance : Q) : option Q :=
  if Qeq_bool (1 + distance) 0 then None else Some (1 / (1 + distance))%Q.

Definition score_hit (service_mentions : list string)
    (document : string) (metadata : option Metadata) (distance : Q)
  : option ScoredResult :=
  base ← base_score distance;
  let bonus := hit_service_bonus service_mentions document metadata in
  Some {| document := document;
          metadata := metadata;
          distance := distance;
          score := (base + bonus)%Q;
          service_bonus := bonus |}.

(** The three values read at index [i]; [None] is an IndexError of one
    of the three rows. *)
Definition hit (results : QueryResults) (i : nat)
  : option (string * option Metadata * Q) :=
  docs0 ← head (documents results);
  document ← docs0 !! i;
  metas0 ← head (metadatas results);
  metadata ← metas0 !! i;
  dists0 ← head (distances results);
  distance ← dists0 !! i;
  Some (document, metadata, distance).

(** The body of the loop at index [i]. *)
Definition score_at (results : QueryResults) (service_mentions : list string) (i : nat)
  : option ScoredResult :=
  h ← hit results i;
  score_hit service_mentions h.1.1 h.1.2 h.2.

Definition _rank_results_by_service_relevance
    (results : QueryResults) (service_mentions : list string) (query : string)
  : option (list ScoredResult) :=
  match documents results with
  | [] => Some []
  | [] :: _ => Some []
  | docs0 :: _ =>
      scored_results ← mapM (score_at results service_mentions) (seq 0 (length docs0));
      Some (sorted_desc score scored_results)
  end.

(** An entry of [context["retrieved_documents"]]. *)
Record RetrievedDocument := {
  rd_content : string;
  rd_metadata : option Metadata;
  relevance_score : Q
}.

(** The documents part of [get_relevant_context] when the vector client
    answered: rank, keep the first [n_results], copy the score. An
    exception inside is caught and leaves the list empty. *)
Definition retrieved_documents (results : QueryResults) (query : string) (n_results : nat)
  : list RetrievedDocument :=
  let service_mentions := _detect_service_mentions (lower query) in
  match _rank_results_by_service_relevance results service_mentions (lower query) with
  | Some scored_results =>
      List.map
        (fun result_data =>
           {| rd_content := document result_data;
              rd_metadata := metadata result_data;
              relevance_score := score result_data |})
        (List.firstn n_results scored_results)
  | None => []
  end.

End OllamaIntegration.

(* ===================================================================== *)
(** ** 5_feedback_loop_system.py: FeedbackLoop *)
(* ===================================================================== *)

Module FeedbackLoop.

Import PyStr PyList ContextAssembler.

(** A JSON value, for the [workflow] argument. *)
#[local] Unset Elimination Schemes.
Inductive Json :=
| JNull
| JBool (b : bool)
| JNum (q : Q)
| JStr (s : string)
| JList (items : list Json)
| JDict (items : list (string * Json)).
#[local] Set Elimination Schemes.

(** [workflow: Optional[Dict]]: [None] or the items of a dict. *)
Definition Workflow := option (list (string * Json)).

(** [if workflow]: neither [None] nor the empty dict. *)
Definition workflow_truthy (workflow : Workflow) : bool :=
  match workflow with
  | Some (_ :: _) => true
  | _ => false
  end.

(** The [context] dict handed to [record_generation], read with
    [.get(key, default)]: every key may be missing. *)
Record GenContext := {
  gc_intent : option string;
  gc_complexity : option string;
  gc_required_nodes : option (list string);
  gc_node_documentation : option (list NodeDoc);
  gc_workflow_patterns : option (list Pattern);
  gc_examples : option (list Example_)
}.

(** A row of [generation_history]. The JSON columns hold the value whose
    JSON text the code stores; [id] is the position in the table and the
    timestamp column is not modelled. *)
Record HistoryRow := {
  h_query : string;
  h_intent : string;
  h_complexity : string;
  h_required_nodes : list string;
  h_retrieved_chunks : nat * nat * nat;
  h_generated_workflow : Workflow;
  h_success : bool;
  h_validation_errors : option (list string);
  h_user_feedback : option Z
}.

(** A row of [node_effectiveness], keyed by [node_type]. *)
Record NodeRow := {
  total_uses : Z;
  successful_uses : Z;
  avg_relevance_score : Q
}.

(** A row of [pattern_success], keyed by [pattern_id]. *)
Record PatternRow := {
  p_description : string;
  p_total_uses : Z;
  p_successful_uses : Z;
  effectiveness_score : Q
}.

(** The SQLite file, in the rollback-journal mode the code leaves it in:
    the committed rows of the three tables, and whether a connection
    holds the write lock of the file with a statement it has not
    committed. While the lock is held the other connections still read
    the committed rows, and a write statement of theirs is refused: after
    the busy timeout it raises sqlite3.OperationalError, "database is
    locked". Timestamps are not modelled. *)
Record Database := {
  generation_history : list HistoryRow;
  node_effectiveness : gmap string NodeRow;
  pattern_success : gmap string PatternRow;
  write_lock : bool
}.

(** The [FeedbackLoop] object: the database and the two weight caches. *)
Record State := {
  db : Database;
  node_success_rates : gmap string Q;
  pattern_effectiveness : gmap string Q
}.

(** [FeedbackLoop()] on a fresh database file. *)
Definition init : State :=
  {| db := {| generation_history := [];
              node_effectiveness := ∅;
              pattern_success := ∅;
              write_lock := false |};
     node_success_rates := ∅;
     pattern_effectiveness := ∅ |}.

(** The file with its write lock taken or released; the committed rows
    stay as they are. *)
Definition with_lock (d : Database) (held : bool) : Database :=
  {| generation_history := generation_history d;
     node_effectiveness := node_effectiveness d;
     pattern_success := pattern_success d;
     write_lock := held |}.

(** [a / b if b > 0 else 0] on integers, as a float. *)
Definition ratio (a b : Z) : Q :=
  if (0 <? b)%Z then (inject_Z a / inject_Z b)%Q else 0%Q.

(** The body of the loop of [_update_node_effectiveness] for one block. *)
Definition update_node (success : bool) (table : gmap string NodeRow) (node_type : string)
  : gmap string NodeRow :=
  match table !! node_type with
  | Some result =>
      let total := (total_uses result + 1)%Z in
      let successful :=
        if success then (successful_uses result + 1)%Z else successful_uses result in
      <[node_type := {| total_uses := total;
                        successful_uses := successful;
                        avg_relevance_score := ratio successful total |}]> table
  | None =>
      <[node_type := {| total_uses := 1;
                        successful_uses := if success then 1 else 0;
                        avg_relevance_score := if success then 1 else 0 |}]> table
  end.

(** [_update_node_effectiveness] opens a connection of its own. With no
    block listed it executes no statement and its commit does nothing.
    Otherwise the first UPDATE or INSERT of the loop needs the write
    lock: [None] is the OperationalError it raises when another
    connection holds it; when the lock is free every statement of the
    loop takes effect and is committed. *)
Definition _update_node_effectiveness (d : Database) (context : GenContext) (success : bool)
  : option Database :=
  let nodes := default [] (gc_required_nodes context) in
  match nodes with
  | [] => Some d
  | _ :: _ =>
      if write_lock d then None
      else Some {| generation_history := generation_history d;
                   node_effectiveness :=
                     List.fold_left (update_node success) nodes (node_effectiveness d);
                   pattern_success := pattern_success d;
                   write_lock := false |}
  end.

(** The body of the loop of [_update_pattern_effectiveness]. *)
Definition update_pattern (success : bool) (table : gmap string PatternRow) (p : Pattern)
  : gmap string PatternRow :=
  let pattern_id := pattern p in
  match table !! pattern_id with
  | Some result =>
      let total := (p_total_uses result + 1)%Z in
      let successful :=
        if success then (p_successful_uses result + 1)%Z else p_successful_uses result in
      <[pattern_id := {| p_description := p_description result;
                         p_total_uses := total;
                         p_successful_uses := successful;
                         effectiveness_score := ratio successful total |}]> table
  | None =>
      <[pattern_id := {| p_description := pattern_description p;
                         p_total_uses := 1;
                         p_successful_uses := if success then 1 else 0;
                         effectiveness_score := if success then 1 else 0 |}]> table
  end.

(** [_update_pattern_effectiveness], with a connection of its own like
    [_update_node_effectiveness]. *)
Definition _update_pattern_effectiveness (d : Database) (context : GenContext)
    (success : bool) : option Database :=
  let patterns := default [] (gc_workflow_patterns context) in
  match patterns with
  | [] => Some d
  | _ :: _ =>
      if write_lock d then None
      else Some {| generation_history := generation_history d;
                   node_effectiveness := node_effectiveness d;
                   pattern_success :=
                     List.fold_left (update_pattern success) patterns (pattern_success d);
                   write_lock := false |}
  end.

(** The row [record_generation] inserts. *)
Definition history_row (query : string) (context : GenContext) (workflow : Workflow)
    (success : bool) (validation_errors : option (list string))
    (user_feedback : option Z) : HistoryRow :=
  {| h_query := query;
     h_intent := default "unknown" (gc_intent context);
     h_complexity := default "unknown" (gc_complexity context);
     h_required_nodes := default [] (gc_required_nodes context);
     h_retrieved_chunks :=
       (length (default [] (gc_node_documentation context)),
        length (default [] (gc_workflow_patterns context)),
        length (default [] (gc_examples context)));
     h_generated_workflow := if workflow_truthy workflow then workflow else None;
     h_success := success;
     h_validation_errors :=
       match validation_errors with
       | Some (e :: es) => Some (e :: es)
       | _ => None
       end;
     h_user_feedback := user_feedback |}.

(** How a call ends: it returns, or it raises sqlite3.OperationalError. *)
Inductive Outcome := Returns | Raises.

(** [record_generation]: how the call ends, and the object and the file
    afterwards.

    The INSERT into the history needs the write lock; it is refused when
    a connection left open by an earlier call still holds it. Otherwise
    the connection of [record_generation] holds the lock, with the new
    row not yet committed, while the two update methods run with
    connections of their own. When neither raises, the row is committed,
    the lock released and the caches cleared. When one raises, the
    exception leaves [record_generation] before its commit and before the
    caches are cleared; its connection stays open, holding the lock with
    the uncommitted row, until the connection object is destroyed (see
    [collect]). *)
Definition record_generation (self : State) (query : string) (context : GenContext)
    (workflow : Workflow) (success : bool) (validation_errors : option (list string))
    (user_feedback : option Z) : Outcome * State :=
  let d0 := db self in
  if write_lock d0 then (Raises, self)
  else
    let held := with_lock d0 true in
    let updated :=
      d1 ← (if success && workflow_truthy workflow
            then _update_node_effectiveness held context true
            else if negb success then _update_node_effectiveness held context false
            else Some held);
      _update_pattern_effectiveness d1 context success in
    match updated with
    | Some d2 =>
        (Returns,
         {| db := {| generation_history :=
                       generation_history d2
                       ++ [history_row query context workflow success validation_errors
                             user_feedback];
                     node_effectiveness := node_effectiveness d2;
                     pattern_success := pattern_success d2;
                     write_lock := false |};
            node_success_rates := ∅;
            pattern_effectiveness := ∅ |})
    | None =>
        (Raises,
         {| db := held;
            node_success_rates := node_success_rates self;
            pattern_effectiveness := pattern_effectiveness self |})
    end.

(** The connections that raising calls left open are destroyed, by
    reference counting or by the garbage collector, at some point after
    the exception is handled: their uncommitted statements are rolled
    back and the write lock is released. *)
Definition collect (self : State) : State :=
  {| db := with_lock (db self) false;
     node_success_rates := node_success_rates self;
     pattern_effectiveness := pattern_effectiveness self |}.

(** [if not self.node_success_rates]: the cache is the empty dict. *)
Definition cache_empty (cache : gmap string Q) : bool := bool_decide (cache = ∅).

(** [SELECT node_type, avg_relevance_score FROM node_effectiveness
     WHERE total_uses > 0], as a dict. *)
Definition select_node_weights (d : Database) : gmap string Q :=
  avg_relevance_score <$> filter (fun kv => (0 < total_uses (snd kv))%Z) (node_effectiveness d).

Definition select_pattern_weights (d : Database) : gmap string Q :=
  effectiveness_score <$> filter (fun kv => (0 < p_total_uses (snd kv))%Z) (pattern_success d).

(** [get_node_weights]: the returned dict and the object afterwards. *)
Definition get_node_weights (self : State) : gmap string Q * State :=
  if cache_empty (node_success_rates self) then
    let weights := select_node_weights (db self) in
    (weights, {| db := db self;
                 node_success_rates := weights;
                 pattern_effectiveness := pattern_effectiveness self |})
  else (node_success_rates self, self).

Definition get_pattern_weights (self : State) : gmap string Q * State :=
  if cache_empty (pattern_effectiveness self) then
    let weights := select_pattern_weights (db self) in
    (weights, {| db := db self;
                 node_success_rates := node_success_rates self;
                 pattern_effectiveness := weights |})
  else (pattern_effectiveness self, self).

End FeedbackLoop.

(* ===================================================================== *)
(** ** chunking_utils.py: IntelligentChunker *)
(* ===================================================================== *)

Module ChunkingUtils.

Record IntelligentChunker := {
  chunk_size : Z;
  chunk_overlap : Z;
  separators : list string
}.

(** The separators used when the constructor is given none. *)
Definition default_separators : list string :=
  [ String (ascii_of_nat 10) (String (ascii_of_nat 10) EmptyString);
    String (ascii_of_nat 10) EmptyString;
    ". "; ", "; " "; "" ].

Section Splitter.

(** [RecursiveCharacterTextSplitter(...).split_text] of the
    langchain_text_splitters package, configured by the chunker. *)
Variable text_splitter : IntelligentChunker -> string -> list string.

Definition split_text (self : IntelligentChunker) (text : string) : list string :=
  if String.eqb text "" || (Z.of_nat (String.length text) <=? chunk_size self)%Z
  then (if String.eqb text "" then [] else [text])
  else text_splitter self text.

End Splitter.

End ChunkingUtils.

(* ===================================================================== *)
(** ** Predicates used in the statements *)
(* ===================================================================== *)

Module Statements.

Import PyStr PyList.

(** [desc key a b]: [a] may stand before [b] in a list sorted by
    descending key. *)
Definition desc {A} (key : A -> Q) (a b : A) : Prop := (key b <= key a)%Q.

(** A hit's block identifier textually contains a detected service. *)
Definition entity_match (service_mentions : list string)
    (metadata : option OllamaIntegration.Metadata) : bool :=
  match OllamaIntegration.block_identifier metadata with
  | Some node_type => existsb (fun service => contains service (lower node_type)) service_mentions
  | None => false
  end.

(** A hit is penalized as a generic fallback block. *)
Definition penalized (service_mentions : list string)
    (metadata : option OllamaIntegration.Metadata) : bool :=
  match OllamaIntegration.block_identifier metadata with
  | Some node_type =>
      negb (Qeq_bool (OllamaIntegration.generic_penalty service_mentions (lower node_type)) 0)
  | None => false
  end.

(** The complexity rating in the words of the specification: SIMPLE for
    at most 2 blocks and no conditions; COMPLEX for more than 4 blocks, or
    more than 3 blocks with conditions; MODERATE otherwise. *)
Definition complexity_per_spec (node_count : nat) (has_conditions : bool) : string :=
  if (node_count <=? 2)%nat && negb has_conditions then "simple"
  else if (4 <? node_count)%nat || ((3 <? node_count)%nat && has_conditions) then "complex"
  else "moderate".

(** The scheduling scenario of the specification, as it is worded. *)
Definition scheduling_scenario (a : QueryProcessor.QueryAnalysis) : Prop :=
  QueryProcessor.intent a = QueryProcessor.SCHEDULING /\
  QueryProcessor.triggers (QueryProcessor.entities a) <> [] /\
  head (QueryProcessor.required_nodes a) = Some "n8n-nodes-base.scheduleTrigger" /\
  In "n8n-nodes-base.httpRequest" (QueryProcessor.required_nodes a) /\
  In "n8n-nodes-base.postgres" (QueryProcessor.required_nodes a) /\
  (QueryProcessor.workflow_complexity a = "moderate" \/
   QueryProcessor.workflow_complexity a = "complex").

(** The vector store's side of [collection.query(..., n_results=n)]: an
    answer with a documents row has at most [n] documents in it and has a
    metadatas row and a distances row. *)
Definition store_contract (raw : Retriever.RawResults) (n : nat) : Prop :=
  match Retriever.documents raw with
  | [] => True
  | docs0 :: _ =>
      (length docs0 <= n)%nat /\ Retriever.metadatas raw <> [] /\ Retriever.distances raw <> []
  end.

(** The content hashes the deduplication compares. *)
Definition content_hashes (hash : string -> Z) (l : list ContextAssembler.Chunk) : list Z :=
  List.map (fun r => hash (take 100 (ContextAssembler.content r))) l.

(** The number of times block [x] is listed in [nodes]. *)
Definition occurrences (x : string) (nodes : list string) : Z :=
  Z.of_nat (length (List.filter (String.eqb x) nodes)).

(** The counters of block [x] in the effectiveness table; a block without
    a record counts as never used. *)
Definition uses (table : gmap string FeedbackLoop.NodeRow) (x : string) : Z * Z :=
  match table !! x with
  | Some row => (FeedbackLoop.total_uses row, FeedbackLoop.successful_uses row)
  | None => (0%Z, 0%Z)
  end.

(** A record's score is the ratio of its counters. *)
Definition consistent (row : FeedbackLoop.NodeRow) : Prop :=
  FeedbackLoop.avg_relevance_score row
    = FeedbackLoop.ratio (FeedbackLoop.successful_uses row) (FeedbackLoop.total_uses row).

End Statements.

(* ===================================================================== *)
(** ** Concrete inputs used in examples *)
(* ===================================================================== *)

Module Samples.

Import OllamaIntegration.

(** Two hits with the same document and distance; the second one's block
    identifier contains "smtp" and "emailsend". *)
Definition smtp_results : QueryResults :=
  {| documents := [["Send an email"; "Send an email"]];
     metadatas := [[Some {["node_type" := "n8n-nodes-base.set"]};
                    Some {["node_type" := "n8n-nodes-smtp.emailSend"]}]];
     distances := [[1 # 2; 1 # 2]] |}.

Definition smtp_query : string := "send the report with gmail or smtp".

(** Two hits with the same document and distance; the second one is the
    gmail block. *)
Definition gmail_results : QueryResults :=
  {| documents := [["Send an email"; "Send an email"]];
     metadatas := [[Some {["node_type" := "n8n-nodes-base.emailSend"]};
                    Some {["node_type" := "n8n-nodes-base.gmail"]}]];
     distances := [[1 # 2; 1 # 2]] |}.

Definition gmail_query : string := "send the report with gmail".

Definition scheduling_query : string :=
  "every day at 7am fetch data from an api and store in postgres".

(** A query with the single condition word "filter" and the single
    service "slack". *)
Definition filter_query : string := "filter slack".

(** A notification request; no hit was retrieved for it. *)
Definition slack_query : string := "send a slack message".

(** A request whose only required block is the webhook block. *)
Definition webhook_query : string := "listen for an incoming webhook".

(** One hit at squared-L2 distance 3. *)
Definition far_results : Retriever.RawResults :=
  {| Retriever.documents := [["Webhook node"]];
     Retriever.metadatas := [[{["node_type" := "n8n-nodes-base.webhook"]}]];
     Retriever.distances := [[3%Q]] |}.

(** One hit at cosine distance 1/2. *)
Definition near_results : Retriever.RawResults :=
  {| Retriever.documents := [["Webhook node"]];
     Retriever.metadatas := [[{["node_type" := "n8n-nodes-base.webhook"]}]];
     Retriever.distances := [[1 # 2]] |}.

(** A store with the nodes and the templates collections only. Each
    answers with the first [n] of its three documents. *)
Definition sample_collection (docs : list string) (embedding : string) (n : nat)
  : Retriever.RawResults :=
  {| Retriever.documents := [List.firstn n docs];
     Retriever.metadatas := [List.map (fun _ => ∅) docs];
     Retriever.distances := [List.map (fun d => Z.of_nat (String.length d) # 100) docs] |}.

Definition sample_collections : gmap string (string -> nat -> Retriever.RawResults) :=
  {[ "n8n_nodes" := sample_collection ["Slack node"; "Webhook node"; "Code node"];
     "n8n_templates" := sample_collection ["Webhook to Slack"; "Daily report"; "Sync"] ]}.

(** A stand-in for Python's string hash. *)
Definition sample_hash (s : string) : Z := Z.of_nat (String.length s).

(** A context whose only required block is [x]. *)
Definition block_context (x : string) : FeedbackLoop.GenContext :=
  {| FeedbackLoop.gc_intent := Some "notification";
     FeedbackLoop.gc_complexity := Some "simple";
     FeedbackLoop.gc_required_nodes := Some [x];
     FeedbackLoop.gc_node_documentation := None;
     FeedbackLoop.gc_workflow_patterns := None;
     FeedbackLoop.gc_examples := None |}.

(** A generated workflow: a dict with an empty list of nodes. *)
Definition some_workflow : FeedbackLoop.Workflow :=
  Some [("nodes", FeedbackLoop.JList [])].

(** The object after one recorded success, and after one recorded
    failure, for block [x], however the call ends. *)
Definition record_success (x : string) (self : FeedbackLoop.State) : FeedbackLoop.State :=
  (FeedbackLoop.record_generation self "q" (block_context x) some_workflow true None None).2.

Definition record_failure (x : string) (self : FeedbackLoop.State) : FeedbackLoop.State :=
  (FeedbackLoop.record_generation self "q" (block_context x) None false
     (Some ["invalid connection"]) None).2.

(** [IntelligentChunker()] with its default parameters. *)
Definition default_chunker : ChunkingUtils.IntelligentChunker :=
  {| ChunkingUtils.chunk_size := 800;
     ChunkingUtils.chunk_overlap := 100;
     ChunkingUtils.separators := ChunkingUtils.default_separators |}.

(** A stand-in for the library splitter: cut at every space. *)
Fixpoint split_at_spaces (current text : string) : list string :=
  match text with
  | EmptyString => [current]
  | String c rest =>
      if Ascii.eqb c " " then current :: split_at_spaces "" rest
      else split_at_spaces (current ++ String c "") rest
  end.

Definition sample_splitter (self : ChunkingUtils.IntelligentChunker) (text : string)
  : list string :=
  split_at_spaces "" text.

End Samples.

(* ===================================================================== *)
(** ** 3_retrieval_pipeline.py: AdvancedN8nRetriever.retrieve_context *)
(* ===================================================================== *)

Module RetrieveContext.

Import PyStr PyList QueryProcessor ContextAssembler Retriever.

(** The dict [retrieve_context] returns. *)
Record RagContext := {
  retrieved_documents : list string;
  confidence : Q;
  rag_node_documentation : list NodeDoc;
  rag_workflow_patterns : list Pattern;
  rag_examples : list Example_;
  rag_prompt : string
}.

(** [doc.get("content", "")] on the three kinds of dict of an assembled
    context: a node documentation dict (keys node_type, properties,
    description, configuration) and a pattern dict (keys pattern,
    description, relevance) have no "content" key; an example dict has. *)
Definition node_doc_content (d : NodeDoc) : string := "".
Definition pattern_content (p : Pattern) : string := "".
Definition example_get_content (e : Example_) : string := example_content e.

Section WithStore.

Context {Embedding : Type}.
Variable encode : string -> Embedding.
Variable collections : gmap string (Embedding -> nat -> RawResults).
Variable hash : string -> Z.

(** [retrieve_context]: only the original query of the analysis it is
    given is used; an exception of the pipeline gives the empty answer
    with confidence 0. *)
Definition retrieve_context (query_analysis : QueryAnalysis) : RagContext :=
  match retrieve_for_generation encode collections hash (original_query query_analysis) 5 with
  | Some context =>
      {| retrieved_documents :=
           List.map node_doc_content (node_documentation context)
           ++ List.map pattern_content (workflow_patterns context)
           ++ List.map example_get_content (examples context);
         confidence := 8 # 10;
         rag_node_documentation := node_documentation context;
         rag_workflow_patterns := workflow_patterns context;
         rag_examples := examples context;
         rag_prompt := prompt context |}
  | None =>
      {| retrieved_documents := [];
         confidence := 0;
         rag_node_documentation := [];
         rag_workflow_patterns := [];
         rag_examples := [];
         rag_prompt := "" |}
  end.

End WithStore.

End RetrieveContext.

(* ===================================================================== *)
(** ** 4_ollama_integration.py: get_relevant_context *)
(* ===================================================================== *)

Module OllamaContext.

Import PyStr PyList OllamaIntegration.

(** [service_mapping] of [_extract_service_key], in dict order. *)
Definition service_mapping : list (string * string) :=
  [ ("gmail", "gmail"); ("whatsapp", "whatsapp"); ("telegram", "telegram");
    ("slack", "slack"); ("discord", "discord"); ("reddit", "reddit");
    ("emailsend", "smtp"); ("webhook", "webhook"); ("postgres", "postgres");
    ("mysql", "mysql"); ("mongodb", "mongodb"); ("salesforce", "salesforce");
    ("hubspot", "hubspot"); ("outlook", "outlook"); ("openai", "openai");
    ("openai_assistant", "openai_assistant"); ("gpt", "openai") ].

(** The first element of [l] that satisfies [f], mapped by [g]: a [for]
    loop that returns at the first match. *)
Fixpoint first_match {A B} (f : A -> bool) (g : A -> B) (l : list A) : option B :=
  match l with
  | [] => None
  | x :: rest => if f x then Some (g x) else first_match f g rest
  end.

Definition _extract_service_key (node_type : string) (service_mentions : list string)
  : string :=
  if String.eqb node_type "" then ""
  else
    let node_lower := lower node_type in
    match first_match (fun service => contains service node_lower) id service_mentions with
    | Some service => service
    | None =>
        match first_match (fun entry => contains (fst entry) node_lower) snd service_mapping with
        | Some mapped_service => mapped_service
        | None =>
            let service_name :=
              if has_char "." node_type then after_last "." node_type else node_type in
            lower service_name
        end
    end.

(** The update of [node_types] for one ranked result: a key that was
    detected in the query is overwritten, any other key is set only when
    it is new. *)
Definition node_types_step (service_mentions : list string)
    (node_types : gmap string string) (result_data : ScoredResult) : gmap string string :=
  match metadata result_data with
  | Some m =>
      if bool_decide (m = ∅) then node_types
      else
        let node_type := default "" (m !! "node_type") in
        if String.eqb node_type "" then node_types
        else
          let service_key := _extract_service_key node_type service_mentions in
          if String.eqb service_key "" then node_types
          else if mem service_key service_mentions
               then <[service_key := node_type]> node_types
               else match node_types !! service_key with
                    | Some _ => node_types
                    | None => <[service_key := node_type]> node_types
                    end
  | None => node_types
  end.

(** The [context] dict of [get_relevant_context]; [detected_services] is
    missing when the method returns early. *)
Record RelevantContext := {
  context_documents : list RetrievedDocument;
  node_types : gmap string string;
  detected_services : option (list string)
}.

Definition empty_context : RelevantContext :=
  {| context_documents := []; node_types := ∅; detected_services := None |}.

(** [get_relevant_context]. [vector_answer] is [None] when there is no
    vector client, otherwise the answer of the nodes collection to the
    query for [2 * n_results] results. An exception of the ranking is
    caught and the context returned as it is then: empty. *)
Definition get_relevant_context (vector_answer : option QueryResults)
    (query : string) (n_results : nat) : RelevantContext :=
  match vector_answer with
  | None => empty_context
  | Some results =>
      let service_mentions := _detect_service_mentions (lower query) in
      match _rank_results_by_service_relevance results service_mentions (lower query) with
      | Some ranked =>
          let scored_results := List.firstn n_results ranked in
          {| context_documents :=
               List.map
                 (fun result_data =>
                    {| rd_content := document result_data;
                       rd_metadata := metadata result_data;
                       relevance_score := score result_data |})
                 scored_results;
             node_types :=
               List.fold_left (node_types_step service_mentions) scored_results ∅;
             detected_services := Some service_mentions |}
      | None => empty_context
      end
  end.

End OllamaContext.

(* ===================================================================== *)
(** ** chunking_utils.py: chunk objects, JSON splitting, size validation *)
(* ===================================================================== *)

Module ChunkObjects.

Import ChunkingUtils.

Abbreviation Json := FeedbackLoop.Json.
Abbreviation JBool := FeedbackLoop.JBool.
Abbreviation JNum := FeedbackLoop.JNum.
Abbreviation JDict := FeedbackLoop.JDict.

(** [len(s)] as a Python int. *)
Definition len (s : string) : Z := Z.of_nat (String.length s).

(** [str(i)] of a non-negative int, as the f-string of the chunk
    identifier formats it. *)
Definition str (i : nat) : string := NilEmpty.string_of_uint (Nat.to_uint i).

(** A Python int as a JSON number. *)
Definition JInt (z : Z) : Json := JNum (inject_Z z).

(** The dict built for every chunk. *)
Record ChunkObject := {
  chunk_id : string;
  chunk_type : string;
  content : string;
  embedding_text : string;
  metadata : gmap string Json
}.

(** The dict [validate_chunk_sizes] returns: the key "status" is always
    there, "chunks" only in the answer for an empty list, "stats" and
    "oversized_chunks" only in the other. *)
Record Stats := {
  total_chunks : Z;
  avg_size : Q;
  min_size : Z;
  max_size : Z;
  oversized_count : Z;
  size_compliance : Q
}.

Record Validation := {
  status : string;
  chunks : option Z;
  stats : option Stats;
  oversized_chunks : option (list Z)
}.

(** [sum], [min] and [max] of a list of ints; the source applies [min]
    and [max] to non-empty lists only. *)
Definition py_sum (sizes : list Z) : Z := List.fold_right Z.add 0%Z sizes.

Definition py_min (sizes : list Z) : Z :=
  match sizes with
  | [] => 0%Z
  | first :: others => List.fold_left Z.min others first
  end.

Definition py_max (sizes : list Z) : Z :=
  match sizes with
  | [] => 0%Z
  | first :: others => List.fold_left Z.max others first
  end.

(** [s > self.chunk_size * 1.2]: the product is compared exactly with
    the int [s]; the literal 1.2 is the rational 6/5. *)
Definition is_oversized (self : IntelligentChunker) (s : Z) : bool :=
  PyList.Qlt_bool (inject_Z (chunk_size self) * (12 # 10)) (inject_Z s).

(** [validate_chunk_sizes]; every chunk is a dict with the key "content",
    as [create_overlapping_chunks] builds it, so the default of
    [chunk.get("content", "")] is not used. *)
Definition validate_chunk_sizes (self : IntelligentChunker) (chunk_list : list ChunkObject)
  : Validation :=
  match chunk_list with
  | [] => {| status := "empty"; chunks := Some 0%Z; stats := None;
             oversized_chunks := None |}
  | _ =>
      let sizes := List.map (fun chunk => len (content chunk)) chunk_list in
      let oversized := List.filter (is_oversized self) sizes in
      let total := Z.of_nat (length chunk_list) in
      {| status := if (Z.of_nat (length oversized) =? 0)%Z then "valid" else "has_oversized";
         chunks := None;
         stats := Some
           {| total_chunks := total;
              avg_size := inject_Z (py_sum sizes) / inject_Z (Z.of_nat (length sizes));
              min_size := py_min sizes;
              max_size := py_max sizes;
              oversized_count := Z.of_nat (length oversized);
              size_compliance :=
                inject_Z (total - Z.of_nat (length oversized)) / inject_Z total * 100 |};
         oversized_chunks := Some oversized |}
  end.

Section Splitter.

(** [RecursiveCharacterTextSplitter(...).split_text], as in
    [ChunkingUtils], and [json.dumps(., indent=2)]. *)
Variable text_splitter : IntelligentChunker -> string -> list string.
Variable dumps : Json -> string.

(** The metadata of chunk [i]: the caller's dict, with the four keys of
    the chunk set after it. *)
Definition chunk_metadata (caller : gmap string Json) (i : nat) (text_chunks : list string)
    (chunk_text : string) : gmap string Json :=
  <["is_partial" := JBool (1 <? length text_chunks)%nat]>
    (<["chunk_size" := JInt (len chunk_text)]>
       (<["total_chunks" := JInt (Z.of_nat (length text_chunks))]>
          (<["chunk_index" := JInt (Z.of_nat i)]> caller))).

Definition create_overlapping_chunks (self : IntelligentChunker) (content_ : string)
    (chunk_type_ base_id : string) (metadata_ : gmap string Json) : list ChunkObject :=
  let text_chunks := split_text text_splitter self content_ in
  imap (fun i chunk_text =>
          {| chunk_id := base_id ++ "_chunk_" ++ str i;
             chunk_type := chunk_type_;
             content := chunk_text;
             embedding_text := chunk_text;
             metadata := chunk_metadata metadata_ i text_chunks chunk_text |})
       text_chunks.

(** The chunks [split_json_content] makes of one item of a dict. *)
Definition split_item (self : IntelligentChunker) (max_chunk_size : Z)
    (item : string * Json) : list string :=
  let chunk_content := dumps (JDict [item]) in
  if (max_chunk_size <? len chunk_content)%Z
  then split_text text_splitter self chunk_content
  else [chunk_content].

Definition split_json_content (self : IntelligentChunker) (json_obj : Json)
    (max_chunk_size : Z) : list string :=
  let json_str := dumps json_obj in
  if (len json_str <=? max_chunk_size)%Z then [json_str]
  else
    match json_obj with
    | FeedbackLoop.JDict items =>
        if (1 <? length items)%nat
        then List.flat_map (split_item self max_chunk_size) items
        else split_text text_splitter self json_str
    | _ => split_text text_splitter self json_str
    end.

End Splitter.

End ChunkObjects.

(* ===================================================================== *)
(** ** 4_ollama_integration.py: validate_workflow *)
(* ===================================================================== *)

Module WorkflowValidation.

Abbreviation Json := FeedbackLoop.Json.

(** A node dict of a generated workflow, read through the keys "id",
    "name" and "type"; the model covers identifiers that are strings. *)
Record Node := {
  id : option string;
  name : option string;
  type : option string
}.

(** A workflow dict: the value of "nodes" (a list of node dicts), the
    value of "connections", and the items under every other key. *)
Record WorkflowDict := {
  nodes : option (list Node);
  connections : option Json;
  other_items : list (string * Json)
}.

(** [if workflow]: neither [None] nor the empty dict. *)
Definition truthy (workflow : option WorkflowDict) : bool :=
  match workflow with
  | None => false
  | Some w =>
      match nodes w, connections w, other_items w with
      | None, None, [] => false
      | _, _, _ => true
      end
  end.

(** The errors for the required fields a node lacks. *)
Definition missing (i : nat) (field : string) {A} (value : option A) : list string :=
  match value with
  | Some _ => []
  | None => [("Node " ++ ChunkObjects.str i ++ ": missing '" ++ field ++ "' field")%string]
  end.

Definition missing_fields (i : nat) (node : Node) : list string :=
  missing i "id" (id node) ++ missing i "name" (name node) ++ missing i "type" (type node).

(** The loop over [enumerate(workflow["nodes"])], from index [i] on, with
    the identifiers seen so far and the errors so far. *)
Fixpoint validate_nodes (i : nat) (rest : list Node) (node_ids : gset string)
    (errors : list string) : list string :=
  match rest with
  | [] => errors
  | node :: rest =>
      let errors := errors ++ missing_fields i node in
      match id node with
      | Some x =>
          validate_nodes (S i) rest ({[x]} ∪ node_ids)
            (if decide (x ∈ node_ids) then errors ++ [("Duplicate node ID: " ++ x)%string]
             else errors)
      | None => validate_nodes (S i) rest node_ids errors
      end
  end.

Definition validate_workflow (workflow : option WorkflowDict) : bool * list string :=
  match workflow with
  | Some w =>
      if truthy workflow then
        let errors := [] in
        let errors :=
          if nodes w is None then errors ++ ["Missing 'nodes' field"] else errors in
        let errors :=
          if connections w is None then errors ++ ["Missing 'connections' field"]
          else errors in
        let errors :=
          match nodes w with
          | Some (node :: rest) => validate_nodes 0 (node :: rest) ∅ errors
          | _ => errors ++ ["No nodes found in workflow"]
          end in
        ((length errors =? 0)%nat, errors)
      else (false, ["No workflow generated"])
  | None => (false, ["No workflow generated"])
  end.

(** A node dict with the three required keys. *)
Definition complete (node : Node) : Prop :=
  is_Some (id node) /\ is_Some (name node) /\ is_Some (type node).

End WorkflowValidation.

(* ===================================================================== *)
(** ** Further predicates used in the statements *)
(* ===================================================================== *)

Module MoreStatements.

Import PyStr PyList.

(** The score of every intent of the keyword table for a query, in table
    order (zero scores included). *)
Definition all_scores (query : string) : list (QueryProcessor.WorkflowIntent * nat) :=
  List.map (fun p => (fst p, QueryProcessor.keyword_score query (snd p)))
    QueryProcessor.intent_keywords.

(** The three ratings in increasing order. *)
Definition complexity_rank (rating : string) : nat :=
  if String.eqb rating "simple" then 0
  else if String.eqb rating "moderate" then 1
  else 2.

(** [clean_front s]: [s] does not begin with a whitespace character. *)
Definition clean_front (s : string) : Prop :=
  match s with
  | EmptyString => True
  | String c _ => is_space c = false
  end.

(** A full n8n block identifier: it names its package. *)
Definition is_block_identifier (node : string) : bool :=
  String.prefix "n8n-nodes-base." node || String.prefix "@n8n/n8n-nodes-langchain." node.

(** A hit that [_get_node_documentation] takes as the documentation of
    [node_type]: its content contains the identifier and its metadata
    names exactly this block. *)
Definition full_match (node_type : string) (chunk : ContextAssembler.Chunk) : bool :=
  contains node_type (ContextAssembler.content chunk)
  && bool_decide (ContextAssembler.metadata chunk !! "node_type" = Some node_type).

(** The service key and block identifier a ranked result contributes to
    [node_types], if any. *)
Definition keyed (service_mentions : list string) (r : OllamaIntegration.ScoredResult)
  : option (string * string) :=
  match OllamaIntegration.metadata r with
  | Some m =>
      match m !! "node_type" with
      | Some node_type =>
          if String.eqb node_type "" then None
          else
            let key := OllamaContext._extract_service_key node_type service_mentions in
            if String.eqb key "" then None else Some (key, node_type)
      | None => None
      end
  | None => None
  end.

(** The block identifier of the first, and of the last, result of a list
    that contributes the service key [key]. *)
Fixpoint first_keyed (service_mentions : list string) (key : string)
    (l : list OllamaIntegration.ScoredResult) : option string :=
  match l with
  | [] => None
  | r :: rest =>
      match keyed service_mentions r with
      | Some (k, v) => if String.eqb k key then Some v
                       else first_keyed service_mentions key rest
      | None => first_keyed service_mentions key rest
      end
  end.

Definition last_keyed (service_mentions : list string) (key : string)
    (l : list OllamaIntegration.ScoredResult) : option string :=
  first_keyed service_mentions key (List.rev l).

(** The scored hits of an answer in the order the store returned them. *)
Definition scored_in_store_order (results : OllamaIntegration.QueryResults)
    (service_mentions : list string) : list OllamaIntegration.ScoredResult :=
  default []
    (mapM (OllamaIntegration.score_at results service_mentions)
       (seq 0 (length (default [] (head (OllamaIntegration.documents results)))))).

(** The results of a list whose score equals [v]. *)
Definition with_score (v : Q) (l : list OllamaIntegration.ScoredResult)
  : list OllamaIntegration.ScoredResult :=
  List.filter (fun r => Qeq_bool (OllamaIntegration.score r) v) l.

(** The states of a [FeedbackLoop] object that starts on a new database
    file and is used through [record_generation] and the two weight
    getters only, the connections of raising calls being destroyed at
    any point between two calls. *)
Inductive reachable : FeedbackLoop.State -> Prop :=
| reachable_init : reachable FeedbackLoop.init
| reachable_record self query context workflow success validation_errors user_feedback :
    reachable self ->
    reachable (FeedbackLoop.record_generation self query context workflow success
                 validation_errors user_feedback).2
| reachable_node_weights self :
    reachable self -> reachable (FeedbackLoop.get_node_weights self).2
| reachable_pattern_weights self :
    reachable self -> reachable (FeedbackLoop.get_pattern_weights self).2
| reachable_collect self :
    reachable self -> reachable (FeedbackLoop.collect self).

(** A list is not empty. *)
Definition nonempty {A} (l : list A) : bool :=
  match l with
  | [] => false
  | _ :: _ => true
  end.

(** A call of [record_generation] makes an update method execute a write
    statement: the block update runs (a failure, or a success with a
    workflow) on a context that lists a block, or the context lists a
    pattern. *)
Definition writes_attempted (context : FeedbackLoop.GenContext)
    (workflow : FeedbackLoop.Workflow) (success : bool) : bool :=
  (nonempty (default [] (FeedbackLoop.gc_required_nodes context))
   && (negb success || FeedbackLoop.workflow_truthy workflow))
  || nonempty (default [] (FeedbackLoop.gc_workflow_patterns context)).

(** A history row that a call without write attempt leaves: it counts no
    pattern, and it lists no block unless it is a success without a
    workflow. *)
Definition quiet_row (row : FeedbackLoop.HistoryRow) : Prop :=
  (FeedbackLoop.h_retrieved_chunks row).1.2 = 0%nat /\
  (FeedbackLoop.h_required_nodes row = [] \/
   (FeedbackLoop.h_success row = true /\ FeedbackLoop.h_generated_workflow row = None)).

(** The counters of pattern [x] in the pattern table. *)
Definition pattern_uses (table : gmap string FeedbackLoop.PatternRow) (x : string) : Z * Z :=
  match table !! x with
  | Some row => (FeedbackLoop.p_total_uses row, FeedbackLoop.p_successful_uses row)
  | None => (0%Z, 0%Z)
  end.

(** The number of patterns of a list that have the identifier [x]. *)
Definition pattern_occurrences (x : string) (patterns : list ContextAssembler.Pattern) : Z :=
  Z.of_nat (length (List.filter (fun p => String.eqb x (ContextAssembler.pattern p)) patterns)).

(** The spec's scenario on the code: [n] recorded successes for block
    [x] on a new store, the connections of raising calls being destroyed
    after every call ([collected]) or not at all. *)
Definition after_successes (collected : bool) (x : string) (n : nat) : FeedbackLoop.State :=
  Nat.iter n
    (fun self =>
       let self' := Samples.record_success x self in
       if collected then FeedbackLoop.collect self' else self')
    FeedbackLoop.init.

(** A text of ASCII characters only. *)
Fixpoint is_ascii (s : string) : bool :=
  match s with
  | EmptyString => true
  | String c rest => (nat_of_ascii c <? 128)%nat && is_ascii rest
  end.

End MoreStatements.

(* ===================================================================== *)
(** ** Further sample data *)
(* ===================================================================== *)

Module MoreSamples.

(** A chunker with a small chunk size. *)
Definition small_chunker : ChunkingUtils.IntelligentChunker :=
  {| ChunkingUtils.chunk_size := 10;
     ChunkingUtils.chunk_overlap := 2;
     ChunkingUtils.separators := ChunkingUtils.default_separators |}.

(** A stand-in for the library splitter: one chunk per character. *)
Fixpoint characters (text : string) : list string :=
  match text with
  | EmptyString => []
  | String c rest => String c "" :: characters rest
  end.

Definition character_splitter (self : ChunkingUtils.IntelligentChunker) (text : string)
  : list string :=
  characters text.

(** A stand-in for [json.dumps]: the keys of a dict between braces, and
    a fixed text for every other value. *)
Definition sample_dumps (value : FeedbackLoop.Json) : string :=
  match value with
  | FeedbackLoop.JDict items => "{" ++ String.concat ", " (List.map fst items) ++ "}"
  | _ => "[]"
  end.

(** The properties of a block, as a JSON dict. *)
Definition sample_properties : FeedbackLoop.Json :=
  FeedbackLoop.JDict
    [("resource", FeedbackLoop.JStr "message");
     ("operation", FeedbackLoop.JStr "send");
     ("authentication", FeedbackLoop.JStr "oAuth2")].

(** A store that ignores the result count it is asked for: each
    collection answers with all of its documents. *)
Definition unbounded_collection (docs : list string) (embedding : string) (n : nat)
  : Retriever.RawResults :=
  {| Retriever.documents := [docs];
     Retriever.metadatas := [List.map (fun _ => ∅) docs];
     Retriever.distances := [List.map (fun d => Z.of_nat (String.length d) # 100) docs] |}.

Definition unbounded_collections : gmap string (string -> nat -> Retriever.RawResults) :=
  {[ "n8n_nodes" := unbounded_collection ["Slack node"; "Webhook node"; "Code node"];
     "n8n_templates" :=
       unbounded_collection
         ["Webhook to Slack"; "Daily report"; "Sync"; "Backup to drive"; "Alert on error"] ]}.

(** Two chunk dicts, the second longer than 1.2 times the small chunk
    size. *)
Definition sample_chunks : list ChunkObjects.ChunkObject :=
  [ {| ChunkObjects.chunk_id := "doc_chunk_0";
       ChunkObjects.chunk_type := "node_documentation";
       ChunkObjects.content := "Slack node";
       ChunkObjects.embedding_text := "Slack node";
       ChunkObjects.metadata := ∅ |};
    {| ChunkObjects.chunk_id := "doc_chunk_1";
       ChunkObjects.chunk_type := "node_documentation";
       ChunkObjects.content := "sends a message";
       ChunkObjects.embedding_text := "sends a message";
       ChunkObjects.metadata := ∅ |} ].

End MoreSamples.

(* ===================================================================== *)
(** * Properties *)
(* ===================================================================== *)

(** ** The stable descending sort *)

Section SortFacts.

Import PyList Statements.

Context {A : Type} (key : A -> Q).

Lemma insert_desc_perm (x : A) (l : list A) :
  Permutation (insert_desc key x l) (x :: l).
Proof.
  induction l as [|y l IH]; simpl.
  - reflexivity.
  - destruct (Qle_bool (key y) (key x)).
    + reflexivity.
    + rewrite IH. apply perm_swap.
Qed.

Lemma sorted_desc_perm (l : list A) : Permutation (sorted_desc key l) l.
Proof.
  induction l as [|x l IH]; simpl.
  - reflexivity.
  - rewrite insert_desc_perm. now constructor.
Qed.

Lemma insert_desc_sorted (x : A) (l : list A) :
  StronglySorted (desc key) l -> StronglySorted (desc key) (insert_desc key x l).
Proof.
  induction 1 as [|y l Hs IH Hall]; simpl.
  - repeat constructor.
  - destruct (Qle_bool (key y) (key x)) eqn:E.
    + apply Qle_bool_iff in E.
      constructor; [now constructor|].
      constructor; [exact E|].
      rewrite List.Forall_forall in *. intros z Hz.
      unfold desc in *. eapply Qle_trans; [apply (Hall z Hz) | exact E].
    + constructor; [exact IH|].
      assert (Hxy : (key x <= key y)%Q).
      { destruct (Qlt_le_dec (key x) (key y)) as [Hlt|Hle].
        - now apply Qlt_le_weak.
        - apply Qle_bool_iff in Hle. congruence. }
      rewrite List.Forall_forall in *. intros z Hz.
      apply (Permutation_in _ (insert_desc_perm x l)) in Hz.
      destruct Hz as [<-|Hz]; [exact Hxy | now apply Hall].
Qed.

Lemma sorted_desc_sorted (l : list A) : StronglySorted (desc key) (sorted_desc key l).
Proof.
  induction l as [|x l IH]; simpl.
  - constructor.
  - now apply insert_desc_sorted.
Qed.

(** In a list sorted by descending key, an element with a strictly
    larger key stands at a strictly smaller index. *)
Lemma sorted_desc_before (l : list A) (a b : A) (p q : nat) :
  StronglySorted (desc key) l ->
  l !! p = Some a -> l !! q = Some b ->
  (key b < key a)%Q -> (p < q)%nat.
Proof.
  intros Hs. revert p q.
  induction Hs as [|y l Hs IH Hall]; intros p q Hp Hq Hlt.
  - discriminate.
  - destruct p as [|p], q as [|q]; simpl in *.
    + injection Hp as ->. injection Hq as ->. exfalso. eapply Qlt_irrefl, Hlt.
    + lia.
    + injection Hq as ->. exfalso.
      rewrite List.Forall_forall in Hall.
      assert (Hin : List.In a l).
      { apply list_elem_of_In. eapply list_elem_of_lookup_2, Hp. }
      specialize (Hall a Hin). unfold desc in Hall.
      eapply Qlt_irrefl, Qlt_le_trans; [exact Hlt | exact Hall].
    + specialize (IH p q Hp Hq Hlt). lia.
Qed.

End SortFacts.

(** ** Service-aware reranking (4_ollama_integration.py) *)

Section RerankFacts.

Import PyStr PyList Statements OllamaIntegration.

Local Open Scope Q_scope.

Lemma match_bonus_bounds (service node_type : string) :
  2 # 10 <= match_bonus service node_type /\ match_bonus service node_type <= 5 # 10.
Proof.
  unfold match_bonus.
  repeat match goal with |- context [if ?c then _ else _] => destruct c end;
    split; unfold Qle; simpl; lia.
Qed.

(** The entity loop adds to [acc] an amount that does not depend on it. *)
Lemma entity_bonus_shift (service_mentions : list string) (node_type : string) :
  exists c, 0 <= c /\ c <= (5 # 10) * inject_Z (Z.of_nat (length service_mentions)) /\
    (existsb (fun s => contains s node_type) service_mentions = true -> 2 # 10 <= c) /\
    (existsb (fun s => contains s node_type) service_mentions = false -> c == 0) /\
    forall acc, entity_bonus service_mentions node_type acc == acc + c.
Proof.
  induction service_mentions as [|s m IH].
  - exists 0. change (inject_Z (Z.of_nat (length (@nil string)))) with 0.
    simpl. repeat split; try lra; try discriminate. intros; lra.
  - destruct IH as (c & H0 & Hub & Hm & Hn & Hacc).
    assert (Hlen : inject_Z (Z.of_nat (length (s :: m)))
                   == inject_Z (Z.of_nat (length m)) + 1).
    { simpl length. rewrite Nat2Z.inj_succ, <- Z.add_1_r, inject_Z_plus. reflexivity. }
    pose proof (match_bonus_bounds s node_type) as [Hlo Hhi].
    simpl. destruct (contains s node_type) eqn:E; simpl.
    + exists (match_bonus s node_type + c). rewrite Hlen.
      repeat split; try lra; try discriminate.
      intros acc. rewrite Hacc. lra.
    + exists c. rewrite Hlen. repeat split; try lra; auto.
Qed.

Lemma content_bonus_shift (service_mentions : list string) (doc_lower : string) :
  exists c, 0 <= c /\ c <= (1 # 10) * inject_Z (Z.of_nat (length service_mentions)) /\
    forall acc, content_bonus service_mentions doc_lower acc == acc + c.
Proof.
  induction service_mentions as [|s m IH].
  - exists 0. change (inject_Z (Z.of_nat (length (@nil string)))) with 0.
    simpl. repeat split; try lra. intros; lra.
  - destruct IH as (c & H0 & Hub & Hacc).
    assert (Hlen : inject_Z (Z.of_nat (length (s :: m)))
                   == inject_Z (Z.of_nat (length m)) + 1).
    { simpl length. rewrite Nat2Z.inj_succ, <- Z.add_1_r, inject_Z_plus. reflexivity. }
    simpl. destruct (contains s doc_lower); simpl.
    + exists ((1 # 10) + c). rewrite Hlen. repeat split; try lra.
      intros acc. rewrite Hacc. lra.
    + exists c. rewrite Hlen. repeat split; try lra; auto.
Qed.

Lemma generic_penalty_bounds (service_mentions : list string) (node_type : string) :
  0 <= generic_penalty service_mentions node_type <= 3 # 10.
Proof.
  unfold generic_penalty.
  repeat match goal with |- context [if ?c then _ else _] => destruct c end;
    split; unfold Qle; simpl; lia.
Qed.

(** With the same document, a matching and unpenalized hit has a bonus
    above that of a hit that matches no detected service; the sums are
    exact here, and for the distances a store returns (none negative) the
    gap of 0.2 they leave is far wider than the rounding of the code's
    floats. *)
Lemma matching_bonus_gap (service_mentions : list string) (document : string)
    (mi mj : option Metadata) :
  entity_match service_mentions mi = true ->
  entity_match service_mentions mj = false ->
  penalized service_mentions mi = false ->
  hit_service_bonus service_mentions document mj + (2 # 10)
    <= hit_service_bonus service_mentions document mi.
Proof.
  unfold entity_match, penalized, hit_service_bonus.
  intros Hi Hj Hpen.
  destruct (block_identifier mi) as [ni|]; [|discriminate].
  destruct (entity_bonus_shift service_mentions (lower ni)) as (ci & _ & _ & Hci & _ & Hacci).
  specialize (Hci Hi). specialize (Hacci 0).
  apply negb_false_iff, Qeq_bool_iff in Hpen.
  destruct (content_bonus_shift service_mentions (lower document)) as (e & He0 & _ & He).
  destruct (block_identifier mj) as [nj|].
  - destruct (entity_bonus_shift service_mentions (lower nj)) as (cj & _ & _ & _ & Hcj & Haccj).
    specialize (Hcj Hj). specialize (Haccj 0).
    pose proof (generic_penalty_bounds service_mentions (lower nj)) as [Hp0 _].
    destruct (String.eqb document ""); [|rewrite !He]; rewrite Hacci, Haccj; lra.
  - destruct (String.eqb document ""); [|rewrite !He]; rewrite Hacci; lra.
Qed.

Lemma score_hit_Some (service_mentions : list string) (document : string)
    (metadata : option Metadata) (distance : Q) (r : ScoredResult) :
  score_hit service_mentions document metadata distance = Some r ->
  ~ 1 + distance == 0 /\
  score r = 1 / (1 + distance) + hit_service_bonus service_mentions document metadata.
Proof.
  unfold score_hit, base_score. intros H.
  destruct (Qeq_bool (1 + distance) 0) eqn:E; simpl in H; [discriminate|].
  injection H as <-. split; [|reflexivity].
  intros Heq. apply Qeq_bool_iff in Heq. congruence.
Qed.

(** What [_rank_results_by_service_relevance] returns when it returns:
    the sort of the per-index results. *)
Lemma rank_Some (results : QueryResults) (service_mentions : list string) (query : string)
    (out : list ScoredResult) :
  _rank_results_by_service_relevance results service_mentions query = Some out ->
  out = [] /\ (documents results = [] \/ head (documents results) = Some [])
  \/ exists docs0 scored,
       head (documents results) = Some docs0 /\
       mapM (score_at results service_mentions) (seq 0 (length docs0)) = Some scored /\
       out = sorted_desc score scored.
Proof.
  unfold _rank_results_by_service_relevance. intros H.
  destruct (documents results) as [|docs0 rows] eqn:Ed.
  - injection H as <-. left. auto.
  - destruct docs0 as [|d0 docs0].
    + injection H as <-. left. auto.
    + right.
      destruct (mapM (score_at results service_mentions) (seq 0 (length (d0 :: docs0))))
        as [scored|] eqn:Em; simpl in H; [|discriminate].
      injection H as <-. exists (d0 :: docs0), scored. auto.
Qed.

Lemma hit_index (results : QueryResults) (i : nat) (h : string * option Metadata * Q) :
  hit results i = Some h ->
  exists docs0, head (documents results) = Some docs0 /\ (i < length docs0)%nat.
Proof.
  unfold hit. intros H.
  destruct (head (documents results)) as [docs0|]; simpl in H; [|discriminate].
  exists docs0. split; [reflexivity|].
  destruct (docs0 !! i) eqn:E; simpl in H; [|discriminate].
  eapply lookup_lt_Some, E.
Qed.

(** Every hit that can be read is scored and is in the returned list. *)
Lemma rank_contains_hit (results : QueryResults) (service_mentions : list string)
    (query : string) (out : list ScoredResult) (i : nat)
    (doc : string) (meta : option Metadata) (d : Q) :
  _rank_results_by_service_relevance results service_mentions query = Some out ->
  hit results i = Some (doc, meta, d) ->
  exists r, score_hit service_mentions doc meta d = Some r /\ r ∈ out.
Proof.
  intros Hrank Hhit.
  destruct (hit_index _ _ _ Hhit) as (docs0 & Hd & Hi).
  apply rank_Some in Hrank as [(_ & [He|He])|(docs0' & scored & Hd' & Hm & ->)].
  - rewrite He in Hd. discriminate.
  - rewrite He in Hd. injection Hd as <-. simpl in Hi. lia.
  - rewrite Hd in Hd'. injection Hd' as <-.
    apply mapM_Some_1 in Hm.
    assert (Hs : seq 0 (length docs0) !! i = Some i).
    { rewrite lookup_seq. split; [reflexivity|exact Hi]. }
    destruct (Forall2_lookup_l _ _ _ _ _ Hm Hs) as (r & Hr & Hsc).
    unfold score_at in Hsc. rewrite Hhit in Hsc. simpl in Hsc.
    exists r. split; [exact Hsc|].
    apply list_elem_of_In.
    apply (Permutation_in _ (Permutation_sym (sorted_desc_perm score scored))).
    apply list_elem_of_In. eapply list_elem_of_lookup_2, Hr.
Qed.

Lemma rank_sorted (results : QueryResults) (service_mentions : list string)
    (query : string) (out : list ScoredResult) :
  _rank_results_by_service_relevance results service_mentions query = Some out ->
  StronglySorted (desc score) out.
Proof.
  intros H. apply rank_Some in H as [(-> & _)|(docs0 & scored & _ & _ & ->)].
  - constructor.
  - apply sorted_desc_sorted.
Qed.

(** C1 (as amended). For any detected services and any two hits with the
    same document and the same distance, where the block identifier of one
    contains a detected service, that of the other contains none, and the
    matching hit is not itself penalized as a generic fallback (httprequest
    while reddit is detected, emailsend while gmail is detected): both hits
    are scored, the matching hit scores strictly higher, and it stands at
    a strictly smaller index than the other in the returned list. *)
Theorem rerank_prefers_entity_match
    (results : QueryResults) (service_mentions : list string) (query : string)
    (out : list ScoredResult) (i j : nat) (doc : string)
    (mi mj : option Metadata) (d : Q) :
  _rank_results_by_service_relevance results service_mentions query = Some out ->
  hit results i = Some (doc, mi, d) ->
  hit results j = Some (doc, mj, d) ->
  entity_match service_mentions mi = true ->
  entity_match service_mentions mj = false ->
  penalized service_mentions mi = false ->
  exists a b,
    score_hit service_mentions doc mi d = Some a /\
    score_hit service_mentions doc mj d = Some b /\
    score b < score a /\
    a ∈ out /\ b ∈ out /\
    forall p q, out !! p = Some a -> out !! q = Some b -> (p < q)%nat.
Proof.
  intros Hrank Hi Hj Hm Hn Hpen.
  destruct (rank_contains_hit _ _ _ _ _ _ _ _ Hrank Hi) as (a & Ha & Hina).
  destruct (rank_contains_hit _ _ _ _ _ _ _ _ Hrank Hj) as (b & Hb & Hinb).
  assert (Hlt : score b < score a).
  { apply score_hit_Some in Ha as [_ ->]. apply score_hit_Some in Hb as [_ ->].
    pose proof (matching_bonus_gap service_mentions doc mi mj Hm Hn Hpen) as Hgap.
    set (base := 1 / (1 + d)) in *. clearbody base. lra. }
  exists a, b. repeat split; auto.
  intros p q Hp Hq.
  eapply (sorted_desc_before score); eauto using rank_sorted.
Qed.

(** The theorem at the gmail sample: the gmail block, returned second by
    the store, is ranked first. *)
Lemma rerank_prefers_entity_match_witness :
  let mentions := _detect_service_mentions (lower Samples.gmail_query) in
  let meta_send := Some ({["node_type" := "n8n-nodes-base.emailSend"]} : Metadata) in
  let meta_gmail := Some ({["node_type" := "n8n-nodes-base.gmail"]} : Metadata) in
  let out := default [] (_rank_results_by_service_relevance
                           Samples.gmail_results mentions (lower Samples.gmail_query)) in
  (_rank_results_by_service_relevance Samples.gmail_results mentions
     (lower Samples.gmail_query) = Some out /\
   hit Samples.gmail_results 1 = Some ("Send an email", meta_gmail, 1 # 2) /\
   hit Samples.gmail_results 0 = Some ("Send an email", meta_send, 1 # 2) /\
   entity_match mentions meta_gmail = true /\
   entity_match mentions meta_send = false /\
   penalized mentions meta_gmail = false) /\
  exists a b,
    score_hit mentions "Send an email" meta_gmail (1 # 2) = Some a /\
    score_hit mentions "Send an email" meta_send (1 # 2) = Some b /\
    score b < score a /\
    a ∈ out /\ b ∈ out /\
    forall p q, out !! p = Some a -> out !! q = Some b -> (p < q)%nat.
Proof.
  intros mentions meta_send meta_gmail out.
  assert (H1 : _rank_results_by_service_relevance Samples.gmail_results mentions
                 (lower Samples.gmail_query) = Some out) by (vm_compute; reflexivity).
  assert (H2 : hit Samples.gmail_results 1 = Some ("Send an email", meta_gmail, 1 # 2))
    by (vm_compute; reflexivity).
  assert (H3 : hit Samples.gmail_results 0 = Some ("Send an email", meta_send, 1 # 2))
    by (vm_compute; reflexivity).
  assert (H4 : entity_match mentions meta_gmail = true) by (vm_compute; reflexivity).
  assert (H5 : entity_match mentions meta_send = false) by (vm_compute; reflexivity).
  assert (H6 : penalized mentions meta_gmail = false) by (vm_compute; reflexivity).
  split; [repeat split; assumption|].
  exact (rerank_prefers_entity_match Samples.gmail_results mentions
           (lower Samples.gmail_query) out 1 0 "Send an email" meta_gmail meta_send (1 # 2)
           H1 H2 H3 H4 H5 H6).
Defined.

(** C1 (as stated) fails. With gmail and smtp detected, the hit whose block
    identifier contains "smtp" gets +0.2 for the match and -0.3 as an
    emailsend fallback under gmail; the hit with the same document and
    distance that matches nothing keeps its base score and is ranked first. *)
Lemma rerank_penalized_match_ranks_below :
  let mentions := _detect_service_mentions (lower Samples.smtp_query) in
  mentions = ["gmail"; "smtp"] /\
  hit Samples.smtp_results 0
    = Some ("Send an email", Some {["node_type" := "n8n-nodes-base.set"]}, 1 # 2) /\
  hit Samples.smtp_results 1
    = Some ("Send an email", Some {["node_type" := "n8n-nodes-smtp.emailSend"]}, 1 # 2) /\
  entity_match mentions (Some {["node_type" := "n8n-nodes-smtp.emailSend"]}) = true /\
  entity_match mentions (Some {["node_type" := "n8n-nodes-base.set"]}) = false /\
  option_map
    (List.map (fun r => (block_identifier (metadata r), Qred (service_bonus r), Qred (score r))))
    (_rank_results_by_service_relevance Samples.smtp_results mentions (lower Samples.smtp_query))
  = Some [ (Some "n8n-nodes-base.set", 0, 2 # 3);
           (Some "n8n-nodes-smtp.emailSend", - (1 # 10), 17 # 30) ].
Proof.
  vm_compute. repeat split; reflexivity.
Qed.

End RerankFacts.

(** ** Query analysis (3_retrieval_pipeline.py) *)

Section QueryFacts.

Import PyStr PyList Statements QueryProcessor.

(** What [_assess_complexity] computes, by the number of blocks. *)
Lemma assess_complexity_cases (required : list string) (ents : Entities) :
  _assess_complexity required ents =
    if (length required <=? 2)%nat && negb (truthy (conditions ents)) then "simple"
    else if (length required <=? 4)%nat then "moderate"
    else "complex".
Proof.
  unfold _assess_complexity.
  destruct (length required) as [|[|[|[|[|n]]]]];
    destruct (truthy (conditions ents)); reflexivity.
Qed.

(** The code and the specification's formula agree on every input except
    four blocks with conditions. *)
Lemma assess_complexity_vs_spec (required : list string) (ents : Entities) :
  _assess_complexity required ents
    = complexity_per_spec (length required) (truthy (conditions ents))
  <-> ~ (length required = 4%nat /\ truthy (conditions ents) = true).
Proof.
  unfold _assess_complexity, complexity_per_spec.
  destruct (length required) as [|[|[|[|[|n]]]]];
    destruct (truthy (conditions ents)); simpl;
    split; intros H; try reflexivity; try discriminate;
    try (intros [? ?]; discriminate); try (intros [? ?]; lia).
  exfalso. apply H. split; reflexivity.
Qed.

(** C2 at the failing input. The query "filter slack" yields exactly four
    required blocks together with a condition entity; the code rates it
    "moderate" where the specification's formula gives "complex". *)
Theorem assess_complexity_four_blocks_with_conditions :
  let a := analyze_query Samples.filter_query in
  required_nodes a = [ "n8n-nodes-base.code"; "n8n-nodes-base.function";
                       "n8n-nodes-base.itemLists"; "n8n-nodes-base.slack" ] /\
  conditions (entities a) = ["filter"] /\
  workflow_complexity a = "moderate" /\
  complexity_per_spec (length (required_nodes a)) (truthy (conditions (entities a)))
    = "complex".
Proof.
  vm_compute. repeat split; reflexivity.
Qed.

(** The whole analysis of the scheduling query. *)
Lemma scheduling_query_analysis :
  let a := analyze_query Samples.scheduling_query in
  intent a = API_INTEGRATION /\
  entities a = {| triggers := ["every"];
                  actions := ["fetch"; "store"];
                  services := [];
                  data_types := ["data"];
                  conditions := [] |} /\
  required_nodes a = ["n8n-nodes-base.scheduleTrigger"; "n8n-nodes-base.httpRequest"] /\
  workflow_complexity a = "simple".
Proof.
  vm_compute. repeat split; reflexivity.
Qed.

(** The keyword scores behind the intent of the scheduling query: "api",
    "fetch" and "post" (inside "postgres") count for API_INTEGRATION,
    "postgres" for DATABASE_OPERATION, and no scheduling keyword occurs. *)
Lemma scheduling_query_scores :
  intent_scores Samples.scheduling_query
    = [(API_INTEGRATION, 3%nat); (DATABASE_OPERATION, 1%nat)].
Proof.
  vm_compute. reflexivity.
Qed.

(** C3 (as amended). For the query "every day at 7am fetch data from an api
    and store in postgres", the analysis has intent API_INTEGRATION, the
    non-empty triggers list ["every"], and a required-blocks list that
    begins with the schedule-entry block and contains the http-fetch block. *)
Theorem scheduling_query_amended :
  let a := analyze_query Samples.scheduling_query in
  intent a = API_INTEGRATION /\
  triggers (entities a) = ["every"] /\
  triggers (entities a) <> [] /\
  head (required_nodes a) = Some "n8n-nodes-base.scheduleTrigger" /\
  In "n8n-nodes-base.httpRequest" (required_nodes a).
Proof.
  vm_compute. repeat split; try reflexivity; try discriminate.
  right. left. reflexivity.
Qed.

(** C3 (as stated) fails: the scenario of the specification does not hold
    of the analysis of its query; the intent is not SCHEDULING. *)
Lemma scheduling_query_not_scenario :
  ~ scheduling_scenario (analyze_query Samples.scheduling_query).
Proof.
  intros [Hintent _]. vm_compute in Hintent. discriminate.
Qed.

(** The "Add trigger if needed" step of [_identify_required_nodes]. *)
Lemma identify_required_nodes_triggers (query : string) (int : WorkflowIntent)
    (ents : Entities) :
  triggers ents <> [] ->
  _identify_required_nodes query int ents <> [] /\
  (any_Trigger (nodes_before_trigger int ents) = false ->
   _identify_required_nodes query int ents
     = entry_block query :: nodes_before_trigger int ents).
Proof.
  intros Htrig. unfold _identify_required_nodes.
  destruct (triggers ents) as [|t ts]; [congruence|].
  simpl truthy. simpl andb.
  destruct (any_Trigger (nodes_before_trigger int ents)) eqn:Ea; simpl.
  - split; [|discriminate].
    intros E. rewrite E in Ea. discriminate.
  - split; [discriminate|]. intros _. reflexivity.
Qed.

(** C5. For every query whose analysis has a non-empty triggers list, the
    required-blocks list is non-empty; and when the blocks collected
    before the trigger step contain no identifier with "Trigger", the list
    is those blocks with an entry block put in front: scheduleTrigger when
    the cleaned query contains "schedule" or "every", webhook otherwise. *)
Theorem required_nodes_nonempty_when_triggers (query : string) :
  let a := analyze_query query in
  triggers (entities a) <> [] ->
  required_nodes a <> [] /\
  (any_Trigger (nodes_before_trigger (intent a) (entities a)) = false ->
   required_nodes a =
     (if contains "schedule" (cleaned_query a) || contains "every" (cleaned_query a)
      then "n8n-nodes-base.scheduleTrigger"
      else "n8n-nodes-base.webhook")
     :: nodes_before_trigger (intent a) (entities a)).
Proof.
  intros a Htrig.
  exact (identify_required_nodes_triggers (cleaned_query a) (intent a) (entities a) Htrig).
Qed.

Lemma required_nodes_nonempty_when_triggers_witness :
  let a := analyze_query "When an order arrives, send an email" in
  triggers (entities a) <> [] /\
  (required_nodes a <> [] /\
   (any_Trigger (nodes_before_trigger (intent a) (entities a)) = false ->
    required_nodes a =
      (if contains "schedule" (cleaned_query a) || contains "every" (cleaned_query a)
       then "n8n-nodes-base.scheduleTrigger"
       else "n8n-nodes-base.webhook")
      :: nodes_before_trigger (intent a) (entities a))).
Proof.
  intros a.
  assert (H : triggers (entities a) <> []) by (vm_compute; discriminate).
  split; [exact H|].
  exact (required_nodes_nonempty_when_triggers "When an order arrives, send an email" H).
Defined.

End QueryFacts.

(** ** Context assembly (3_retrieval_pipeline.py) *)

Section ContextFacts.

Import PyStr PyList Statements QueryProcessor ContextAssembler.

(** No block is ever left out of the documentation list: it has one
    entry per required block, in order. *)
Lemma collect_node_docs_types (required : list string) (retrieved : Retrieved) :
  List.map doc_node_type (collect_node_docs required retrieved) = required.
Proof.
  induction required as [|node_type rest IH]; simpl.
  - reflexivity.
  - f_equal; [|exact IH].
    unfold _get_node_documentation.
    generalize (get_chunks retrieved "nodes").
    intros chunks.
    set (doc0 := {| doc_node_type := node_type; doc_properties := ∅;
                    doc_description := ""; doc_configuration := ∅ |}).
    change node_type with (doc_node_type doc0) at 2.
    generalize doc0. clear doc0.
    induction chunks as [|chunk chunks IHc]; intros doc; simpl.
    + reflexivity.
    + destruct (contains node_type (content chunk)).
      * destruct (decide (metadata chunk !! "node_type" = Some node_type)); simpl.
        -- reflexivity.
        -- rewrite IHc. reflexivity.
      * apply IHc.
Qed.

Lemma node_documentation_length (analysis : QueryAnalysis) (retrieved : Retrieved) :
  length (node_documentation (assemble_context analysis retrieved))
    = length (required_nodes analysis).
Proof.
  simpl. rewrite <- (collect_node_docs_types (required_nodes analysis) retrieved) at 2.
  now rewrite length_map.
Qed.

(** When no hit's content contains the block identifier, the block's
    entry is the blank one. *)
Lemma get_node_documentation_no_hit (node_type : string) (retrieved : Retrieved) :
  List.forallb (fun chunk => negb (contains node_type (content chunk)))
    (get_chunks retrieved "nodes") = true ->
  _get_node_documentation node_type retrieved
    = {| doc_node_type := node_type; doc_properties := ∅;
         doc_description := ""; doc_configuration := ∅ |}.
Proof.
  unfold _get_node_documentation.
  generalize (get_chunks retrieved "nodes"). intros chunks.
  induction chunks as [|chunk chunks IH]; simpl; intros H.
  - reflexivity.
  - apply andb_true_iff in H as [Hc Hrest].
    apply negb_true_iff in Hc. rewrite Hc. now apply IH.
Qed.

(** C7 at the failing input. With no retrieved hit at all, the assembled
    context of "send a slack message" still has one documentation
    entry for each of its three required blocks, each with an empty
    description and no properties: no block section is omitted. *)
Theorem node_documentation_kept_without_hits :
  let a := analyze_query Samples.slack_query in
  let blank node_type :=
    {| doc_node_type := node_type; doc_properties := ∅;
       doc_description := ""; doc_configuration := ∅ |} in
  required_nodes a
    = ["n8n-nodes-base.slack"; "n8n-nodes-base.emailSend"; "n8n-nodes-base.discord"] /\
  node_documentation (assemble_context a ∅)
    = [ blank "n8n-nodes-base.slack"; blank "n8n-nodes-base.emailSend";
        blank "n8n-nodes-base.discord" ] /\
  node_documentation (assemble_context a {["nodes" := []]})
    = [ blank "n8n-nodes-base.slack"; blank "n8n-nodes-base.emailSend";
        blank "n8n-nodes-base.discord" ].
Proof.
  vm_compute. repeat split; reflexivity.
Qed.

(** The four fixed rules open every rule list. *)
Lemma validation_rules_base (required : list string) :
  exists extra, _get_validation_rules required = base_rules ++ extra.
Proof.
  unfold _get_validation_rules. eexists. reflexivity.
Qed.

(** The webhook rule is in the list exactly when the literal
    "nodes-base.webhook" is an element of the required blocks. *)
Lemma validation_rules_webhook (required : list string) :
  In webhook_rule (_get_validation_rules required)
  <-> mem "nodes-base.webhook" required = true.
Proof.
  unfold _get_validation_rules.
  rewrite !in_app_iff.
  destruct (any_Trigger required), (mem "nodes-base.webhook" required),
    (mem "nodes-base.code" required); simpl; split; intros H; try reflexivity;
    try discriminate; try tauto;
    repeat (destruct H as [H|H]; try discriminate; try contradiction).
Qed.

(** C8 at the failing input. With the webhook block n8n-nodes-base.webhook
    as the only required block, the rule list is the four fixed rules and
    nothing else: the httpMethod and path rule is not appended. *)
Theorem validation_rules_webhook_block :
  let a := analyze_query Samples.webhook_query in
  required_nodes a = ["n8n-nodes-base.webhook"] /\
  _get_validation_rules ["n8n-nodes-base.webhook"] = base_rules /\
  validation_rules (assemble_context a ∅) = base_rules /\
  ~ In webhook_rule (validation_rules (assemble_context a ∅)).
Proof.
  split; [vm_compute; reflexivity|].
  split; [vm_compute; reflexivity|].
  split; [vm_compute; reflexivity|].
  intros H. vm_compute in H.
  repeat (destruct H as [H|H]; try discriminate). exact H.
Qed.

End ContextFacts.

(** ** Relevance scores of both retrievers *)

Section RelevanceFacts.

Import PyStr PyList Statements.

Local Open Scope Q_scope.

Lemma zip3_with_elem {A B C D} (f : A -> B -> C -> D)
    (a : list A) (b : list B) (c : list C) (r : D) :
  r ∈ zip3_with f a b c -> exists x y z, x ∈ a /\ y ∈ b /\ z ∈ c /\ r = f x y z.
Proof.
  revert b c. induction a as [|x a IH]; intros [|y b] [|z c] H; simpl in H;
    try (apply not_elem_of_nil in H; contradiction).
  apply elem_of_cons in H as [->|H].
  - exists x, y, z. repeat split; apply elem_of_cons; now left.
  - destruct (IH _ _ H) as (x' & y' & z' & Hx & Hy & Hz & ->).
    exists x', y', z'. repeat split; try reflexivity; apply elem_of_cons; now right.
Qed.

Lemma zip3_with_length {A B C D} (f : A -> B -> C -> D)
    (a : list A) (b : list B) (c : list C) :
  (length (zip3_with f a b c) <= length a)%nat.
Proof.
  revert b c. induction a as [|x a IH]; intros [|y b] [|z c]; simpl; try lia.
  specialize (IH b c). lia.
Qed.

(** Every score [_format_results] gives is [1 - d/2] for a distance [d]
    of the answer. *)
Lemma format_results_scores (raw : Retriever.RawResults)
    (out : list ContextAssembler.Chunk) (c : ContextAssembler.Chunk) :
  Retriever._format_results raw = Some out -> c ∈ out ->
  exists row d, head (Retriever.distances raw) = Some row /\ d ∈ row /\
    ContextAssembler.relevance_score c = 1 - d / 2.
Proof.
  unfold Retriever._format_results. intros H Hc.
  destruct (Retriever.documents raw) as [|docs0 rows].
  - injection H as <-. apply not_elem_of_nil in Hc. contradiction.
  - destruct (head (Retriever.metadatas raw)) as [metas0|]; simpl in H; [|discriminate].
    destruct (head (Retriever.distances raw)) as [dists0|]; simpl in H; [|discriminate].
    injection H as <-.
    apply zip3_with_elem in Hc as (x & y & z & _ & _ & Hz & ->).
    exists dists0, z. auto.
Qed.

(** Every entry of the ranked list is the score of a hit of the answer. *)
Lemma rank_entries (results : OllamaIntegration.QueryResults)
    (service_mentions : list string) (query : string)
    (out : list OllamaIntegration.ScoredResult) (r : OllamaIntegration.ScoredResult) :
  OllamaIntegration._rank_results_by_service_relevance results service_mentions query
    = Some out ->
  r ∈ out ->
  exists i doc meta d,
    OllamaIntegration.hit results i = Some (doc, meta, d) /\
    OllamaIntegration.score_hit service_mentions doc meta d = Some r.
Proof.
  intros Hrank Hr.
  apply rank_Some in Hrank as [(-> & _)|(docs0 & scored & Hd & Hm & ->)].
  - apply not_elem_of_nil in Hr. contradiction.
  - apply list_elem_of_In in Hr.
    apply (Permutation_in _ (sorted_desc_perm OllamaIntegration.score scored)) in Hr.
    apply list_elem_of_In, list_elem_of_lookup in Hr as [i Hi].
    apply mapM_Some_1 in Hm.
    destruct (Forall2_lookup_r _ _ _ _ _ Hm Hi) as (n & Hn & Hsc).
    unfold OllamaIntegration.score_at in Hsc.
    destruct (OllamaIntegration.hit results n) as [[[doc meta] d]|] eqn:Eh;
      simpl in Hsc; [|discriminate].
    exists n, doc, meta, d. auto.
Qed.

(** C6. A score of [_format_results] is [1 - d/2] for a distance [d] of
    the store's answer, and nothing clamps it: it is below 0 exactly when
    [d] is above 2 and above 1 exactly when [d] is below 0. The store
    measures the squared L2 distance, which reaches 4 between unit
    vectors, so scores outside [0,1] are produced. *)
Theorem format_results_score_unclamped
    (raw : Retriever.RawResults) (formatted : list ContextAssembler.Chunk)
    (c : ContextAssembler.Chunk) :
  Retriever._format_results raw = Some formatted -> c ∈ formatted ->
  exists row d,
    head (Retriever.distances raw) = Some row /\ d ∈ row /\
    ContextAssembler.relevance_score c = 1 - d / 2 /\
    (ContextAssembler.relevance_score c < 0 <-> 2 < d) /\
    (1 < ContextAssembler.relevance_score c <-> d < 0).
Proof.
  intros Hf Hc.
  destruct (format_results_scores _ _ _ Hf Hc) as (row & d & Hrow & Hin & ->).
  exists row, d. split; [exact Hrow|]. split; [exact Hin|]. split; [reflexivity|].
  unfold Qdiv. change (/ 2) with (1 # 2). split; split; intros H; lra.
Qed.

Lemma format_results_score_unclamped_witness :
  let formatted := default [] (Retriever._format_results Samples.far_results) in
  let c := {| ContextAssembler.content := "Webhook node";
              ContextAssembler.metadata := {["node_type" := "n8n-nodes-base.webhook"]};
              ContextAssembler.relevance_score := 1 - 3 / 2 |} in
  (Retriever._format_results Samples.far_results = Some formatted /\ c ∈ formatted) /\
  exists row d,
    head (Retriever.distances Samples.far_results) = Some row /\ d ∈ row /\
    ContextAssembler.relevance_score c = 1 - d / 2 /\
    (ContextAssembler.relevance_score c < 0 <-> 2 < d) /\
    (1 < ContextAssembler.relevance_score c <-> d < 0).
Proof.
  intros formatted c.
  assert (H1 : Retriever._format_results Samples.far_results = Some formatted)
    by (vm_compute; reflexivity).
  assert (H2 : c ∈ formatted) by (vm_compute; constructor).
  split; [exact (conj H1 H2)|].
  exact (format_results_score_unclamped Samples.far_results formatted c H1 H2).
Defined.

(** On the sample answers both paths leave [0,1]: at distance 3
    [_format_results] gives a negative score, and the reranking step
    gives the gmail block at distance 1/2 a score above 1, which is what
    [get_relevant_context] reports as its relevance score. *)
Lemma relevance_score_outside_unit_interval :
  (exists c, c ∈ default [] (Retriever._format_results Samples.far_results) /\
             ContextAssembler.relevance_score c < 0) /\
  (exists d, d ∈ OllamaIntegration.retrieved_documents
                   Samples.gmail_results Samples.gmail_query 10 /\
             1 < OllamaIntegration.relevance_score d).
Proof.
  split.
  - eexists. split; [vm_compute; constructor|]. vm_compute. reflexivity.
  - eexists. split; [vm_compute; constructor|]. vm_compute. reflexivity.
Qed.

End RelevanceFacts.

(** ** Multi-stage retrieval (3_retrieval_pipeline.py) *)

Section MultiStageFacts.

Import PyStr PyList Statements QueryProcessor ContextAssembler Retriever.

Context {Embedding : Type}.
Variable encode : string -> Embedding.
Variable collections : gmap string (Embedding -> nat -> RawResults).
Variable hash : string -> Z.

Lemma format_results_contract (raw : RawResults) (n : nat) :
  store_contract raw n ->
  exists out, _format_results raw = Some out /\ length out <= n.
Proof.
  unfold store_contract, _format_results.
  destruct (documents raw) as [|docs0 rows].
  - intros _. exists []. split; [reflexivity | simpl; lia].
  - intros (Hlen & Hm & Hd).
    destruct (metadatas raw) as [|metas0 ?]; [congruence|].
    destruct (distances raw) as [|dists0 ?]; [congruence|].
    simpl. eexists. split; [reflexivity|].
    etrans; [apply zip3_with_length | exact Hlen].
Qed.

Lemma node_stage_query_contract (coll : Embedding -> nat -> RawResults)
    (embeddings : list Embedding) (k : nat) :
  (forall e n, store_contract (coll e n) n) ->
  exists out, node_stage_query coll embeddings k = Some out /\
              length out <= length embeddings * k.
Proof.
  intros Hc. induction embeddings as [|e es (more & Hmore & Hlen)]; simpl.
  - exists []. split; [reflexivity | simpl; lia].
  - destruct (format_results_contract _ _ (Hc e k)) as (here & Hhere & Hlh).
    rewrite Hhere, Hmore. simpl. exists (here ++ more).
    split; [reflexivity|]. rewrite length_app. lia.
Qed.

(** The loop stops as soon as [k_per_stage] results are kept. *)
Lemma dedup_loop_length (k : nat) (sorted : list Chunk) (seen : gset Z) (acc : list Chunk) :
  length acc < k \/ sorted = [] -> length acc <= k ->
  length (dedup_loop hash k sorted seen acc) <= k.
Proof.
  revert seen acc. induction sorted as [|result rest IH]; intros seen acc Hlt Hle; simpl.
  - exact Hle.
  - destruct Hlt as [Hlt|Hnil]; [|discriminate].
    destruct (decide (hash (take 100 (content result)) ∈ seen)).
    + apply IH; [left; exact Hlt | exact Hle].
    + rewrite length_app. simpl.
      destruct (k <=? length acc + 1)%nat eqn:E.
      * rewrite length_app. simpl. lia.
      * apply Nat.leb_gt in E. apply IH; rewrite length_app; simpl; [left|]; lia.
Qed.

(** No two kept results have the same content hash. *)
Lemma dedup_loop_nodup (k : nat) (sorted : list Chunk) (seen : gset Z) (acc : list Chunk) :
  NoDup (content_hashes hash acc) ->
  (forall h, h ∈ content_hashes hash acc -> h ∈ seen) ->
  NoDup (content_hashes hash (dedup_loop hash k sorted seen acc)).
Proof.
  revert seen acc. induction sorted as [|result rest IH]; intros seen acc Hnd Hseen; simpl.
  - exact Hnd.
  - destruct (decide (hash (take 100 (content result)) ∈ seen)) as [Hin|Hout].
    + now apply IH.
    + assert (Hnd' : NoDup (content_hashes hash (acc ++ [result]))).
      { unfold content_hashes in *. rewrite List.map_app. simpl.
        apply NoDup_app. split; [exact Hnd|]. split.
        - intros h Hh Hh'. apply list_elem_of_singleton in Hh' as ->. auto.
        - apply NoDup_singleton. }
      destruct (k <=? length (acc ++ [result]))%nat; [exact Hnd'|].
      apply IH; [exact Hnd'|].
      intros h Hh. unfold content_hashes in Hh. rewrite List.map_app in Hh. simpl in Hh.
      apply elem_of_app in Hh as [Hh|Hh].
      * apply elem_of_union_r. now apply Hseen.
      * apply list_elem_of_singleton in Hh as ->. apply elem_of_union_l.
        now apply elem_of_singleton.
Qed.

Lemma single_stage_contract (name : string) (embeddings : list Embedding) (n : nat) :
  (forall coll e m, collections !! name = Some coll -> store_contract (coll e m) m) ->
  embeddings <> [] ->
  exists out, single_stage collections name embeddings n = Some out /\
              length out <= n /\
              (collections !! name = None -> out = []).
Proof.
  intros Hc Hne. unfold single_stage.
  destruct (collections !! name) as [coll|] eqn:E.
  - destruct embeddings as [|e es]; [congruence|]. simpl.
    destruct (format_results_contract _ _ (Hc coll e n eq_refl)) as (out & Hout & Hlen).
    exists out. repeat split; auto. discriminate.
  - exists []. repeat split; auto. simpl. lia.
Qed.

(** Stage 1: two queries, then at most [k] deduplicated results. *)
Lemma nodes_stage_contract (query_embeddings : list Embedding) (k : nat) :
  (forall coll e m, collections !! "n8n_nodes" = Some coll -> store_contract (coll e m) m) ->
  exists nodes,
    match collections !! "n8n_nodes" with
    | None => Some []
    | Some coll =>
        node_results ← node_stage_query coll (List.firstn 2 query_embeddings) k;
        Some (dedup_loop hash k (sorted_desc relevance_score node_results) ∅ [])
    end = Some nodes /\
    length nodes <= k /\
    NoDup (content_hashes hash nodes) /\
    (collections !! "n8n_nodes" = None -> nodes = []).
Proof.
  intros Hc.
  destruct (collections !! "n8n_nodes") as [coll|] eqn:E.
  - destruct (node_stage_query_contract coll (List.firstn 2 query_embeddings) k
                (fun e n => Hc coll e n eq_refl)) as (node_results & Hq & Hlen).
    rewrite Hq. simpl. eexists. split; [reflexivity|]. repeat split.
    + apply dedup_loop_length; [|simpl; lia].
      destruct k as [|k'].
      * right. rewrite Nat.mul_0_r in Hlen.
        destruct node_results; [reflexivity | simpl in Hlen; lia].
      * left. simpl. lia.
    + apply dedup_loop_nodup.
      * constructor.
      * intros h Hh. apply not_elem_of_nil in Hh. contradiction.
    + discriminate.
  - exists []. repeat split; auto.
    + simpl. lia.
    + constructor.
Qed.

(** C10 (as amended). When every loaded collection keeps the vector
    store's contract for [n_results], the multi-stage retrieval of a
    non-empty query list returns a result whose nodes list has at most [k_per_stage] entries
    with pairwise different content hashes (although the collection was
    queried with two embeddings), whose templates and tasks lists have at
    most min(k_per_stage, 3) entries each and whose connections list has
    at most min(k_per_stage, 2); a collection that is not loaded leaves
    its list empty. *)
Theorem multi_stage_size_caps (queries : list string) (analysis : QueryAnalysis) (k : nat) :
  (forall name coll e n, collections !! name = Some coll -> store_contract (coll e n) n) ->
  queries <> [] ->
  exists out,
    _multi_stage_retrieval encode collections hash queries analysis k = Some out /\
    length (get_chunks out "nodes") <= k /\
    NoDup (content_hashes hash (get_chunks out "nodes")) /\
    length (get_chunks out "templates") <= Nat.min k 3 /\
    length (get_chunks out "tasks") <= Nat.min k 3 /\
    length (get_chunks out "connections") <= Nat.min k 2 /\
    (collections !! "n8n_nodes" = None -> out !! "nodes" = Some []) /\
    (collections !! "n8n_templates" = None -> out !! "templates" = Some []) /\
    (collections !! "n8n_tasks" = None -> out !! "tasks" = Some []) /\
    (collections !! "n8n_connections" = None -> out !! "connections" = Some []).
Proof.
  intros Hc Hq.
  assert (Hemb : List.map encode queries <> []).
  { destruct queries; [congruence | discriminate]. }
  unfold _multi_stage_retrieval.
  destruct (nodes_stage_contract (List.map encode queries) k (Hc "n8n_nodes"))
    as (nodes & -> & Hn & Hnd & Hn0).
  destruct (single_stage_contract "n8n_templates" (List.map encode queries) (Nat.min k 3)
              (Hc "n8n_templates") Hemb) as (templates & -> & Ht & Ht0).
  destruct (single_stage_contract "n8n_tasks" (List.map encode queries) (Nat.min k 3)
              (Hc "n8n_tasks") Hemb) as (tasks & -> & Hk & Hk0).
  destruct (single_stage_contract "n8n_connections" (List.map encode queries) (Nat.min k 2)
              (Hc "n8n_connections") Hemb) as (connections & -> & Hcn & Hcn0).
  simpl. eexists. split; [reflexivity|].
  unfold get_chunks.
  assert (L1 : forall v1 v2 v3 v4 : list Chunk,
             (<["connections" := v4]> (<["tasks" := v3]> (<["templates" := v2]>
                (<["nodes" := v1]> (∅ : Retrieved))))) !! "nodes" = Some v1).
  { intros. by simplify_map_eq. }
  assert (L2 : forall v1 v2 v3 v4 : list Chunk,
             (<["connections" := v4]> (<["tasks" := v3]> (<["templates" := v2]>
                (<["nodes" := v1]> (∅ : Retrieved))))) !! "templates" = Some v2).
  { intros. by simplify_map_eq. }
  assert (L3 : forall v1 v2 v3 v4 : list Chunk,
             (<["connections" := v4]> (<["tasks" := v3]> (<["templates" := v2]>
                (<["nodes" := v1]> (∅ : Retrieved))))) !! "tasks" = Some v3).
  { intros. by simplify_map_eq. }
  assert (L4 : forall v1 v2 v3 v4 : list Chunk,
             (<["connections" := v4]> (<["tasks" := v3]> (<["templates" := v2]>
                (<["nodes" := v1]> (∅ : Retrieved))))) !! "connections" = Some v4).
  { intros. by simplify_map_eq. }
  rewrite L1, L2, L3, L4. simpl.
  repeat split; auto.
  - intros H. now rewrite (Hn0 H).
  - intros H. now rewrite (Ht0 H).
  - intros H. now rewrite (Hk0 H).
  - intros H. now rewrite (Hcn0 H).
Qed.

End MultiStageFacts.

Section MultiStageWitness.

Import PyStr PyList Statements QueryProcessor ContextAssembler Retriever.

Lemma sample_collections_contract (name : string)
    (coll : string -> nat -> RawResults) (e : string) (n : nat) :
  Samples.sample_collections !! name = Some coll -> store_contract (coll e n) n.
Proof.
  unfold Samples.sample_collections. intros H.
  apply lookup_insert_Some in H as [[_ <-]|[_ H]];
    [|apply lookup_singleton_Some in H as [_ <-]];
    unfold store_contract; simpl;
    (split; [apply List.firstn_le_length | split; discriminate]).
Qed.

Lemma multi_stage_size_caps_witness :
  let analysis := analyze_query Samples.slack_query in
  let queries := expand_query analysis in
  ((forall name coll e n,
      Samples.sample_collections !! name = Some coll -> store_contract (coll e n) n) /\
   queries <> []) /\
  exists out,
    _multi_stage_retrieval id Samples.sample_collections Samples.sample_hash
      queries analysis 2 = Some out /\
    length (get_chunks out "nodes") <= 2 /\
    NoDup (content_hashes Samples.sample_hash (get_chunks out "nodes")) /\
    length (get_chunks out "templates") <= Nat.min 2 3 /\
    length (get_chunks out "tasks") <= Nat.min 2 3 /\
    length (get_chunks out "connections") <= Nat.min 2 2 /\
    (Samples.sample_collections !! "n8n_nodes" = None -> out !! "nodes" = Some []) /\
    (Samples.sample_collections !! "n8n_templates" = None -> out !! "templates" = Some []) /\
    (Samples.sample_collections !! "n8n_tasks" = None -> out !! "tasks" = Some []) /\
    (Samples.sample_collections !! "n8n_connections" = None
     -> out !! "connections" = Some []).
Proof.
  intros analysis queries.
  assert (Hq : queries <> []) by (vm_compute; discriminate).
  split; [exact (conj sample_collections_contract Hq)|].
  exact (multi_stage_size_caps id Samples.sample_collections Samples.sample_hash
           queries analysis 2 sample_collections_contract Hq).
Defined.

(** C10 (as stated) fails for a store that returns more than it is asked
    for: the code truncates none of the templates, tasks and connections
    lists, so with [k_per_stage = 2] all five templates of the answer are
    kept where the cap is min(2, 3) = 2; and with [k_per_stage = 0] the
    deduplication loop appends one node before it tests the cap. *)
Lemma multi_stage_caps_need_store_contract :
  let analysis := analyze_query Samples.slack_query in
  let queries := expand_query analysis in
  option_map (fun out => length (get_chunks out "templates"))
    (_multi_stage_retrieval id MoreSamples.unbounded_collections Samples.sample_hash
       queries analysis 2) = Some 5 /\
  Nat.min 2 3 = 2 /\
  option_map (fun out => length (get_chunks out "nodes"))
    (_multi_stage_retrieval id MoreSamples.unbounded_collections Samples.sample_hash
       queries analysis 0) = Some 1.
Proof.
  vm_compute. repeat split; reflexivity.
Qed.

End MultiStageWitness.

(** ** Feedback store (5_feedback_loop_system.py) *)

Section FeedbackFacts.

Import PyStr PyList Statements MoreStatements ContextAssembler FeedbackLoop.

(** The record [update_node] leaves for the block it is called with. *)
Lemma update_node_same (success : bool) (table : gmap string NodeRow) (x : string) :
  exists row,
    update_node success table x !! x = Some row /\
    total_uses row = ((uses table x).1 + 1)%Z /\
    successful_uses row = ((uses table x).2 + (if success then 1 else 0))%Z /\
    consistent row.
Proof.
  unfold update_node, uses, consistent.
  destruct (table !! x) as [old|]; eexists; (split; [apply lookup_insert_eq|]); simpl.
  - repeat split; try reflexivity. destruct success; [reflexivity | lia].
  - repeat split; destruct success; reflexivity.
Qed.

Lemma update_node_other (success : bool) (table : gmap string NodeRow) (x y : string) :
  x <> y -> update_node success table x !! y = table !! y.
Proof.
  intros Hne. unfold update_node.
  destruct (table !! x); now apply lookup_insert_ne.
Qed.

Lemma occurrences_cons (x n : string) (nodes : list string) :
  occurrences x (n :: nodes)
    = ((if String.eqb x n then 1 else 0) + occurrences x nodes)%Z.
Proof.
  unfold occurrences. simpl. destruct (String.eqb x n); simpl length; lia.
Qed.

(** The loop of [_update_node_effectiveness]: the counters of every block
    grow by the number of times it is listed. *)
Lemma update_nodes_uses (success : bool) (nodes : list string)
    (table : gmap string NodeRow) (x : string) :
  uses (List.fold_left (update_node success) nodes table) x
    = ((uses table x).1 + occurrences x nodes,
       (uses table x).2 + (if success then occurrences x nodes else 0))%Z.
Proof.
  revert table. induction nodes as [|n nodes IH]; intros table.
  - simpl. unfold occurrences. simpl. destruct (uses table x) as [t u]. simpl.
    f_equal; destruct success; lia.
  - simpl List.fold_left. rewrite IH, occurrences_cons.
    destruct (String.eqb_spec x n) as [<-|Hne].
    + destruct (update_node_same success table x) as (row & Hrow & Ht & Hs & _).
      unfold uses at 1 2. rewrite Hrow. cbn [fst snd]. rewrite Ht, Hs.
      f_equal; destruct success; lia.
    + unfold uses at 1 2. rewrite (update_node_other success table n x) by congruence.
      fold (uses table x). f_equal; destruct success; lia.
Qed.

(** A listed block has a record after the loop, and its score is the
    ratio of its counters. *)
Lemma update_nodes_consistent (success : bool) (nodes : list string)
    (table : gmap string NodeRow) (x : string) :
  x ∈ nodes \/ (exists row, table !! x = Some row /\ consistent row) ->
  exists row, List.fold_left (update_node success) nodes table !! x = Some row /\
              consistent row.
Proof.
  revert table. induction nodes as [|n nodes IH]; intros table H.
  - destruct H as [H|H]; [|exact H]. apply not_elem_of_nil in H. contradiction.
  - simpl. apply IH.
    destruct (String.eqb_spec n x) as [->|Hne].
    + right. destruct (update_node_same success table x) as (row & Hrow & _ & _ & Hc).
      eauto.
    + destruct H as [H|H].
      * apply elem_of_cons in H as [H|H]; [congruence | left; exact H].
      * right. rewrite update_node_other by exact Hne. exact H.
Qed.

Lemma update_nodes_unlisted (success : bool) (nodes : list string)
    (table : gmap string NodeRow) (y : string) :
  y ∉ nodes -> List.fold_left (update_node success) nodes table !! y = table !! y.
Proof.
  revert table. induction nodes as [|n nodes IH]; intros table Hy; simpl.
  - reflexivity.
  - apply not_elem_of_cons in Hy as [Hne Hy].
    rewrite IH by exact Hy. apply update_node_other. congruence.
Qed.

(** The pattern loop, like the block loop. *)
Lemma update_pattern_same (success : bool) (table : gmap string PatternRow) (p : Pattern) :
  exists row,
    update_pattern success table p !! pattern p = Some row /\
    p_total_uses row = ((pattern_uses table (pattern p)).1 + 1)%Z /\
    p_successful_uses row
      = ((pattern_uses table (pattern p)).2 + (if success then 1 else 0))%Z /\
    effectiveness_score row = ratio (p_successful_uses row) (p_total_uses row).
Proof.
  unfold update_pattern, pattern_uses.
  destruct (table !! pattern p) as [old|]; eexists; (split; [apply lookup_insert_eq|]); simpl.
  - repeat split; try reflexivity. destruct success; [reflexivity | lia].
  - repeat split; destruct success; reflexivity.
Qed.

Lemma update_pattern_other (success : bool) (table : gmap string PatternRow) (p : Pattern)
    (y : string) :
  pattern p <> y -> update_pattern success table p !! y = table !! y.
Proof.
  intros Hne. unfold update_pattern.
  destruct (table !! pattern p); now apply lookup_insert_ne.
Qed.

Lemma pattern_occurrences_cons (x : string) (p : Pattern) (patterns : list Pattern) :
  pattern_occurrences x (p :: patterns)
    = ((if String.eqb x (pattern p) then 1 else 0) + pattern_occurrences x patterns)%Z.
Proof.
  unfold pattern_occurrences. simpl. destruct (String.eqb x (pattern p)); simpl length; lia.
Qed.

Lemma update_patterns_uses (success : bool) (patterns : list Pattern)
    (table : gmap string PatternRow) (x : string) :
  pattern_uses (List.fold_left (update_pattern success) patterns table) x
    = ((pattern_uses table x).1 + pattern_occurrences x patterns,
       (pattern_uses table x).2 + (if success then pattern_occurrences x patterns else 0))%Z.
Proof.
  revert table. induction patterns as [|p patterns IH]; intros table.
  - simpl. unfold pattern_occurrences. simpl. destruct (pattern_uses table x) as [t u].
    simpl. f_equal; destruct success; lia.
  - simpl List.fold_left. rewrite IH, pattern_occurrences_cons.
    destruct (String.eqb_spec x (pattern p)) as [->|Hne].
    + destruct (update_pattern_same success table p) as (row & Hrow & Ht & Hs & _).
      unfold pattern_uses at 1 2. rewrite Hrow. cbn [fst snd]. rewrite Ht, Hs.
      f_equal; destruct success; lia.
    + unfold pattern_uses at 1 2.
      rewrite (update_pattern_other success table p x) by congruence.
      fold (pattern_uses table x). f_equal; destruct success; lia.
Qed.

Lemma update_patterns_consistent (success : bool) (patterns : list Pattern)
    (table : gmap string PatternRow) (x : string) :
  (exists p, In p patterns /\ pattern p = x) \/
  (exists row, table !! x = Some row /\
               effectiveness_score row = ratio (p_successful_uses row) (p_total_uses row)) ->
  exists row, List.fold_left (update_pattern success) patterns table !! x = Some row /\
              effectiveness_score row = ratio (p_successful_uses row) (p_total_uses row).
Proof.
  revert table. induction patterns as [|p patterns IH]; intros table H.
  - destruct H as [(p & [] & _)|H]. exact H.
  - simpl. apply IH.
    destruct (decide (pattern p = x)) as [E|Hne].
    + right. destruct (update_pattern_same success table p) as (row & Hrow & _ & _ & Hc).
      rewrite E in Hrow. eauto.
    + destruct H as [(q & [<-|Hq] & Hx)|H].
      * contradiction.
      * left. eauto.
      * right. rewrite update_pattern_other by exact Hne. exact H.
Qed.

Lemma update_patterns_unlisted (success : bool) (patterns : list Pattern)
    (table : gmap string PatternRow) (y : string) :
  (forall p, In p patterns -> pattern p <> y) ->
  List.fold_left (update_pattern success) patterns table !! y = table !! y.
Proof.
  revert table. induction patterns as [|p patterns IH]; intros table Hy; simpl.
  - reflexivity.
  - rewrite IH by (intros q Hq; apply Hy; now right).
    apply update_pattern_other, Hy. now left.
Qed.

(** *** The write lock *)

Lemma nonempty_true {A} (l : list A) : nonempty l = true <-> l <> [].
Proof. destruct l; simpl; split; congruence. Qed.

Lemma nonempty_false {A} (l : list A) : nonempty l = false <-> l = [].
Proof. destruct l; simpl; split; congruence. Qed.

(** An update method that finds the write lock held raises as soon as its
    context lists something to update, and does nothing otherwise. *)
Lemma update_node_effectiveness_locked (d : Database) (context : GenContext)
    (success : bool) :
  write_lock d = true ->
  _update_node_effectiveness d context success
    = if nonempty (default [] (gc_required_nodes context)) then None else Some d.
Proof.
  intros H. unfold _update_node_effectiveness.
  destruct (default [] (gc_required_nodes context)); [reflexivity|]. now rewrite H.
Qed.

Lemma update_pattern_effectiveness_locked (d : Database) (context : GenContext)
    (success : bool) :
  write_lock d = true ->
  _update_pattern_effectiveness d context success
    = if nonempty (default [] (gc_workflow_patterns context)) then None else Some d.
Proof.
  intros H. unfold _update_pattern_effectiveness.
  destruct (default [] (gc_workflow_patterns context)); [reflexivity|]. now rewrite H.
Qed.

(** The two ways a call of [record_generation] ends. *)
Lemma record_generation_cases (self : State) (query : string) (context : GenContext)
    (workflow : Workflow) (success : bool) (validation_errors : option (list string))
    (user_feedback : option Z) :
  record_generation self query context workflow success validation_errors user_feedback
  = if write_lock (db self) || writes_attempted context workflow success
    then (Raises,
          if write_lock (db self) then self
          else {| db := with_lock (db self) true;
                  node_success_rates := node_success_rates self;
                  pattern_effectiveness := pattern_effectiveness self |})
    else (Returns,
          {| db := {| generation_history :=
                        generation_history (db self)
                        ++ [history_row query context workflow success validation_errors
                              user_feedback];
                      node_effectiveness := node_effectiveness (db self);
                      pattern_success := pattern_success (db self);
                      write_lock := false |};
             node_success_rates := ∅;
             pattern_effectiveness := ∅ |}).
Proof.
  unfold record_generation, writes_attempted.
  destruct (write_lock (db self)) eqn:El; [reflexivity|]. cbn [orb].
  assert (Hheld : write_lock (with_lock (db self) true) = true) by reflexivity.
  rewrite !(update_node_effectiveness_locked _ _ _ Hheld).
  destruct success, (workflow_truthy workflow),
    (nonempty (default [] (gc_required_nodes context))); cbn [andb orb negb mbind option_bind];
    try reflexivity;
    rewrite (update_pattern_effectiveness_locked _ _ _ Hheld);
    destruct (nonempty (default [] (gc_workflow_patterns context))); reflexivity.
Qed.

(** A raising call leaves the committed rows and the caches as they
    were. *)
Lemma record_generation_raises (self : State) (query : string) (context : GenContext)
    (workflow : Workflow) (success : bool) (validation_errors : option (list string))
    (user_feedback : option Z) :
  let result :=
    record_generation self query context workflow success validation_errors user_feedback in
  result.1 = Raises ->
  generation_history (db result.2) = generation_history (db self) /\
  node_effectiveness (db result.2) = node_effectiveness (db self) /\
  pattern_success (db result.2) = pattern_success (db self) /\
  node_success_rates result.2 = node_success_rates self /\
  pattern_effectiveness result.2 = pattern_effectiveness self /\
  write_lock (db result.2) = true.
Proof.
  intros result. unfold result. rewrite record_generation_cases.
  destruct (write_lock (db self)) eqn:El; cbn [orb fst snd].
  - intros _. repeat split; try reflexivity. exact El.
  - destruct (writes_attempted context workflow success); cbn [fst snd];
      [|discriminate]. intros _. repeat split; reflexivity.
Qed.

(** On a store that started empty nothing is ever written to the two
    effectiveness tables, so the weight caches stay empty too, and the
    history holds quiet rows only. *)
Lemma reachable_tables_empty (s : State) :
  reachable s ->
  node_effectiveness (db s) = ∅ /\ pattern_success (db s) = ∅ /\
  node_success_rates s = ∅ /\ pattern_effectiveness s = ∅ /\
  Forall quiet_row (generation_history (db s)).
Proof.
  induction 1 as [|self query context workflow success ve uf _ IH|self _ IH|self _ IH
                  |self _ IH].
  - repeat split; try reflexivity. constructor.
  - destruct IH as (Hn & Hp & Hcn & Hcp & Hq).
    rewrite record_generation_cases.
    destruct (write_lock (db self)) eqn:El; cbn [orb snd]; [now repeat split|].
    destruct (writes_attempted context workflow success) eqn:Ew; cbn [snd db]; simpl.
    + now repeat split.
    + repeat split; try assumption. apply Forall_app. split; [exact Hq|].
      constructor; [|constructor].
      unfold writes_attempted in Ew. apply orb_false_iff in Ew as [Ew1 Ew2].
      apply nonempty_false in Ew2. unfold quiet_row, history_row. cbn. split.
      * now rewrite Ew2.
      * apply andb_false_iff in Ew1 as [Ew1|Ew1].
        -- left. now apply nonempty_false.
        -- apply orb_false_iff in Ew1 as [Es Ew]. apply negb_false_iff in Es.
           right. split; [exact Es|]. now rewrite Ew.
  - destruct IH as (Hn & Hp & Hcn & Hcp & Hq).
    unfold get_node_weights, cache_empty. rewrite Hcn, bool_decide_eq_true_2 by reflexivity.
    cbn [snd db node_success_rates pattern_effectiveness].
    repeat split; try assumption.
    unfold select_node_weights. rewrite Hn, map_filter_empty. apply fmap_empty.
  - destruct IH as (Hn & Hp & Hcn & Hcp & Hq).
    unfold get_pattern_weights, cache_empty. rewrite Hcp, bool_decide_eq_true_2 by reflexivity.
    cbn [snd db node_success_rates pattern_effectiveness].
    repeat split; try assumption.
    unfold select_pattern_weights. rewrite Hp, map_filter_empty. apply fmap_empty.
  - destruct IH as (Hn & Hp & Hcn & Hcp & Hq). now repeat split.
Qed.

Lemma reachable_weights_empty (s : State) :
  reachable s -> (get_node_weights s).1 = ∅ /\ (get_pattern_weights s).1 = ∅.
Proof.
  intros H. destruct (reachable_tables_empty s H) as (Hn & Hp & Hcn & Hcp & _).
  unfold get_node_weights, get_pattern_weights, cache_empty.
  rewrite Hcn, Hcp, !bool_decide_eq_true_2 by reflexivity. cbn [fst].
  unfold select_node_weights, select_pattern_weights.
  rewrite Hn, Hp, !map_filter_empty, !fmap_empty. split; reflexivity.
Qed.

Lemma after_successes_reachable (collected : bool) (x : string) (n : nat) :
  reachable (after_successes collected x n).
Proof.
  unfold after_successes. induction n as [|n IH]; [apply reachable_init|].
  rewrite Nat.iter_succ. unfold Samples.record_success at 1.
  destruct collected; [apply reachable_collect|]; now apply reachable_record.
Qed.

(** C4. On the code, a call of [record_generation] that has an
    effectiveness record to update (a failure, or a success with a
    workflow, whose context lists a block; or any call whose context
    lists a pattern) raises sqlite3.OperationalError: the update methods
    write through connections of their own while the INSERT of
    [record_generation] is not committed. The call leaves the history,
    both effectiveness tables and the caches as they were: no history row
    is appended and no record is updated or created. So after any number
    of recorded successes for a block [x] on a new store, and after one
    more recorded failure, the history and the block table are empty and
    the block-weights getter has no weight for [x], whether the
    connections of the raising calls are destroyed after each call or
    not. *)
Theorem record_generation_raises_on_update
    (self : State) (query : string) (context : GenContext) (workflow : Workflow)
    (success : bool) (validation_errors : option (list string))
    (user_feedback : option Z) :
  (default [] (gc_required_nodes context) <> [] /\
   (success = false \/ workflow_truthy workflow = true)) \/
  default [] (gc_workflow_patterns context) <> [] ->
  let result :=
    record_generation self query context workflow success validation_errors user_feedback in
  result.1 = Raises /\
  generation_history (db result.2) = generation_history (db self) /\
  node_effectiveness (db result.2) = node_effectiveness (db self) /\
  pattern_success (db result.2) = pattern_success (db self) /\
  node_success_rates result.2 = node_success_rates self /\
  pattern_effectiveness result.2 = pattern_effectiveness self /\
  (forall collected x n,
     let s := after_successes collected x n in
     let s' := Samples.record_failure x s in
     generation_history (db s) = [] /\ node_effectiveness (db s) !! x = None /\
     (get_node_weights s).1 !! x = None /\
     generation_history (db s') = [] /\ node_effectiveness (db s') !! x = None /\
     (get_node_weights s').1 !! x = None).
Proof.
  intros Hwrite result.
  assert (Ew : writes_attempted context workflow success = true).
  { unfold writes_attempted. apply orb_true_iff.
    destruct Hwrite as [[Hn Hg]|Hp].
    - left. apply andb_true_iff. split; [now apply nonempty_true|].
      destruct Hg as [-> | ->]; [reflexivity | apply orb_true_r].
    - right. now apply nonempty_true. }
  assert (Hr : result.1 = Raises).
  { unfold result. rewrite record_generation_cases, Ew, orb_true_r. reflexivity. }
  destruct (record_generation_raises self query context workflow success validation_errors
              user_feedback Hr) as (H1 & H2 & H3 & H4 & H5 & _).
  split; [exact Hr|]. split; [exact H1|]. split; [exact H2|]. split; [exact H3|].
  split; [exact H4|]. split; [exact H5|].
  intros collected x n s s'.
  assert (Hblock : forall t, t = s \/ t = s' ->
            generation_history (db t) = [] /\ node_effectiveness (db t) !! x = None /\
            (get_node_weights t).1 !! x = None).
  { assert (Hs : reachable s) by apply after_successes_reachable.
    assert (Hs' : reachable s') by (unfold s', Samples.record_failure; now apply reachable_record).
    assert (Hhist : forall n', generation_history (db (after_successes collected x n')) = []).
    { induction n' as [|n' IH]; [reflexivity|].
      unfold after_successes. rewrite Nat.iter_succ. fold (after_successes collected x n').
      unfold Samples.record_success.
      pose proof (record_generation_raises (after_successes collected x n') "q"
                    (Samples.block_context x) Samples.some_workflow true None None) as Hraise.
      cbv zeta in Hraise.
      rewrite record_generation_cases in Hraise |- *.
      assert (E : writes_attempted (Samples.block_context x) Samples.some_workflow true = true)
        by reflexivity.
      rewrite E, orb_true_r in Hraise |- *.
      destruct (Hraise eq_refl) as (Hh & _).
      destruct collected; cbn [snd] in Hh |- *; [unfold collect; cbn [db with_lock]|];
        rewrite <- IH; exact Hh. }
    intros t [-> | ->].
    - destruct (reachable_tables_empty _ Hs) as (Hn & _).
      destruct (reachable_weights_empty _ Hs) as (Hw & _).
      rewrite Hn, Hw, !lookup_empty. split; [apply Hhist|]. split; reflexivity.
    - destruct (reachable_tables_empty _ Hs') as (Hn & _).
      destruct (reachable_weights_empty _ Hs') as (Hw & _).
      rewrite Hn, Hw, !lookup_empty. split; [|split; reflexivity].
      unfold s', Samples.record_failure.
      pose proof (record_generation_raises s "q" (Samples.block_context x) None false
                    (Some ["invalid connection"]) None) as Hraise.
      cbv zeta in Hraise. rewrite record_generation_cases in Hraise |- *.
      assert (E : writes_attempted (Samples.block_context x) None false = true)
        by reflexivity.
      rewrite E, orb_true_r in Hraise |- *.
      destruct (Hraise eq_refl) as (Hh & _). rewrite Hh. apply Hhist. }
  destruct (Hblock s (or_introl eq_refl)) as (A1 & A2 & A3).
  destruct (Hblock s' (or_intror eq_refl)) as (B1 & B2 & B3).
  repeat split; assumption.
Qed.

Lemma record_generation_raises_on_update_witness :
  let x := "n8n-nodes-base.slack" in
  let context := Samples.block_context x in
  let result := record_generation init "q" context Samples.some_workflow true None None in
  ((default [] (gc_required_nodes context) <> [] /\
    (true = false \/ workflow_truthy Samples.some_workflow = true)) \/
   default [] (gc_workflow_patterns context) <> []) /\
  result.1 = Raises /\
  generation_history (db result.2) = generation_history (db init) /\
  node_effectiveness (db result.2) = node_effectiveness (db init) /\
  pattern_success (db result.2) = pattern_success (db init) /\
  node_success_rates result.2 = node_success_rates init /\
  pattern_effectiveness result.2 = pattern_effectiveness init /\
  (forall collected x n,
     let s := after_successes collected x n in
     let s' := Samples.record_failure x s in
     generation_history (db s) = [] /\ node_effectiveness (db s) !! x = None /\
     (get_node_weights s).1 !! x = None /\
     generation_history (db s') = [] /\ node_effectiveness (db s') !! x = None /\
     (get_node_weights s').1 !! x = None).
Proof.
  intros x context result.
  assert (H : (default [] (gc_required_nodes context) <> [] /\
               (true = false \/ workflow_truthy Samples.some_workflow = true)) \/
              default [] (gc_workflow_patterns context) <> []).
  { left. split; [discriminate | right; reflexivity]. }
  split; [exact H|].
  exact (record_generation_raises_on_update init "q" context Samples.some_workflow true
           None None H).
Defined.

End FeedbackFacts.

(** ** Chunker (chunking_utils.py) *)

Section ChunkerFacts.

Import ChunkingUtils.

Variable text_splitter : IntelligentChunker -> string -> list string.

(** C9. For every text whose length is at most the configured chunk
    size, [split_text] returns the one-element list of that text,
    whatever the library splitter does, except for the empty text, for
    which it returns the empty list. *)
Theorem split_text_short (self : IntelligentChunker) (text : string) :
  text <> "" ->
  (Z.of_nat (String.length text) <= chunk_size self)%Z ->
  split_text text_splitter self text = [text] /\
  split_text text_splitter self "" = [].
Proof.
  intros Hne Hlen. unfold split_text. split.
  - destruct (String.eqb_spec text "") as [->|_]; [congruence|].
    apply Z.leb_le in Hlen. rewrite Hlen. reflexivity.
  - reflexivity.
Qed.

End ChunkerFacts.

Section ChunkerExamples.

Import ChunkingUtils.

Lemma split_text_short_witness :
  "Webhook node" <> "" /\
  (Z.of_nat (String.length "Webhook node") <= chunk_size Samples.default_chunker)%Z /\
  split_text Samples.sample_splitter Samples.default_chunker "Webhook node"
    = ["Webhook node"] /\
  split_text Samples.sample_splitter Samples.default_chunker "" = [].
Proof.
  assert (H1 : "Webhook node" <> "") by discriminate.
  assert (H2 : (Z.of_nat (String.length "Webhook node")
                <= chunk_size Samples.default_chunker)%Z) by (vm_compute; discriminate).
  split; [exact H1|]. split; [exact H2|].
  exact (split_text_short Samples.sample_splitter Samples.default_chunker
           "Webhook node" H1 H2).
Defined.

End ChunkerExamples.

(* ===================================================================== *)
(** * Further properties of the code *)
(* ===================================================================== *)

(** ** Strings *)

Section StringFacts.

Import PyStr MoreStatements.

Lemma lower_ascii_idem (c : ascii) : lower_ascii (lower_ascii c) = lower_ascii c.
Proof.
  destruct c as [[] [] [] [] [] [] [] []]; vm_compute; reflexivity.
Qed.

Lemma is_space_lower_ascii (c : ascii) : is_space (lower_ascii c) = is_space c.
Proof.
  destruct c as [[] [] [] [] [] [] [] []]; vm_compute; reflexivity.
Qed.

Lemma lower_idem (s : string) : lower (lower s) = lower s.
Proof.
  induction s as [|c s IH]; simpl; [reflexivity|].
  now rewrite lower_ascii_idem, IH.
Qed.

Lemma lower_app (a b : string) : lower (a ++ b) = (lower a ++ lower b)%string.
Proof.
  induction a as [|c a IH]; simpl; [reflexivity|]. now rewrite IH.
Qed.

Lemma lower_rev (s : string) : lower (rev s) = rev (lower s).
Proof.
  induction s as [|c s IH]; simpl; [reflexivity|].
  now rewrite lower_app, IH.
Qed.

Lemma lower_lstrip (s : string) : lower (lstrip s) = lstrip (lower s).
Proof.
  induction s as [|c s IH]; simpl; [reflexivity|].
  rewrite is_space_lower_ascii. destruct (is_space c); [exact IH | reflexivity].
Qed.

Lemma lower_strip (s : string) : lower (strip s) = strip (lower s).
Proof.
  unfold strip, rstrip. now rewrite lower_rev, lower_lstrip, lower_rev, lower_lstrip.
Qed.

Lemma app_empty_r (s : string) : (s ++ "")%string = s.
Proof.
  induction s as [|c s IH]; [reflexivity|].
  change (String c (s ++ "") = String c s). now f_equal.
Qed.

Lemma app_assoc_s (a b c : string) : ((a ++ b) ++ c)%string = (a ++ (b ++ c))%string.
Proof.
  induction a as [|x a IH]; [reflexivity|].
  change (String x ((a ++ b) ++ c) = String x (a ++ (b ++ c))). now f_equal.
Qed.

Lemma rev_app (a b : string) : rev (a ++ b) = (rev b ++ rev a)%string.
Proof.
  induction a as [|x a IH]; simpl.
  - now rewrite app_empty_r.
  - now rewrite IH, app_assoc_s.
Qed.

Lemma rev_involutive (s : string) : rev (rev s) = s.
Proof.
  induction s as [|c s IH]; simpl; [reflexivity|].
  rewrite rev_app. simpl. now rewrite IH.
Qed.

Lemma lstrip_clean_front (s : string) : clean_front (lstrip s).
Proof.
  induction s as [|c s IH]; simpl; [exact I|].
  destruct (is_space c) eqn:E; [exact IH | exact E].
Qed.

Lemma lstrip_fixed (s : string) : clean_front s -> lstrip s = s.
Proof.
  destruct s as [|c s]; simpl; [reflexivity|]. intros ->. reflexivity.
Qed.

Lemma lstrip_idem (s : string) : lstrip (lstrip s) = lstrip s.
Proof. apply lstrip_fixed, lstrip_clean_front. Qed.

(** Stripping the reverse of a string that ends with a character that is
    not whitespace leaves a string that still ends with it. *)
Lemma lstrip_app_last (u : string) (c : ascii) :
  is_space c = false ->
  exists v, lstrip (u ++ String c "") = (v ++ String c "")%string.
Proof.
  intros Hc. induction u as [|x u (v & IH)]; simpl.
  - rewrite Hc. exists ""%string. reflexivity.
  - destruct (is_space x).
    + exists v. exact IH.
    + exists (String x u). reflexivity.
Qed.

Lemma rstrip_clean_front (s : string) : clean_front s -> clean_front (rstrip s).
Proof.
  destruct s as [|c s]; simpl; [intros _; exact I|].
  intros Hc. unfold rstrip. simpl.
  destruct (lstrip_app_last (rev s) c Hc) as (v & ->).
  rewrite rev_app. simpl. exact Hc.
Qed.

Lemma rstrip_idem (s : string) : rstrip (rstrip s) = rstrip s.
Proof.
  unfold rstrip. now rewrite rev_involutive, lstrip_idem.
Qed.

Lemma strip_idem (s : string) : strip (strip s) = strip s.
Proof.
  unfold strip.
  rewrite (lstrip_fixed (rstrip (lstrip s))).
  - apply rstrip_idem.
  - apply rstrip_clean_front, lstrip_clean_front.
Qed.

(** Cleaning a query twice is cleaning it once. *)
Lemma clean_idem (s : string) : strip (lower (strip (lower s))) = strip (lower s).
Proof.
  rewrite <- (lower_strip s), lower_idem, <- (lower_strip (strip s)), strip_idem.
  reflexivity.
Qed.

Lemma take_length (n : nat) (s : string) : String.length (take n s) <= n.
Proof.
  unfold take. revert s. induction n as [|n IH]; intros [|c s]; simpl; try lia.
  specialize (IH s). lia.
Qed.

End StringFacts.

(** ** Query analysis, continued *)

Section QueryMoreFacts.

Import PyStr PyList Statements MoreStatements QueryProcessor.

Lemma mem_In (x : string) (l : list string) : mem x l = true <-> In x l.
Proof.
  unfold mem. rewrite existsb_exists. split.
  - intros (y & Hy & E). apply String.eqb_eq in E. now subst.
  - intros H. exists x. split; [exact H | apply String.eqb_refl].
Qed.

Lemma mem_false (x : string) (l : list string) : mem x l = false <-> ~ In x l.
Proof.
  rewrite <- mem_In. destruct (mem x l); split; congruence.
Qed.

(** [max_by_score] picks the first entry whose score is maximal. *)
Lemma max_by_score_first_max (rest : list (WorkflowIntent * nat))
    (best : WorkflowIntent * nat) :
  exists pre x post,
    best :: rest = pre ++ x :: post /\
    fst x = max_by_score best rest /\
    List.Forall (fun p => snd p < snd x) pre /\
    List.Forall (fun p => snd p <= snd x) post.
Proof.
  revert best. induction rest as [|c rest IH]; intros best.
  - exists [], best, []. simpl. repeat split; constructor.
  - simpl max_by_score. destruct (snd best <? snd c)%nat eqn:E.
    + apply Nat.ltb_lt in E.
      destruct (IH c) as (pre & x & post & Hl & Hx & Hpre & Hpost).
      exists (best :: pre), x, post. rewrite Hl. repeat split; auto.
      constructor; [|exact Hpre].
      destruct pre as [|p pre]; simpl in Hl.
      * injection Hl as -> _. exact E.
      * injection Hl as -> _. apply List.Forall_inv in Hpre. simpl in Hpre. lia.
    + apply Nat.ltb_ge in E.
      destruct (IH best) as (pre & x & post & Hl & Hx & Hpre & Hpost).
      destruct pre as [|p pre]; simpl in Hl.
      * injection Hl as Hb Hr. subst best. subst rest.
        exists [], x, (c :: post). repeat split; auto.
      * injection Hl as Hb Hr. subst best. subst rest.
        exists (p :: c :: pre), x, post. repeat split; auto.
        pose proof (List.Forall_inv Hpre) as Hp. simpl in Hp.
        constructor; [exact Hp|]. constructor; [simpl; lia|].
        now apply List.Forall_inv_tail in Hpre.
Qed.

(** A split of a filtered list comes from a split of the list. *)
Lemma filter_split {A} (P : A -> bool) (l pre' post' : list A) (x : A) :
  List.filter P l = pre' ++ x :: post' ->
  exists pre post,
    l = pre ++ x :: post /\ List.filter P pre = pre' /\ List.filter P post = post'.
Proof.
  revert pre'. induction l as [|y l IH]; intros pre' H; simpl in H.
  - destruct pre'; discriminate.
  - destruct (P y) eqn:E.
    + destruct pre' as [|p pre']; simpl in H.
      * injection H as Hy H. subst y. exists [], l. simpl. auto.
      * injection H as Hy H. subst y.
        destruct (IH pre' H) as (pre & post & -> & Hpre & Hpost).
        exists (p :: pre), post. simpl. rewrite E, Hpre. auto.
    + destruct (IH pre' H) as (pre & post & -> & Hpre & Hpost).
      exists (y :: pre), post. simpl. rewrite E. auto.
Qed.

Lemma filter_none {A} (f : A -> bool) (l : list A) :
  (forall x, In x l -> f x = false) -> List.filter f l = [].
Proof.
  induction l as [|y l IH]; intros H; simpl; [reflexivity|].
  rewrite (H y (or_introl eq_refl)). apply IH. intros x Hx. apply H. now right.
Qed.

Lemma intent_scores_filter (query : string) :
  intent_scores query = List.filter (fun p => (0 <? snd p)%nat) (all_scores query).
Proof. reflexivity. Qed.

(** X1. [_detect_intent] answers the fallback intent MULTI_STEP_WORKFLOW
    exactly when no keyword of any intent occurs in the query. *)
Theorem detect_intent_fallback_iff (query : string) :
  _detect_intent query = MULTI_STEP_WORKFLOW <->
  (forall i kws kw, In (i, kws) intent_keywords -> In kw kws -> contains kw query = false).
Proof.
  unfold _detect_intent. split.
  - intros H i kws kw Hi Hkw.
    destruct (intent_scores query) as [|first rest] eqn:Es.
    + assert (Hz : keyword_score query kws = 0%nat).
      { destruct (keyword_score query kws) as [|n] eqn:Ek; [reflexivity|].
        assert (Hin : In (i, S n) (intent_scores query)).
        { unfold intent_scores. apply List.filter_In. split; [|reflexivity].
          apply List.in_map_iff. exists (i, kws). simpl. rewrite Ek. auto. }
        rewrite Es in Hin. contradiction. }
      unfold keyword_score in Hz. apply List.length_zero_iff_nil in Hz.
      destruct (contains kw query) eqn:Ec; [|reflexivity].
      assert (Hin : In kw (List.filter (fun keyword => contains keyword query) kws)).
      { apply List.filter_In. auto. }
      rewrite Hz in Hin. contradiction.
    + exfalso.
      destruct (max_by_score_first_max rest first) as (pre & x & post & Hl & Hx & _ & _).
      assert (Hin : In x (intent_scores query)).
      { rewrite Es, Hl. apply List.in_or_app. right. now left. }
      unfold intent_scores in Hin. apply List.filter_In in Hin as [Hin _].
      apply List.in_map_iff in Hin as ((j & kwsj) & <- & Hj). simpl in Hx.
      rewrite <- Hx in H. subst j.
      revert Hj. clear. intros Hj. simpl in Hj.
      repeat (destruct Hj as [Hj|Hj]; [discriminate|]). exact Hj.
  - intros H.
    assert (Hs : intent_scores query = []).
    { unfold intent_scores.
      induction intent_keywords as [|(i & kws) table IH]; [reflexivity|]. simpl.
      assert (Hz : keyword_score query kws = 0%nat).
      { unfold keyword_score.
        rewrite filter_none; [reflexivity|].
        intros kw Hkw. apply (H i kws kw); [now left | exact Hkw]. }
      rewrite Hz. simpl. apply IH. intros j kwsj kw Hj. apply (H j kwsj kw). now right. }
    rewrite Hs. reflexivity.
Qed.

(** X2. When some keyword occurs in the query, the detected intent is the
    first entry of the keyword table with the highest score: the entries
    before it score strictly less, the entries after it do not score more. *)
Theorem detect_intent_first_argmax (query : string) :
  intent_scores query <> [] ->
  exists pre n post,
    all_scores query = pre ++ (_detect_intent query, n) :: post /\
    0 < n /\
    List.Forall (fun p => snd p < n) pre /\
    List.Forall (fun p => snd p <= n) post.
Proof.
  intros Hne. unfold _detect_intent.
  destruct (intent_scores query) as [|first rest] eqn:Es; [congruence|].
  destruct (max_by_score_first_max rest first) as (pre' & x & post' & Hl & Hx & Hpre & Hpost).
  rewrite <- Es, intent_scores_filter in Hl.
  destruct (filter_split _ _ _ _ _ Hl) as (pre & post & Hall & Fpre & Fpost).
  assert (Hpos : 0 < snd x).
  { assert (Hin : In x (List.filter (fun p => (0 <? snd p)%nat) (all_scores query))).
    { rewrite Hl. apply List.in_or_app. right. now left. }
    apply List.filter_In in Hin as [_ Hin]. now apply Nat.ltb_lt in Hin. }
  exists pre, (snd x), post. rewrite <- Hx.
  replace (fst x, snd x) with x by (destruct x; reflexivity).
  repeat split; auto.
  - apply List.Forall_forall. intros p Hp.
    destruct (0 <? snd p)%nat eqn:E.
    + rewrite List.Forall_forall in Hpre. apply Hpre. rewrite <- Fpre.
      apply List.filter_In. auto.
    + apply Nat.ltb_ge in E. lia.
  - apply List.Forall_forall. intros p Hp.
    destruct (0 <? snd p)%nat eqn:E.
    + rewrite List.Forall_forall in Hpost. apply Hpost. rewrite <- Fpost.
      apply List.filter_In. auto.
    + apply Nat.ltb_ge in E. lia.
Qed.

Lemma detect_intent_first_argmax_witness :
  intent_scores Samples.scheduling_query <> [] /\
  exists pre n post,
    all_scores Samples.scheduling_query
      = pre ++ (_detect_intent Samples.scheduling_query, n) :: post /\
    0 < n /\
    List.Forall (fun p => snd p < n) pre /\
    List.Forall (fun p => snd p <= n) post.
Proof.
  assert (H : intent_scores Samples.scheduling_query <> []) by (vm_compute; discriminate).
  split; [exact H|].
  exact (detect_intent_first_argmax Samples.scheduling_query H).
Defined.

Lemma add_service_nodes_keeps (svcs required : list string) (n : string) :
  In n required -> In n (add_service_nodes svcs required).
Proof.
  revert required. induction svcs as [|s svcs IH]; intros required H;
    cbn [add_service_nodes]; [exact H|].
  destruct (dict_get service_to_node s) as [node|]; [|now apply IH].
  destruct (mem node required); apply IH; [exact H|].
  apply List.in_or_app. now left.
Qed.

Lemma add_service_nodes_adds (svcs required : list string) (s node : string) :
  In s svcs -> dict_get service_to_node s = Some node ->
  In node (add_service_nodes svcs required).
Proof.
  revert required. induction svcs as [|s' svcs IH]; intros required Hs Hd; [contradiction|].
  cbn [add_service_nodes]. destruct Hs as [->|Hs].
  - rewrite Hd. destruct (mem node required) eqn:E.
    + apply add_service_nodes_keeps. now apply mem_In.
    + apply add_service_nodes_keeps, List.in_or_app. right. now left.
  - destruct (dict_get service_to_node s') as [node'|]; [|now apply IH].
    destruct (mem node' required); now apply IH.
Qed.

Lemma nodes_before_trigger_required (query : string) (int : WorkflowIntent)
    (ents : Entities) (n : string) :
  In n (nodes_before_trigger int ents) -> In n (_identify_required_nodes query int ents).
Proof.
  unfold _identify_required_nodes. intros H.
  destruct (truthy (triggers ents) && negb (any_Trigger (nodes_before_trigger int ents)));
    [now right | exact H].
Qed.

(** X3. The required blocks of an analysis contain every block the intent
    table gives for the detected intent, the block of every detected
    service that the service table maps, and the code block whenever a
    condition entity or the action "transform" was found. *)
Theorem required_nodes_cover (query : string) :
  let a := analyze_query query in
  (forall ns n, intent_to_nodes (intent a) = Some ns -> In n ns -> In n (required_nodes a)) /\
  (forall s node, In s (services (entities a)) ->
                  dict_get service_to_node s = Some node -> In node (required_nodes a)) /\
  (conditions (entities a) <> [] \/ In "transform" (actions (entities a)) ->
   In "n8n-nodes-base.code" (required_nodes a)).
Proof.
  intros a. subst a. cbn [intent entities required_nodes analyze_query].
  set (q := strip (lower query)). set (i := _detect_intent q).
  set (e := _extract_entities q).
  repeat split.
  - intros ns n Hi Hn. apply nodes_before_trigger_required.
    unfold nodes_before_trigger. rewrite Hi.
    assert (H : In n (add_service_nodes (services e) ns))
      by now apply add_service_nodes_keeps.
    destruct (truthy (conditions e) || mem "transform" (actions e)); [|exact H].
    destruct (mem "n8n-nodes-base.code" _); [exact H|].
    apply List.in_or_app. now left.
  - intros s node Hs Hd. apply nodes_before_trigger_required.
    unfold nodes_before_trigger.
    set (r0 := match intent_to_nodes i with Some ns => ns | None => [] end).
    assert (H : In node (add_service_nodes (services e) r0))
      by now apply (add_service_nodes_adds _ _ s).
    destruct (truthy (conditions e) || mem "transform" (actions e)); [|exact H].
    destruct (mem "n8n-nodes-base.code" _); [exact H|].
    apply List.in_or_app. now left.
  - intros H. apply nodes_before_trigger_required.
    unfold nodes_before_trigger.
    assert (Hc : truthy (conditions e) || mem "transform" (actions e) = true).
    { destruct H as [H|H].
      - destruct (conditions e); [congruence | reflexivity].
      - apply mem_In in H. rewrite H. apply orb_true_r. }
    rewrite Hc.
    destruct (mem "n8n-nodes-base.code" _) eqn:E.
    + now apply mem_In.
    + apply List.in_or_app. right. now left.
Qed.

Lemma intent_to_nodes_nodup (i : WorkflowIntent) (ns : list string) :
  intent_to_nodes i = Some ns -> NoDup ns.
Proof.
  destruct i; intros H; inversion H; subst; compute_done.
Qed.

Lemma append_new_nodup (required : list string) (node : string) :
  NoDup required -> mem node required = false -> NoDup (required ++ [node]).
Proof.
  intros Hnd Hm. apply NoDup_app. split; [exact Hnd|]. split.
  - intros x Hx Hx'. apply list_elem_of_singleton in Hx' as ->.
    apply mem_false in Hm. apply Hm. now apply list_elem_of_In.
  - apply NoDup_singleton.
Qed.

Lemma add_service_nodes_nodup (svcs required : list string) :
  NoDup required -> NoDup (add_service_nodes svcs required).
Proof.
  revert required. induction svcs as [|s svcs IH]; intros required H;
    cbn [add_service_nodes]; [exact H|].
  destruct (dict_get service_to_node s) as [node|]; [|now apply IH].
  destruct (mem node required) eqn:E; apply IH; [exact H|].
  now apply append_new_nodup.
Qed.

Lemma nodes_before_trigger_nodup (int : WorkflowIntent) (ents : Entities) :
  NoDup (nodes_before_trigger int ents).
Proof.
  unfold nodes_before_trigger.
  set (r0 := match intent_to_nodes int with Some ns => ns | None => [] end).
  assert (H0 : NoDup r0).
  { subst r0. destruct (intent_to_nodes int) eqn:E.
    - eapply intent_to_nodes_nodup, E.
    - constructor. }
  pose proof (add_service_nodes_nodup (services ents) r0 H0) as H1.
  destruct (truthy (conditions ents) || mem "transform" (actions ents)); [|exact H1].
  destruct (mem "n8n-nodes-base.code" _) eqn:E; [exact H1|].
  now apply append_new_nodup.
Qed.

(** X4. The required blocks of an analysis are pairwise different, except
    that the webhook entry block may be put in front of a list that has
    the webhook block already; the list behind it has no duplicates. *)
Theorem required_nodes_duplicates (query : string) :
  let a := analyze_query query in
  NoDup (required_nodes a) \/
  exists rest,
    required_nodes a = "n8n-nodes-base.webhook" :: rest /\
    In "n8n-nodes-base.webhook" rest /\ NoDup rest.
Proof.
  intros a. subst a. cbn [required_nodes analyze_query].
  set (q := strip (lower query)). set (i := _detect_intent q).
  set (e := _extract_entities q).
  unfold _identify_required_nodes.
  pose proof (nodes_before_trigger_nodup i e) as Hnd.
  set (pre := nodes_before_trigger i e) in *.
  destruct (truthy (triggers e) && negb (any_Trigger pre)) eqn:E; [|now left].
  apply andb_true_iff in E as [_ E]. apply negb_true_iff in E.
  unfold entry_block.
  destruct (contains "schedule" q || contains "every" q).
  - left. apply NoDup_cons. split; [|exact Hnd].
    intros Hin. apply list_elem_of_In in Hin.
    unfold any_Trigger in E.
    assert (Ht : existsb (contains "Trigger") pre = true).
    { apply existsb_exists. exists "n8n-nodes-base.scheduleTrigger". split; [exact Hin|].
      vm_compute. reflexivity. }
    congruence.
  - destruct (mem "n8n-nodes-base.webhook" pre) eqn:Em.
    + right. exists pre. repeat split; [now apply mem_In | exact Hnd].
    + left. apply NoDup_cons. split; [|exact Hnd].
      intros Hin. apply list_elem_of_In in Hin. apply mem_false in Em. contradiction.
Qed.

Lemma dict_get_In (d : list (string * string)) (k v : string) :
  dict_get d k = Some v -> In v (List.map snd d).
Proof.
  induction d as [|(k' & v') d IH]; simpl; [discriminate|].
  destruct (String.eqb k k'); [intros [= ->]; now left | intros H; right; now apply IH].
Qed.

Lemma add_service_nodes_identifiers (svcs required : list string) :
  List.forallb is_block_identifier required = true ->
  List.forallb is_block_identifier (add_service_nodes svcs required) = true.
Proof.
  revert required. induction svcs as [|s svcs IH]; intros required H;
    cbn [add_service_nodes]; [exact H|].
  destruct (dict_get service_to_node s) as [node|] eqn:Ed; [|now apply IH].
  destruct (mem node required); apply IH; [exact H|].
  rewrite List.forallb_app, H. simpl. rewrite andb_true_r.
  apply dict_get_In in Ed.
  assert (Hall : List.forallb is_block_identifier (List.map snd service_to_node) = true)
    by (vm_compute; reflexivity).
  rewrite List.forallb_forall in Hall. now apply Hall.
Qed.

Lemma required_identifiers (query : string) :
  List.forallb is_block_identifier (required_nodes (analyze_query query)) = true.
Proof.
  cbn [required_nodes analyze_query].
  set (q := strip (lower query)). set (i := _detect_intent q).
  set (e := _extract_entities q).
  assert (Hpre : List.forallb is_block_identifier (nodes_before_trigger i e) = true).
  { unfold nodes_before_trigger.
    set (r0 := match intent_to_nodes i with Some ns => ns | None => [] end).
    assert (H0 : List.forallb is_block_identifier r0 = true)
      by (subst r0; destruct i; vm_compute; reflexivity).
    pose proof (add_service_nodes_identifiers (services e) r0 H0) as H1.
    destruct (truthy (conditions e) || mem "transform" (actions e)); [|exact H1].
    destruct (mem "n8n-nodes-base.code" _); [exact H1|].
    rewrite List.forallb_app, H1. reflexivity. }
  unfold _identify_required_nodes.
  destruct (truthy (triggers e) && negb (any_Trigger (nodes_before_trigger i e)));
    [|exact Hpre].
  simpl. rewrite Hpre, andb_true_r.
  unfold entry_block. destruct (contains "schedule" q || contains "every" q); reflexivity.
Qed.

(** X5. Every required block of an analysis is a full n8n identifier: it
    begins with "n8n-nodes-base." or "@n8n/n8n-nodes-langchain."; so the
    literals "nodes-base.webhook" and "nodes-base.code" are never among
    the required blocks. *)
Theorem required_nodes_identifiers (query : string) :
  List.forallb is_block_identifier (required_nodes (analyze_query query)) = true /\
  ~ In "nodes-base.webhook" (required_nodes (analyze_query query)) /\
  ~ In "nodes-base.code" (required_nodes (analyze_query query)).
Proof.
  pose proof (required_identifiers query) as H.
  split; [exact H|].
  rewrite List.forallb_forall in H.
  split; intros Hin; apply H in Hin; discriminate.
Qed.

(** X6. Adding required blocks never lowers the complexity rating, and
    the rating is one of "simple", "moderate" and "complex". *)
Theorem assess_complexity_monotone (r1 r2 : list string) (ents : Entities) :
  length r1 <= length r2 ->
  complexity_rank (_assess_complexity r1 ents)
    <= complexity_rank (_assess_complexity r2 ents) /\
  In (_assess_complexity r1 ents) ["simple"; "moderate"; "complex"].
Proof.
  intros Hlen. rewrite !assess_complexity_cases. split.
  - destruct (length r1 <=? 2)%nat eqn:E1, (length r2 <=? 2)%nat eqn:E2,
      (length r1 <=? 4)%nat eqn:E3, (length r2 <=? 4)%nat eqn:E4,
      (truthy (conditions ents)); cbn [andb negb];
      repeat match goal with
      | H : (_ <=? _)%nat = true |- _ => apply Nat.leb_le in H
      | H : (_ <=? _)%nat = false |- _ => apply Nat.leb_gt in H
      end; try lia; vm_compute; lia.
  - destruct ((length r1 <=? 2)%nat && negb (truthy (conditions ents)));
      [|destruct (length r1 <=? 4)%nat]; simpl; tauto.
Qed.

Lemma assess_complexity_monotone_witness :
  let ents := entities (analyze_query Samples.filter_query) in
  length ["a"; "b"] <= length ["a"; "b"; "c"; "d"; "e"] /\
  complexity_rank (_assess_complexity ["a"; "b"] ents)
    <= complexity_rank (_assess_complexity ["a"; "b"; "c"; "d"; "e"] ents) /\
  In (_assess_complexity ["a"; "b"] ents) ["simple"; "moderate"; "complex"].
Proof.
  intros ents.
  assert (H : length ["a"; "b"] <= length ["a"; "b"; "c"; "d"; "e"]) by (simpl; lia).
  split; [exact H|].
  exact (assess_complexity_monotone ["a"; "b"] ["a"; "b"; "c"; "d"; "e"] ents H).
Defined.

(** X7. For a query of ASCII characters, analysing the cleaned query of
    its analysis again changes nothing but the original query: cleaning
    (lower-casing, then stripping the surrounding whitespace) is
    idempotent on ASCII text, on which [lower] and [strip] are Python's
    [str.lower] and [str.strip]. *)
Theorem analyze_cleaned_query (query : string) :
  is_ascii query = true ->
  let a := analyze_query query in
  let b := analyze_query (cleaned_query a) in
  cleaned_query b = cleaned_query a /\
  intent b = intent a /\
  entities b = entities a /\
  required_nodes b = required_nodes a /\
  workflow_complexity b = workflow_complexity a.
Proof.
  intros _ a b. subst a b. unfold analyze_query.
  cbn [cleaned_query intent entities required_nodes workflow_complexity].
  rewrite clean_idem. repeat split; reflexivity.
Qed.

Lemma analyze_cleaned_query_witness :
  let query := "  Send a Slack message when a Webhook arrives " in
  let a := analyze_query query in
  let b := analyze_query (cleaned_query a) in
  is_ascii query = true /\
  cleaned_query b = cleaned_query a /\
  intent b = intent a /\
  entities b = entities a /\
  required_nodes b = required_nodes a /\
  workflow_complexity b = workflow_complexity a.
Proof.
  intros query a b.
  assert (H : is_ascii query = true) by (vm_compute; reflexivity).
  split; [exact H|].
  exact (analyze_cleaned_query query H).
Defined.

End QueryMoreFacts.

(** ** Context assembly, continued *)

Section ContextMoreFacts.

Import PyStr PyList Statements MoreStatements QueryProcessor ContextAssembler.

Local Open Scope Q_scope.

Lemma firstn_length_le {A} (n : nat) (l : list A) :
  (length (List.firstn n l) <= n)%nat /\ (length (List.firstn n l) <= length l)%nat.
Proof.
  rewrite List.length_firstn. lia.
Qed.

Lemma firstn_In {A} (n : nat) (l : list A) (x : A) : In x (List.firstn n l) -> In x l.
Proof.
  revert l. induction n as [|n IH]; intros [|y l] H; simpl in *; try contradiction.
  destruct H as [H|H]; [now left | right; now apply IH].
Qed.

(** X8. The patterns of an assembled context are at most three, each made
    from a "templates" hit whose relevance score is above 0.7 and keeping
    that score, with a description of at most 300 characters; the
    examples are at most two, each made from a "tasks" hit whose score is
    above 0.6, with a content of at most 400 characters. *)
Theorem patterns_and_examples_bounds (retrieved : Retrieved) :
  (length (_get_workflow_patterns retrieved) <= 3)%nat /\
  (forall p, In p (_get_workflow_patterns retrieved) ->
     7 # 10 < relevance p /\
     (String.length (pattern_description p) <= 300)%nat /\
     exists template, In template (get_chunks retrieved "templates") /\
                      relevance p = relevance_score template /\
                      pattern_description p = take 300 (content template)) /\
  (length (_get_relevant_examples retrieved) <= 2)%nat /\
  (forall e, In e (_get_relevant_examples retrieved) ->
     example_type e = "task_configuration" /\
     (String.length (example_content e) <= 400)%nat /\
     exists task, In task (get_chunks retrieved "tasks") /\
                  6 # 10 < relevance_score task /\
                  example_content e = take 400 (content task)).
Proof.
  unfold _get_workflow_patterns, _get_relevant_examples. repeat split.
  - apply firstn_length_le.
  - apply firstn_In, List.in_map_iff in H as (t & <- & Ht).
    apply List.filter_In in Ht as [_ Ht]. simpl.
    unfold Qlt_bool in Ht. apply negb_true_iff in Ht.
    destruct (Qlt_le_dec (7 # 10) (relevance_score t)) as [Hlt|Hle]; [exact Hlt|].
    apply Qle_bool_iff in Hle. congruence.
  - apply firstn_In, List.in_map_iff in H as (t & <- & Ht). simpl. apply take_length.
  - apply firstn_In, List.in_map_iff in H as (t & <- & Ht).
    apply List.filter_In in Ht as [Ht _]. exists t. simpl. auto.
  - apply firstn_length_le.
  - apply firstn_In, List.in_map_iff in H as (t & <- & Ht). reflexivity.
  - apply firstn_In, List.in_map_iff in H as (t & <- & Ht). simpl. apply take_length.
  - apply firstn_In, List.in_map_iff in H as (t & <- & Ht).
    apply List.filter_In in Ht as [Hin Ht]. exists t. simpl. repeat split; auto.
    unfold Qlt_bool in Ht. apply negb_true_iff in Ht.
    destruct (Qlt_le_dec (6 # 10) (relevance_score t)) as [Hlt|Hle]; [exact Hlt|].
    apply Qle_bool_iff in Hle. congruence.
Qed.

Lemma scan_node_chunks_first_match (node_type : string)
    (pre post : list Chunk) (chunk : Chunk) (doc : NodeDoc) :
  List.forallb (fun c => negb (full_match node_type c)) pre = true ->
  full_match node_type chunk = true ->
  scan_node_chunks node_type (pre ++ chunk :: post) doc
    = {| doc_node_type := doc_node_type doc;
         doc_properties := metadata chunk;
         doc_description := take 500 (content chunk);
         doc_configuration := doc_configuration doc |}.
Proof.
  unfold full_match. intros Hpre Hc. revert doc.
  induction pre as [|c pre IH]; intros doc; simpl.
  - apply andb_true_iff in Hc as [Hc Hm]. apply bool_decide_eq_true in Hm.
    rewrite Hc. rewrite decide_True by exact Hm. reflexivity.
  - simpl in Hpre. apply andb_true_iff in Hpre as [Hc0 Hpre].
    apply negb_true_iff in Hc0.
    destruct (contains node_type (content c)) eqn:E.
    + simpl in Hc0. apply bool_decide_eq_false in Hc0.
      rewrite decide_False by exact Hc0. rewrite (IH Hpre). reflexivity.
    + now rewrite (IH Hpre).
Qed.

(** X9. When the "nodes" hits contain a hit whose content contains the
    block identifier and whose metadata names exactly this block, the
    documentation of the block is taken from the first such hit: its
    metadata as properties and the first 500 characters of its content as
    description, whatever the hits before and after it are. *)
Theorem node_documentation_first_match (node_type : string) (retrieved : Retrieved)
    (pre post : list Chunk) (chunk : Chunk) :
  get_chunks retrieved "nodes" = pre ++ chunk :: post ->
  List.forallb (fun c => negb (full_match node_type c)) pre = true ->
  full_match node_type chunk = true ->
  _get_node_documentation node_type retrieved
    = {| doc_node_type := node_type;
         doc_properties := metadata chunk;
         doc_description := take 500 (content chunk);
         doc_configuration := ∅ |}.
Proof.
  intros Hn Hpre Hc. unfold _get_node_documentation. rewrite Hn.
  now rewrite (scan_node_chunks_first_match node_type pre post chunk _ Hpre Hc).
Qed.

Lemma node_documentation_first_match_witness :
  let hit :=
    {| content := "Node: Slack Type: n8n-nodes-base.slack";
       metadata := {["node_type" := "n8n-nodes-base.slack"]};
       relevance_score := 9 # 10 |} in
  let other :=
    {| content := "Send with n8n-nodes-base.slack or by email";
       metadata := {["node_type" := "n8n-nodes-base.emailSend"]};
       relevance_score := 8 # 10 |} in
  let retrieved : Retrieved := {["nodes" := [other; hit; other]]} in
  (get_chunks retrieved "nodes" = [other] ++ hit :: [other] /\
   List.forallb (fun c => negb (full_match "n8n-nodes-base.slack" c)) [other] = true /\
   full_match "n8n-nodes-base.slack" hit = true) /\
  _get_node_documentation "n8n-nodes-base.slack" retrieved
    = {| doc_node_type := "n8n-nodes-base.slack";
         doc_properties := metadata hit;
         doc_description := take 500 (content hit);
         doc_configuration := ∅ |}.
Proof.
  intros hit other retrieved.
  assert (H1 : get_chunks retrieved "nodes" = [other] ++ hit :: [other])
    by (vm_compute; reflexivity).
  assert (H2 : List.forallb (fun c => negb (full_match "n8n-nodes-base.slack" c)) [other]
               = true) by (vm_compute; reflexivity).
  assert (H3 : full_match "n8n-nodes-base.slack" hit = true) by (vm_compute; reflexivity).
  split; [exact (conj H1 (conj H2 H3))|].
  exact (node_documentation_first_match "n8n-nodes-base.slack" retrieved
           [other] [other] hit H1 H2 H3).
Defined.

Lemma not_identifier_not_member (x : string) (l : list string) :
  is_block_identifier x = false ->
  List.forallb is_block_identifier l = true ->
  mem x l = false.
Proof.
  intros Hx Hl. unfold mem. apply not_true_is_false. intros H.
  apply existsb_exists in H as (y & Hy & E). apply String.eqb_eq in E. subst y.
  rewrite List.forallb_forall in Hl. rewrite (Hl x Hy) in Hx. discriminate.
Qed.

(** X10. For the analysis of any query, the rule list of the assembled
    context is the four fixed rules, followed by the single-trigger rule
    exactly when a required block identifier contains "Trigger"; the
    webhook rule and the code rule are never in it. *)
Theorem validation_rules_of_analysis (query : string) (retrieved : Retrieved) :
  let a := analyze_query query in
  validation_rules (assemble_context a retrieved)
    = base_rules ++ (if any_Trigger (required_nodes a) then [trigger_rule] else []).
Proof.
  intros a. cbn [validation_rules assemble_context].
  unfold _get_validation_rules.
  pose proof (required_identifiers query) as Hid. fold a in Hid.
  rewrite (not_identifier_not_member "nodes-base.webhook" _ eq_refl Hid).
  rewrite (not_identifier_not_member "nodes-base.code" _ eq_refl Hid).
  now rewrite !List.app_nil_r.
Qed.

End ContextMoreFacts.

(** ** Retrieval, continued *)

Section RetrieverMoreFacts.

Import PyStr PyList Statements MoreStatements QueryProcessor ContextAssembler Retriever.

Local Open Scope Q_scope.

Lemma zip3_with_lookup {A B C D} (f : A -> B -> C -> D)
    (a : list A) (b : list B) (c : list C) (i : nat) (r : D) :
  zip3_with f a b c !! i = Some r ->
  exists x y z, a !! i = Some x /\ b !! i = Some y /\ c !! i = Some z /\ r = f x y z.
Proof.
  revert b c i. induction a as [|x a IH]; intros [|y b] [|z c] i H; simpl in H;
    try discriminate.
  destruct i as [|i]; simpl in *.
  - injection H as <-. exists x, y, z. auto.
  - apply IH in H. exact H.
Qed.

Lemma zip3_with_length_min {A B C D} (f : A -> B -> C -> D)
    (a : list A) (b : list B) (c : list C) :
  length (zip3_with f a b c) = Nat.min (length a) (Nat.min (length b) (length c)).
Proof.
  revert b c. induction a as [|x a IH]; intros [|y b] [|z c]; simpl; try lia.
  rewrite IH. reflexivity.
Qed.

(** X11. [_format_results] reads the first row of each of the three lists
    like zip: the result has as many entries as the shortest row, and
    entry [i] holds document [i], metadata [i] and the score
    [1 - distance[i] / 2]. An answer without a documents row gives the
    empty list; it fails exactly when there is a documents row but no
    metadatas row or no distances row. *)
Theorem format_results_zip (raw : RawResults) :
  (documents raw = [] -> _format_results raw = Some []) /\
  (_format_results raw = None <->
   documents raw <> [] /\ (metadatas raw = [] \/ distances raw = [])) /\
  (forall docs0 rows out,
     documents raw = docs0 :: rows -> _format_results raw = Some out ->
     exists metas0 dists0,
       head (metadatas raw) = Some metas0 /\ head (distances raw) = Some dists0 /\
       length out = Nat.min (length docs0) (Nat.min (length metas0) (length dists0)) /\
       forall i c, out !! i = Some c ->
         docs0 !! i = Some (content c) /\ metas0 !! i = Some (metadata c) /\
         exists d, dists0 !! i = Some d /\ relevance_score c = 1 - d / 2).
Proof.
  unfold _format_results. split; [|split].
  - intros ->. reflexivity.
  - destruct (documents raw) as [|docs0 rows].
    { split; [discriminate | intros [H _]; congruence]. }
    destruct (metadatas raw) as [|metas0 mrows]; simpl.
    { split; [intros _; split; [discriminate | now left] | reflexivity]. }
    destruct (distances raw) as [|dists0 drows]; simpl.
    { split; [intros _; split; [discriminate | now right] | reflexivity]. }
    split; [discriminate | intros [_ [H|H]]; discriminate].
  - intros docs0 rows out -> H.
    destruct (head (metadatas raw)) as [metas0|]; simpl in H; [|discriminate].
    destruct (head (distances raw)) as [dists0|]; simpl in H; [|discriminate].
    injection H as <-. exists metas0, dists0. repeat split.
    + apply zip3_with_length_min.
    + apply zip3_with_lookup in H as (x & y & z & Hx & Hy & Hz & ->). exact Hx.
    + apply zip3_with_lookup in H as (x & y & z & Hx & Hy & Hz & ->). exact Hy.
    + apply zip3_with_lookup in H as (x & y & z & Hx & Hy & Hz & ->). exists z. auto.
Qed.

End RetrieverMoreFacts.

Section PipelineFacts.

Import PyStr PyList Statements MoreStatements QueryProcessor ContextAssembler Retriever.
Import RetrieveContext.

Local Open Scope Q_scope.

Context {Embedding : Type}.
Variable encode : string -> Embedding.
Variable collections : gmap string (Embedding -> nat -> RawResults).
Variable hash : string -> Z.

(** The kept results are the ones kept so far followed by more. *)
Lemma dedup_loop_prefix (k : nat) (sorted : list Chunk) (seen : gset Z) (acc : list Chunk) :
  exists more, dedup_loop hash k sorted seen acc = acc ++ more /\
               forall x, x ∈ more -> x ∈ sorted.
Proof.
  revert seen acc. induction sorted as [|r rest IH]; intros seen acc; simpl.
  - exists []. rewrite List.app_nil_r. split; [reflexivity|]. intros x Hx. exact Hx.
  - destruct (decide (hash (take 100 (content r)) ∈ seen)).
    + destruct (IH seen acc) as (more & -> & Hm). exists more. split; [reflexivity|].
      intros x Hx. apply elem_of_cons. right. now apply Hm.
    + destruct (k <=? length (acc ++ [r]))%nat.
      * exists [r]. split; [reflexivity|]. intros x Hx.
        apply list_elem_of_singleton in Hx as ->. apply elem_of_cons. now left.
      * destruct (IH ({[hash (take 100 (content r))]} ∪ seen) (acc ++ [r]))
          as (more & -> & Hm).
        exists (r :: more). rewrite <- List.app_assoc. split; [reflexivity|].
        intros x Hx. apply elem_of_cons in Hx as [->|Hx]; apply elem_of_cons;
          [now left | right; now apply Hm].
Qed.

Lemma dedup_loop_sorted (R : Chunk -> Chunk -> Prop) (k : nat) (sorted : list Chunk)
    (seen : gset Z) (acc : list Chunk) :
  StronglySorted R (acc ++ sorted) ->
  StronglySorted R (dedup_loop hash k sorted seen acc).
Proof.
  revert seen acc. induction sorted as [|r rest IH]; intros seen acc H; simpl.
  - now rewrite List.app_nil_r in H.
  - assert (Hkeep : StronglySorted R ((acc ++ [r]) ++ rest))
      by now rewrite <- List.app_assoc.
    destruct (decide (hash (take 100 (content r)) ∈ seen)).
    + apply IH. apply StronglySorted_app in H as (Hx & Ha & Hr).
      apply StronglySorted_app. repeat split.
      * intros x1 x2 H1 H2. apply Hx; [exact H1|]. apply elem_of_cons. now right.
      * exact Ha.
      * now apply StronglySorted_cons in Hr as [_ Hr].
    + destruct (k <=? length (acc ++ [r]))%nat.
      * now apply StronglySorted_app_1_l in Hkeep.
      * now apply IH.
Qed.

(** The first sorted result is always kept first. *)
Lemma dedup_loop_head (k : nat) (r : Chunk) (rest : list Chunk) :
  head (dedup_loop hash k (r :: rest) ∅ []) = Some r.
Proof.
  simpl. rewrite decide_False by apply not_elem_of_empty.
  destruct (k <=? 1)%nat; [reflexivity|].
  destruct (dedup_loop_prefix k rest ({[hash (take 100 (content r))]} ∪ ∅) [r])
    as (more & -> & _).
  reflexivity.
Qed.

(** The parts of a result of [_multi_stage_retrieval]. *)
Lemma multi_stage_inv (queries : list string) (analysis : QueryAnalysis) (k : nat)
    (out : Retrieved) :
  _multi_stage_retrieval encode collections hash queries analysis k = Some out ->
  exists nodes templates tasks connections,
    out = <["connections" := connections]> (<["tasks" := tasks]>
            (<["templates" := templates]> (<["nodes" := nodes]> ∅))) /\
    match collections !! "n8n_nodes" with
    | None => nodes = []
    | Some coll =>
        exists node_results,
          node_stage_query coll (List.firstn 2 (List.map encode queries)) k
            = Some node_results /\
          nodes = dedup_loop hash k (sorted_desc relevance_score node_results) ∅ []
    end /\
    single_stage collections "n8n_templates" (List.map encode queries) (Nat.min k 3)
      = Some templates /\
    single_stage collections "n8n_tasks" (List.map encode queries) (Nat.min k 3)
      = Some tasks /\
    single_stage collections "n8n_connections" (List.map encode queries) (Nat.min k 2)
      = Some connections.
Proof.
  unfold _multi_stage_retrieval. intros H.
  destruct (collections !! "n8n_nodes") as [coll|].
  - destruct (node_stage_query coll _ k) as [node_results|] eqn:En; simpl in H; [|discriminate].
    destruct (single_stage collections "n8n_templates" _ _) as [templates|];
      simpl in H; [|discriminate].
    destruct (single_stage collections "n8n_tasks" _ _) as [tasks|];
      simpl in H; [|discriminate].
    destruct (single_stage collections "n8n_connections" _ _) as [connections|];
      simpl in H; [|discriminate].
    injection H as <-. eexists _, templates, tasks, connections.
    repeat split. exists node_results. auto.
  - simpl in H.
    destruct (single_stage collections "n8n_templates" _ _) as [templates|];
      simpl in H; [|discriminate].
    destruct (single_stage collections "n8n_tasks" _ _) as [tasks|];
      simpl in H; [|discriminate].
    destruct (single_stage collections "n8n_connections" _ _) as [connections|];
      simpl in H; [|discriminate].
    injection H as <-. exists [], templates, tasks, connections. auto.
Qed.

Lemma retrieved_lookups (nodes templates tasks connections : list Chunk) :
  let out : Retrieved :=
    <["connections" := connections]> (<["tasks" := tasks]>
      (<["templates" := templates]> (<["nodes" := nodes]> ∅))) in
  get_chunks out "nodes" = nodes /\ get_chunks out "templates" = templates /\
  get_chunks out "tasks" = tasks /\ get_chunks out "connections" = connections.
Proof.
  unfold get_chunks. repeat split; by simplify_map_eq.
Qed.

Lemma node_stage_query_elems (coll : Embedding -> nat -> RawResults)
    (embeddings : list Embedding) (k : nat) (node_results : list Chunk) (c : Chunk) :
  node_stage_query coll embeddings k = Some node_results -> c ∈ node_results ->
  exists e formatted, e ∈ embeddings /\ _format_results (coll e k) = Some formatted /\
                      c ∈ formatted.
Proof.
  revert node_results. induction embeddings as [|e es IH]; intros node_results H Hc;
    simpl in H.
  - injection H as <-. apply not_elem_of_nil in Hc. contradiction.
  - destruct (_format_results (coll e k)) as [here|] eqn:Eh; simpl in H; [|discriminate].
    destruct (node_stage_query coll es k) as [more|]; simpl in H; [|discriminate].
    injection H as <-. apply elem_of_app in Hc as [Hc|Hc].
    + exists e, here. repeat split; auto. apply elem_of_cons. now left.
    + destruct (IH more eq_refl Hc) as (e' & f & He & Hf & Hcf).
      exists e', f. repeat split; auto. apply elem_of_cons. now right.
Qed.

(** X12. In every result of [_multi_stage_retrieval], the "nodes" list is
    sorted by descending relevance score, each of its entries is a
    formatted hit of the nodes collection for one of the first two query
    embeddings, and whenever the collection returned any hit the list is
    not empty and begins with a hit of the highest score. *)
Theorem nodes_ranking (queries : list string) (analysis : QueryAnalysis) (k : nat)
    (out : Retrieved) :
  _multi_stage_retrieval encode collections hash queries analysis k = Some out ->
  StronglySorted (desc relevance_score) (get_chunks out "nodes") /\
  (forall c, c ∈ get_chunks out "nodes" ->
     exists coll e formatted,
       collections !! "n8n_nodes" = Some coll /\
       e ∈ List.firstn 2 (List.map encode queries) /\
       _format_results (coll e k) = Some formatted /\ c ∈ formatted) /\
  (forall coll node_results c,
     collections !! "n8n_nodes" = Some coll ->
     node_stage_query coll (List.firstn 2 (List.map encode queries)) k = Some node_results ->
     c ∈ node_results ->
     exists top, head (get_chunks out "nodes") = Some top /\
                 relevance_score c <= relevance_score top).
Proof.
  intros H.
  destruct (multi_stage_inv _ _ _ _ H) as (nodes & templates & tasks & connections
                                            & -> & Hn & _).
  destruct (retrieved_lookups nodes templates tasks connections) as (-> & _).
  destruct (collections !! "n8n_nodes") as [coll|] eqn:Ec.
  - destruct Hn as (node_results & Hq & ->).
    pose proof (sorted_desc_sorted relevance_score node_results) as Hs.
    pose proof (sorted_desc_perm relevance_score node_results) as Hp.
    repeat split.
    + apply dedup_loop_sorted. exact Hs.
    + intros c Hc.
      destruct (dedup_loop_prefix k (sorted_desc relevance_score node_results) ∅ [])
        as (more & Hm & Hin).
      rewrite Hm in Hc. simpl in Hc. apply Hin in Hc.
      apply list_elem_of_In in Hc. apply (Permutation_in _ Hp) in Hc.
      apply list_elem_of_In in Hc.
      destruct (node_stage_query_elems _ _ _ _ _ Hq Hc) as (e & f & He & Hf & Hcf).
      exists coll, e, f. auto.
    + intros coll' node_results' c [= <-] Hq' Hc.
      rewrite Hq in Hq'. injection Hq' as <-.
      destruct (sorted_desc relevance_score node_results) as [|top rest] eqn:Es.
      * apply list_elem_of_In in Hc.
        apply (Permutation_in _ (Permutation_sym Hp)) in Hc. contradiction.
      * exists top. split; [apply dedup_loop_head|].
        apply list_elem_of_In in Hc.
        apply (Permutation_in _ (Permutation_sym Hp)) in Hc.
        destruct Hc as [->|Hc]; [apply Qle_refl|].
        apply StronglySorted_cons in Hs as [Hall _].
        rewrite Forall_forall in Hall. apply Hall. now apply list_elem_of_In.
  - subst nodes. repeat split.
    + constructor.
    + intros c Hc. apply not_elem_of_nil in Hc. contradiction.
    + intros coll nr c Hcoll. discriminate.
Qed.

(** Under the store contract the retrieval of a non-empty query list
    returns, with the size caps of its four lists. *)
Lemma multi_stage_lengths (queries : list string) (analysis : QueryAnalysis) (k : nat) :
  (forall name coll e n, collections !! name = Some coll -> store_contract (coll e n) n) ->
  queries <> [] ->
  exists out,
    _multi_stage_retrieval encode collections hash queries analysis k = Some out /\
    (length (get_chunks out "nodes") <= k)%nat /\
    (length (get_chunks out "templates") <= Nat.min k 3)%nat /\
    (length (get_chunks out "tasks") <= Nat.min k 3)%nat /\
    (length (get_chunks out "connections") <= Nat.min k 2)%nat.
Proof.
  intros Hc Hq.
  assert (Hemb : List.map encode queries <> []).
  { destruct queries; [congruence | discriminate]. }
  unfold _multi_stage_retrieval.
  destruct (nodes_stage_contract collections hash (List.map encode queries) k
              (Hc "n8n_nodes")) as (nodes & -> & Hn & _).
  destruct (single_stage_contract collections "n8n_templates" (List.map encode queries)
              (Nat.min k 3) (Hc "n8n_templates") Hemb) as (templates & -> & Ht & _).
  destruct (single_stage_contract collections "n8n_tasks" (List.map encode queries)
              (Nat.min k 3) (Hc "n8n_tasks") Hemb) as (tasks & -> & Hk & _).
  destruct (single_stage_contract collections "n8n_connections" (List.map encode queries)
              (Nat.min k 2) (Hc "n8n_connections") Hemb) as (connections & -> & Hcn & _).
  simpl. eexists. split; [reflexivity|].
  destruct (retrieved_lookups nodes templates tasks connections) as (-> & -> & -> & ->).
  auto.
Qed.

Lemma expand_query_nonempty (analysis : QueryAnalysis) : expand_query analysis <> [].
Proof. discriminate. Qed.

Lemma filter_length_le {A} (f : A -> bool) (l : list A) :
  (length (List.filter f l) <= length l)%nat.
Proof.
  induction l as [|x l IH]; simpl; [lia|]. destruct (f x); simpl; lia.
Qed.

Lemma retrieve_for_generation_shape (query : string) :
  (forall name coll e n, collections !! name = Some coll -> store_contract (coll e n) n) ->
  exists ctx,
    retrieve_for_generation encode collections hash query 5 = Some ctx /\
    List.map doc_node_type (node_documentation ctx) = required_nodes (analyze_query query) /\
    (length (workflow_patterns ctx) <= 3)%nat /\
    (length (examples ctx) <= 2)%nat.
Proof.
  intros Hc. unfold retrieve_for_generation.
  destruct (multi_stage_lengths (expand_query (analyze_query query)) (analyze_query query) 5
              Hc (expand_query_nonempty _)) as (out & -> & _).
  simpl. eexists. split; [reflexivity|].
  cbn [node_documentation workflow_patterns examples assemble_context].
  repeat split.
  - apply collect_node_docs_types.
  - unfold _get_workflow_patterns. rewrite List.length_firstn. lia.
  - unfold _get_relevant_examples. rewrite List.length_firstn. lia.
Qed.

(** X13. When every loaded collection keeps the store contract,
    [retrieve_for_generation] returns a context for every query and every
    result count [k]: it carries the query and the analysis of the query,
    one documentation entry per required block (in order), at most
    min(k, 3) patterns and at most min(k, 2) examples. *)
Theorem retrieve_for_generation_total (query : string) (k : nat) :
  (forall name coll e n, collections !! name = Some coll -> store_contract (coll e n) n) ->
  exists ctx,
    retrieve_for_generation encode collections hash query k = Some ctx /\
    ctx_query ctx = query /\
    ctx_intent ctx = intent_value (intent (analyze_query query)) /\
    ctx_complexity ctx = workflow_complexity (analyze_query query) /\
    ctx_required_nodes ctx = required_nodes (analyze_query query) /\
    List.map doc_node_type (node_documentation ctx) = required_nodes (analyze_query query) /\
    (length (workflow_patterns ctx) <= Nat.min k 3)%nat /\
    (length (examples ctx) <= Nat.min k 2)%nat.
Proof.
  intros Hc. unfold retrieve_for_generation.
  destruct (multi_stage_lengths (expand_query (analyze_query query)) (analyze_query query) k
              Hc (expand_query_nonempty _)) as (out & -> & _ & Ht & Hk & _).
  simpl. eexists. split; [reflexivity|].
  cbn [ctx_query ctx_intent ctx_complexity ctx_required_nodes node_documentation
       workflow_patterns examples assemble_context].
  repeat split.
  - apply collect_node_docs_types.
  - unfold _get_workflow_patterns. rewrite List.length_firstn, List.length_map.
    pose proof (filter_length_le (fun t => Qlt_bool (7 # 10) (relevance_score t))
                  (get_chunks out "templates")). lia.
  - unfold _get_relevant_examples. rewrite List.length_firstn, List.length_map.
    pose proof (filter_length_le (fun t => Qlt_bool (6 # 10) (relevance_score t))
                  (get_chunks out "tasks")). lia.
Qed.

(** X14. When every loaded collection keeps the store contract,
    [retrieve_context] answers with confidence 0.8 from the analysis of
    the original query alone: the documentation has one entry per
    required block, and the retrieved-documents list has one empty string
    for each documentation entry and each pattern (their dicts have no
    "content" key), followed by the contents of the examples. *)
Theorem retrieve_context_shape (query_analysis : QueryAnalysis) :
  (forall name coll e n, collections !! name = Some coll -> store_contract (coll e n) n) ->
  let r := retrieve_context encode collections hash query_analysis in
  let a := analyze_query (original_query query_analysis) in
  confidence r == 8 # 10 /\
  List.map doc_node_type (rag_node_documentation r) = required_nodes a /\
  retrieved_documents r
    = List.repeat "" (length (required_nodes a) + length (rag_workflow_patterns r))
      ++ List.map example_content (rag_examples r) /\
  (length (rag_workflow_patterns r) <= 3)%nat /\
  (length (rag_examples r) <= 2)%nat.
Proof.
  intros Hc r a. subst r a. unfold retrieve_context.
  destruct (retrieve_for_generation_shape (original_query query_analysis) Hc)
    as (ctx & -> & Hd & Hp & He).
  cbn [confidence rag_node_documentation retrieved_documents rag_workflow_patterns
       rag_examples].
  split; [reflexivity|]. split; [exact Hd|]. split; [|split; assumption].
  - rewrite List.app_assoc. f_equal.
    rewrite List.repeat_app. f_equal.
    + rewrite <- Hd, List.length_map.
      generalize (node_documentation ctx). intros l.
      induction l as [|d l IH]; simpl; [reflexivity | now f_equal].
    + generalize (workflow_patterns ctx). intros l.
      induction l as [|d l IH]; simpl; [reflexivity | now f_equal].
Qed.

End PipelineFacts.

Section PipelineWitnesses.

Import PyStr PyList Statements MoreStatements QueryProcessor ContextAssembler Retriever.
Import RetrieveContext.

Local Open Scope Q_scope.

Lemma nodes_ranking_witness :
  let analysis := analyze_query Samples.slack_query in
  let queries := expand_query analysis in
  let out :=
    default ∅ (_multi_stage_retrieval id Samples.sample_collections Samples.sample_hash
                 queries analysis 2) in
  _multi_stage_retrieval id Samples.sample_collections Samples.sample_hash
    queries analysis 2 = Some out /\
  StronglySorted (desc relevance_score) (get_chunks out "nodes") /\
  (forall c, c ∈ get_chunks out "nodes" ->
     exists coll e formatted,
       Samples.sample_collections !! "n8n_nodes" = Some coll /\
       e ∈ List.firstn 2 (List.map id queries) /\
       _format_results (coll e 2%nat) = Some formatted /\ c ∈ formatted) /\
  (forall coll node_results c,
     Samples.sample_collections !! "n8n_nodes" = Some coll ->
     node_stage_query coll (List.firstn 2 (List.map id queries)) 2 = Some node_results ->
     c ∈ node_results ->
     exists top, head (get_chunks out "nodes") = Some top /\
                 relevance_score c <= relevance_score top).
Proof.
  intros analysis queries out.
  assert (H : _multi_stage_retrieval id Samples.sample_collections Samples.sample_hash
                queries analysis 2 = Some out) by (vm_compute; reflexivity).
  split; [exact H|].
  exact (nodes_ranking id Samples.sample_collections Samples.sample_hash
           queries analysis 2 out H).
Defined.

Lemma retrieve_for_generation_total_witness :
  (forall name coll e n,
     Samples.sample_collections !! name = Some coll -> store_contract (coll e n) n) /\
  exists ctx,
    retrieve_for_generation id Samples.sample_collections Samples.sample_hash
      Samples.slack_query 2 = Some ctx /\
    ctx_query ctx = Samples.slack_query /\
    ctx_intent ctx = intent_value (intent (analyze_query Samples.slack_query)) /\
    ctx_complexity ctx = workflow_complexity (analyze_query Samples.slack_query) /\
    ctx_required_nodes ctx = required_nodes (analyze_query Samples.slack_query) /\
    List.map doc_node_type (node_documentation ctx)
      = required_nodes (analyze_query Samples.slack_query) /\
    (length (workflow_patterns ctx) <= Nat.min 2 3)%nat /\
    (length (examples ctx) <= Nat.min 2 2)%nat.
Proof.
  split; [exact sample_collections_contract|].
  exact (retrieve_for_generation_total id Samples.sample_collections Samples.sample_hash
           Samples.slack_query 2 sample_collections_contract).
Defined.

Lemma retrieve_context_shape_witness :
  let qa := analyze_query Samples.slack_query in
  let r := retrieve_context id Samples.sample_collections Samples.sample_hash qa in
  let a := analyze_query (original_query qa) in
  (forall name coll e n,
     Samples.sample_collections !! name = Some coll -> store_contract (coll e n) n) /\
  confidence r == 8 # 10 /\
  List.map doc_node_type (rag_node_documentation r) = required_nodes a /\
  retrieved_documents r
    = List.repeat "" (length (required_nodes a) + length (rag_workflow_patterns r))
      ++ List.map example_content (rag_examples r) /\
  (length (rag_workflow_patterns r) <= 3)%nat /\
  (length (rag_examples r) <= 2)%nat.
Proof.
  intros qa r a.
  split; [exact sample_collections_contract|].
  exact (retrieve_context_shape id Samples.sample_collections Samples.sample_hash
           qa sample_collections_contract).
Defined.

End PipelineWitnesses.

(** ** Service-aware retrieval, continued (4_ollama_integration.py) *)

Section OllamaMoreFacts.

Import PyStr PyList Statements MoreStatements OllamaIntegration OllamaContext.

Local Open Scope Q_scope.

Lemma filter_map_fst_nodup {A} (f : string * A -> bool) (l : list (string * A)) :
  NoDup (List.map fst l) -> NoDup (List.map fst (List.filter f l)).
Proof.
  induction l as [|x l IH]; simpl; intros H; [constructor|].
  apply NoDup_cons in H as [Hx Hl].
  destruct (f x); simpl; [|now apply IH].
  apply NoDup_cons. split; [|now apply IH].
  intros Hin. apply Hx.
  apply list_elem_of_In, List.in_map_iff in Hin as (y & Hy & Hin).
  apply List.filter_In in Hin as [Hin _].
  apply list_elem_of_In, List.in_map_iff. exists y. auto.
Qed.

(** X15. For every query, [_detect_service_mentions] lists each service at
    most once, and a service is listed exactly when one of its patterns
    occurs in the query. *)
Theorem detect_service_mentions_spec (query : string) :
  NoDup (_detect_service_mentions query) /\
  (forall service,
     In service (_detect_service_mentions query) <->
     exists patterns pattern,
       In (service, patterns) service_patterns /\ In pattern patterns /\
       contains pattern query = true).
Proof.
  unfold _detect_service_mentions. split.
  - apply filter_map_fst_nodup. compute_done.
  - intros service. rewrite List.in_map_iff. split.
    + intros ((s' & patterns) & <- & Hin). apply List.filter_In in Hin as [Hin Hex].
      apply existsb_exists in Hex as (pattern & Hp & Hc).
      exists patterns, pattern. auto.
    + intros (patterns & pattern & Hin & Hp & Hc).
      exists (service, patterns). split; [reflexivity|].
      apply List.filter_In. split; [exact Hin|].
      apply existsb_exists. exists pattern. auto.
Qed.

Lemma insert_desc_with_score {A} (key : A -> Q) (v : Q) (x : A) (l : list A) :
  List.filter (fun r => Qeq_bool (key r) v) (insert_desc key x l)
  = List.filter (fun r => Qeq_bool (key r) v) (x :: l).
Proof.
  induction l as [|y l IH]; [reflexivity|].
  cbn [insert_desc]. destruct (Qle_bool (key y) (key x)) eqn:E; [reflexivity|].
  cbn [List.filter] in *. rewrite IH.
  destruct (Qeq_bool (key y) v) eqn:Ey, (Qeq_bool (key x) v) eqn:Ex; try reflexivity.
  exfalso. apply Qeq_bool_iff in Ey, Ex.
  assert (Hle : key y <= key x) by (rewrite Ey, Ex; apply Qle_refl).
  apply Qle_bool_iff in Hle. congruence.
Qed.

(** The sort is stable: results with the same key keep their order. *)
Lemma sorted_desc_with_score {A} (key : A -> Q) (v : Q) (l : list A) :
  List.filter (fun r => Qeq_bool (key r) v) (sorted_desc key l)
  = List.filter (fun r => Qeq_bool (key r) v) l.
Proof.
  induction l as [|x l IH]; [reflexivity|].
  cbn [sorted_desc List.fold_right]. rewrite insert_desc_with_score.
  cbn [List.filter]. fold (sorted_desc key l). rewrite IH. reflexivity.
Qed.

(** X16. When [_rank_results_by_service_relevance] returns, its list is a
    stable descending sort of all the scored hits: it has one entry per
    document of the answer, it is a permutation of the hits scored in
    store order, the scores never increase along it, and hits with equal
    scores keep the order in which the store returned them. *)
Theorem rank_stable_sort (results : QueryResults) (service_mentions : list string)
    (query : string) (out : list ScoredResult) :
  _rank_results_by_service_relevance results service_mentions query = Some out ->
  length out = length (default [] (head (documents results))) /\
  Permutation (scored_in_store_order results service_mentions) out /\
  StronglySorted (desc score) out /\
  (forall v, with_score v out
             = with_score v (scored_in_store_order results service_mentions)).
Proof.
  intros H. pose proof (rank_sorted _ _ _ _ H) as Hs.
  unfold scored_in_store_order, with_score.
  apply rank_Some in H as [(-> & [Hd|Hd])|(docs0 & scored & Hd & Hm & ->)].
  - rewrite Hd. simpl. repeat split; auto.
  - rewrite Hd. simpl. repeat split; auto.
  - rewrite Hd. cbn [from_option id]. rewrite Hm. cbn [from_option id]. repeat split.
    + rewrite (Permutation_length (sorted_desc_perm score scored)).
      apply length_mapM in Hm. rewrite <- Hm. now rewrite length_seq.
    + symmetry. apply sorted_desc_perm.
    + exact Hs.
    + intros v. apply sorted_desc_with_score.
Qed.

Lemma rank_stable_sort_witness :
  let mentions := _detect_service_mentions (lower Samples.gmail_query) in
  let out := default [] (_rank_results_by_service_relevance
                           Samples.gmail_results mentions (lower Samples.gmail_query)) in
  _rank_results_by_service_relevance Samples.gmail_results mentions
    (lower Samples.gmail_query) = Some out /\
  length out = length (default [] (head (documents Samples.gmail_results))) /\
  Permutation (scored_in_store_order Samples.gmail_results mentions) out /\
  StronglySorted (desc score) out /\
  (forall v, with_score v out
             = with_score v (scored_in_store_order Samples.gmail_results mentions)).
Proof.
  intros mentions out.
  assert (H : _rank_results_by_service_relevance Samples.gmail_results mentions
                (lower Samples.gmail_query) = Some out) by (vm_compute; reflexivity).
  split; [exact H|].
  exact (rank_stable_sort Samples.gmail_results mentions (lower Samples.gmail_query) out H).
Defined.

Lemma sorted_firstn {A} (R : A -> A -> Prop) (n : nat) (l : list A) :
  StronglySorted R l -> StronglySorted R (List.firstn n l).
Proof.
  intros H. rewrite <- (List.firstn_skipn n l) in H.
  now apply StronglySorted_app_1_l in H.
Qed.

Lemma sorted_map_score (l : list ScoredResult) :
  StronglySorted (desc score) l ->
  StronglySorted (desc OllamaIntegration.relevance_score)
    (List.map (fun r => {| rd_content := document r;
                            rd_metadata := metadata r;
                            OllamaIntegration.relevance_score := score r |}) l).
Proof.
  induction 1 as [|x l Hs IH Hall]; simpl; constructor; [exact IH|].
  rewrite Forall_forall in Hall. apply Forall_forall. intros d Hd.
  apply list_elem_of_In, List.in_map_iff in Hd as (r & <- & Hr).
  apply list_elem_of_In in Hr. exact (Hall r Hr).
Qed.

(** The ranked list has one entry per document of the answer. *)
Lemma rank_length (results : QueryResults) (service_mentions : list string)
    (query : string) (out : list ScoredResult) :
  _rank_results_by_service_relevance results service_mentions query = Some out ->
  length out = length (default [] (head (documents results))).
Proof.
  intros H.
  apply rank_Some in H as [(-> & [Hd|Hd])|(docs0 & scored & Hd & Hm & ->)].
  - rewrite Hd. reflexivity.
  - rewrite Hd. reflexivity.
  - rewrite Hd. cbn [from_option id].
    rewrite (Permutation_length (sorted_desc_perm score scored)).
    apply length_mapM in Hm. rewrite <- Hm. now rewrite length_seq.
Qed.

(** X17. [get_relevant_context] never fails. Without a vector client, or
    when the ranking raises, it returns the empty context without the
    detected services. When the ranking returns, it reports the services
    detected in the lower-cased query and, as documents, the first
    [n_results] entries of the ranked list with their content, metadata
    and score: min(n_results, number of documents of the answer) of them,
    in order of descending relevance score, each being a hit of the
    answer with the score the ranking gave it. *)
Theorem get_relevant_context_spec (vector_answer : option QueryResults)
    (query : string) (n_results : nat) :
  let ctx := get_relevant_context vector_answer query n_results in
  let mentions := _detect_service_mentions (lower query) in
  (vector_answer = None -> ctx = empty_context) /\
  (forall results,
     vector_answer = Some results ->
     _rank_results_by_service_relevance results mentions (lower query) = None ->
     ctx = empty_context) /\
  (forall results ranked,
     vector_answer = Some results ->
     _rank_results_by_service_relevance results mentions (lower query) = Some ranked ->
     detected_services ctx = Some mentions /\
     List.map (fun d => (rd_content d, rd_metadata d, OllamaIntegration.relevance_score d))
       (context_documents ctx)
     = List.map (fun r => (document r, metadata r, score r)) (List.firstn n_results ranked) /\
     length (context_documents ctx)
     = Nat.min n_results (length (default [] (head (documents results))))) /\
  (detected_services ctx = None -> ctx = empty_context) /\
  (forall reported, detected_services ctx = Some reported -> reported = mentions) /\
  (length (context_documents ctx) <= n_results)%nat /\
  StronglySorted (desc OllamaIntegration.relevance_score) (context_documents ctx) /\
  (forall d, In d (context_documents ctx) ->
     exists results i dist r,
       vector_answer = Some results /\
       hit results i = Some (rd_content d, rd_metadata d, dist) /\
       score_hit mentions (rd_content d) (rd_metadata d) dist = Some r /\
       OllamaIntegration.relevance_score d = score r).
Proof.
  intros ctx mentions. subst ctx. unfold get_relevant_context. fold mentions.
  destruct vector_answer as [results|].
  2:{ split; [reflexivity|]. split; [discriminate|]. split; [discriminate|].
      split; [reflexivity|]. split; [discriminate|]. split; [simpl; lia|].
      split; [constructor|]. intros d []. }
  destruct (_rank_results_by_service_relevance results mentions (lower query))
    as [ranked|] eqn:Er.
  2:{ split; [discriminate|]. split; [reflexivity|].
      split; [intros r' k [= <-]; rewrite Er; discriminate|].
      split; [reflexivity|]. split; [discriminate|]. split; [simpl; lia|].
      split; [constructor|]. intros d []. }
  cbn [detected_services context_documents].
  split; [discriminate|].
  split; [intros r' [= <-]; rewrite Er; discriminate|].
  split.
  { intros r' k [= <-]. rewrite Er. intros [= <-].
    split; [reflexivity|]. split.
    - rewrite List.map_map. reflexivity.
    - rewrite List.length_map, List.length_firstn, (rank_length _ _ _ _ Er). reflexivity. }
  split; [discriminate|].
  split; [intros m [= <-]; reflexivity|].
  split; [rewrite List.length_map; apply firstn_length_le|].
  split.
  - apply sorted_map_score, sorted_firstn. eapply rank_sorted, Er.
  - intros d Hd. apply List.in_map_iff in Hd as (r & <- & Hr).
    apply firstn_In in Hr. apply list_elem_of_In in Hr.
    destruct (rank_entries _ _ _ _ _ Er Hr) as (i & doc & meta & dist & Hh & Hsc).
    pose proof Hsc as Hsc'. unfold score_hit in Hsc'.
    destruct (base_score dist); simpl in Hsc'; [|discriminate].
    injection Hsc' as <-. simpl.
    eexists results, i, dist, _. repeat split; [exact Hh | exact Hsc | reflexivity].
Qed.

Lemma node_types_step_keyed (service_mentions : list string)
    (acc : gmap string string) (r : ScoredResult) :
  node_types_step service_mentions acc r =
    match keyed service_mentions r with
    | Some (k, v) =>
        if mem k service_mentions then <[k := v]> acc
        else match acc !! k with Some _ => acc | None => <[k := v]> acc end
    | None => acc
    end.
Proof.
  unfold node_types_step, keyed.
  destruct (metadata r) as [m|]; [|reflexivity].
  destruct (bool_decide (m = ∅)) eqn:Em.
  - apply bool_decide_eq_true in Em. subst m. rewrite lookup_empty. reflexivity.
  - destruct (m !! "node_type") as [nt|]; simpl; [|reflexivity].
    destruct (String.eqb nt ""); [reflexivity|].
    destruct (String.eqb (_extract_service_key nt service_mentions) ""); reflexivity.
Qed.

Lemma first_keyed_app (service_mentions : list string) (key : string)
    (l1 l2 : list ScoredResult) :
  first_keyed service_mentions key (l1 ++ l2) =
    match first_keyed service_mentions key l1 with
    | Some v => Some v
    | None => first_keyed service_mentions key l2
    end.
Proof.
  induction l1 as [|r l1 IH]; simpl; [reflexivity|].
  destruct (keyed service_mentions r) as [[k v]|]; [|exact IH].
  destruct (String.eqb k key); [reflexivity | exact IH].
Qed.

Lemma node_types_fold (service_mentions : list string) (key : string)
    (l : list ScoredResult) (acc : gmap string string) :
  List.fold_left (node_types_step service_mentions) l acc !! key =
    if mem key service_mentions then
      match last_keyed service_mentions key l with
      | Some v => Some v
      | None => acc !! key
      end
    else
      match acc !! key with
      | Some v => Some v
      | None => first_keyed service_mentions key l
      end.
Proof.
  revert acc. induction l as [|r l IH]; intros acc.
  - simpl. destruct (mem key service_mentions); [reflexivity|].
    destruct (acc !! key); reflexivity.
  - cbn [List.fold_left]. rewrite IH. unfold last_keyed. cbn [List.rev].
    rewrite first_keyed_app. cbn [first_keyed].
    rewrite node_types_step_keyed.
    destruct (keyed service_mentions r) as [[k v]|].
    2:{ destruct (mem key service_mentions);
          [destruct (first_keyed service_mentions key (List.rev l)) | ]; reflexivity. }
    destruct (String.eqb_spec k key) as [->|Hne].
    + destruct (mem key service_mentions) eqn:Em.
      * rewrite lookup_insert_eq.
        destruct (first_keyed service_mentions key (List.rev l)); reflexivity.
      * destruct (acc !! key) eqn:Ea; [rewrite Ea; reflexivity|].
        rewrite lookup_insert_eq. reflexivity.
    + assert (Hl : forall m : gmap string string, <[k := v]> m !! key = m !! key)
        by (intros m; now apply lookup_insert_ne).
      assert (Hstep :
        (if mem k service_mentions then <[k := v]> acc
         else match acc !! k with Some _ => acc | None => <[k := v]> acc end) !! key
        = acc !! key).
      { destruct (mem k service_mentions); [apply Hl|].
        destruct (acc !! k); [reflexivity | apply Hl]. }
      rewrite Hstep.
      destruct (mem key service_mentions);
        [destruct (first_keyed service_mentions key (List.rev l)) | ]; reflexivity.
Qed.

(** X18. The [node_types] map of [get_relevant_context] keeps, for a
    service key that was detected in the query, the block identifier of
    the last of the returned documents that gives this key, and for any
    other key that of the first. *)
Theorem node_types_priority (results : QueryResults) (query : string) (n_results : nat)
    (ranked : list ScoredResult) (key : string) :
  let mentions := _detect_service_mentions (lower query) in
  _rank_results_by_service_relevance results mentions (lower query) = Some ranked ->
  node_types (get_relevant_context (Some results) query n_results) !! key =
    if mem key mentions
    then last_keyed mentions key (List.firstn n_results ranked)
    else first_keyed mentions key (List.firstn n_results ranked).
Proof.
  intros mentions Hr. unfold get_relevant_context. fold mentions. rewrite Hr.
  cbn [node_types]. rewrite node_types_fold, lookup_empty.
  destruct (mem key mentions); [|reflexivity].
  destruct (last_keyed mentions key (List.firstn n_results ranked)); reflexivity.
Qed.

Lemma node_types_priority_witness :
  let mentions := _detect_service_mentions (lower Samples.gmail_query) in
  let ranked := default [] (_rank_results_by_service_relevance
                              Samples.gmail_results mentions (lower Samples.gmail_query)) in
  _rank_results_by_service_relevance Samples.gmail_results mentions
    (lower Samples.gmail_query) = Some ranked /\
  node_types (get_relevant_context (Some Samples.gmail_results) Samples.gmail_query 10)
    !! "gmail" =
    if mem "gmail" mentions
    then last_keyed mentions "gmail" (List.firstn 10 ranked)
    else first_keyed mentions "gmail" (List.firstn 10 ranked).
Proof.
  intros mentions ranked.
  assert (H : _rank_results_by_service_relevance Samples.gmail_results mentions
                (lower Samples.gmail_query) = Some ranked) by (vm_compute; reflexivity).
  split; [exact H|].
  exact (node_types_priority Samples.gmail_results Samples.gmail_query 10 ranked "gmail" H).
Defined.

End OllamaMoreFacts.

(** ** Feedback store, continued (5_feedback_loop_system.py) *)

Section FeedbackMoreFacts.

Import PyStr PyList Statements MoreStatements ContextAssembler FeedbackLoop.

(** X19. On a store that started empty and is used through
    [record_generation] and the two weight getters only, whenever the
    connections of raising calls are destroyed, nothing is ever learned:
    both effectiveness tables stay empty, both weight getters return the
    empty dict, and every history row comes from a call that had nothing
    to update (it counts no pattern, and lists no block unless it is a
    success without a workflow). *)
Theorem weights_stay_empty (s : State) :
  reachable s ->
  node_effectiveness (db s) = ∅ /\ pattern_success (db s) = ∅ /\
  (get_node_weights s).1 = ∅ /\ (get_pattern_weights s).1 = ∅ /\
  Forall quiet_row (generation_history (db s)).
Proof.
  intros H. destruct (reachable_tables_empty s H) as (Hn & Hp & _ & _ & Hq).
  destruct (reachable_weights_empty s H) as (Hwn & Hwp).
  repeat split; assumption.
Qed.

Lemma weights_stay_empty_witness :
  let x := "n8n-nodes-base.slack" in
  let s := (record_generation (collect (Samples.record_success x init)) "q"
              (Samples.block_context x) None true None None).2 in
  reachable s /\
  node_effectiveness (db s) = ∅ /\ pattern_success (db s) = ∅ /\
  (get_node_weights s).1 = ∅ /\ (get_pattern_weights s).1 = ∅ /\
  Forall quiet_row (generation_history (db s)).
Proof.
  intros x s.
  assert (H : reachable s).
  { unfold s, Samples.record_success.
    apply reachable_record, reachable_collect, reachable_record, reachable_init. }
  split; [exact H|].
  exact (weights_stay_empty s H).
Defined.

(** X20. [_update_node_effectiveness], called while another connection
    holds the write lock, raises as soon as its context lists a block.
    Called while the lock is free, it gives every listed block a record
    whose use counter grew by the number of times the block is listed,
    whose success counter grew as much for a success and not at all for a
    failure, and whose score is successful uses over total uses; the
    records of the other blocks, the history and the pattern table stay
    as they were. *)
Theorem update_node_effectiveness_alone (d : Database) (context : GenContext)
    (success : bool) :
  let nodes := default [] (gc_required_nodes context) in
  let table := node_effectiveness d in
  (write_lock d = true -> nodes <> [] ->
   _update_node_effectiveness d context success = None) /\
  (write_lock d = false ->
   exists d',
     _update_node_effectiveness d context success = Some d' /\
     generation_history d' = generation_history d /\
     pattern_success d' = pattern_success d /\
     write_lock d' = false /\
     (forall x, x ∈ nodes ->
        exists row,
          node_effectiveness d' !! x = Some row /\
          total_uses row = ((uses table x).1 + occurrences x nodes)%Z /\
          successful_uses row
            = ((uses table x).2 + (if success then occurrences x nodes else 0))%Z /\
          avg_relevance_score row = ratio (successful_uses row) (total_uses row)) /\
     (forall y, y ∉ nodes -> node_effectiveness d' !! y = table !! y)).
Proof.
  intros nodes table. split.
  - intros Hl Hne. rewrite (update_node_effectiveness_locked _ _ _ Hl).
    apply nonempty_true in Hne. fold nodes. now rewrite Hne.
  - intros Hl. unfold _update_node_effectiveness. fold nodes.
    destruct nodes as [|n rest] eqn:En.
    + exists d. repeat split; try reflexivity; try exact Hl.
      intros x Hx. apply not_elem_of_nil in Hx. contradiction.
    + rewrite Hl. eexists. split; [reflexivity|]. cbn [generation_history pattern_success
        write_lock node_effectiveness].
      split; [reflexivity|]. split; [reflexivity|]. split; [reflexivity|]. split.
      * intros x Hx.
        destruct (update_nodes_consistent success (n :: rest) table x (or_introl Hx))
          as (row & Hrow & Hk).
        pose proof (update_nodes_uses success (n :: rest) table x) as Hu.
        unfold uses at 1 in Hu. fold table in Hrow. rewrite Hrow in Hu.
        injection Hu as Ht Hs. exists row. auto.
      * intros y Hy. now apply update_nodes_unlisted.
Qed.

(** X21. A call of [record_generation] returns exactly when no earlier
    connection holds the write lock and the call has nothing to update;
    it then appends its row to the history, leaves both effectiveness
    tables as they were and clears the caches. In every other case it
    raises, and the history, the tables and the caches are as before the
    call, with the write lock held by the connection it leaves open. *)
Theorem record_generation_outcome (self : State) (query : string) (context : GenContext)
    (workflow : Workflow) (success : bool) (validation_errors : option (list string))
    (user_feedback : option Z) :
  let result :=
    record_generation self query context workflow success validation_errors user_feedback in
  (result.1 = Returns <->
   write_lock (db self) = false /\ writes_attempted context workflow success = false) /\
  (result.1 = Returns ->
   generation_history (db result.2)
     = generation_history (db self)
       ++ [history_row query context workflow success validation_errors user_feedback] /\
   node_effectiveness (db result.2) = node_effectiveness (db self) /\
   pattern_success (db result.2) = pattern_success (db self) /\
   node_success_rates result.2 = ∅ /\ pattern_effectiveness result.2 = ∅ /\
   write_lock (db result.2) = false) /\
  (result.1 = Raises ->
   generation_history (db result.2) = generation_history (db self) /\
   node_effectiveness (db result.2) = node_effectiveness (db self) /\
   pattern_success (db result.2) = pattern_success (db self) /\
   node_success_rates result.2 = node_success_rates self /\
   pattern_effectiveness result.2 = pattern_effectiveness self /\
   write_lock (db result.2) = true).
Proof.
  intros result. split; [|split].
  - unfold result. rewrite record_generation_cases.
    destruct (write_lock (db self)), (writes_attempted context workflow success);
      cbn [orb fst]; split; try discriminate; try (intros [? ?]; discriminate); auto.
  - unfold result. rewrite record_generation_cases.
    destruct (write_lock (db self) || writes_attempted context workflow success);
      cbn [fst snd]; [discriminate|]. intros _. repeat split; reflexivity.
  - apply record_generation_raises.
Qed.

(** X22. [_update_pattern_effectiveness], called while another connection
    holds the write lock, raises as soon as its context lists a pattern.
    Called while the lock is free, it gives every listed pattern a record
    whose use counter grew by the number of listed patterns with that
    identifier, whose success counter grew as much for a success and not
    at all for a failure, and whose score is successful uses over total
    uses; the records of the other patterns, the history and the block
    table stay as they were. *)
Theorem update_pattern_effectiveness_alone (d : Database) (context : GenContext)
    (success : bool) :
  let patterns := default [] (gc_workflow_patterns context) in
  let table := pattern_success d in
  (write_lock d = true -> patterns <> [] ->
   _update_pattern_effectiveness d context success = None) /\
  (write_lock d = false ->
   exists d',
     _update_pattern_effectiveness d context success = Some d' /\
     generation_history d' = generation_history d /\
     node_effectiveness d' = node_effectiveness d /\
     write_lock d' = false /\
     (forall p, In p patterns ->
        exists row,
          pattern_success d' !! pattern p = Some row /\
          p_total_uses row
            = ((pattern_uses table (pattern p)).1
               + pattern_occurrences (pattern p) patterns)%Z /\
          p_successful_uses row
            = ((pattern_uses table (pattern p)).2
               + (if success then pattern_occurrences (pattern p) patterns else 0))%Z /\
          effectiveness_score row = ratio (p_successful_uses row) (p_total_uses row)) /\
     (forall y, (forall p, In p patterns -> pattern p <> y) ->
                pattern_success d' !! y = table !! y)).
Proof.
  intros patterns table. split.
  - intros Hl Hne. rewrite (update_pattern_effectiveness_locked _ _ _ Hl).
    apply nonempty_true in Hne. fold patterns. now rewrite Hne.
  - intros Hl. unfold _update_pattern_effectiveness. fold patterns.
    destruct patterns as [|q rest] eqn:En.
    + exists d. repeat split; try reflexivity; try exact Hl.
      intros p [].
    + rewrite Hl. eexists. split; [reflexivity|]. cbn [generation_history pattern_success
        write_lock node_effectiveness].
      split; [reflexivity|]. split; [reflexivity|]. split; [reflexivity|]. split.
      * intros p Hp.
        destruct (update_patterns_consistent success (q :: rest) table (pattern p))
          as (row & Hrow & Hk); [left; eauto|].
        pose proof (update_patterns_uses success (q :: rest) table (pattern p)) as Hu.
        unfold pattern_uses at 1 in Hu. fold table in Hrow. rewrite Hrow in Hu.
        injection Hu as Ht Hs. exists row. auto.
      * intros y Hy. now apply update_patterns_unlisted.
Qed.

End FeedbackMoreFacts.

(** ** Chunk objects, JSON splitting and size validation (chunking_utils.py) *)

Section ChunkObjectFacts.

Import ChunkingUtils ChunkObjects.

Variable text_splitter : IntelligentChunker -> string -> list string.
Variable dumps : Json -> string.

Lemma append_inj_r (p a b : string) : (p ++ a = p ++ b)%string -> a = b.
Proof.
  induction p as [|c p IH]; simpl; intros H; [exact H|].
  injection H as H. now apply IH.
Qed.

Lemma str_inj (i j : nat) : str i = str j -> i = j.
Proof.
  unfold str. intros H. apply Unsigned.to_uint_inj.
  assert (E : Some (Nat.to_uint i) = Some (Nat.to_uint j))
    by (rewrite <- !NilEmpty.usu; now rewrite H).
  now injection E.
Qed.

Lemma map_content_imap (g : nat -> string -> ChunkObject) (l : list string) :
  (forall i c, content (g i c) = c) -> List.map content (imap g l) = l.
Proof.
  revert g. induction l as [|c l IH]; intros g Hg; simpl; [reflexivity|].
  rewrite Hg. f_equal. apply IH. intros i c'. apply Hg.
Qed.

Lemma create_overlapping_chunks_contents (self : IntelligentChunker) (content_ chunk_type_
    base_id : string) (metadata_ : gmap string Json) :
  List.map content
    (create_overlapping_chunks text_splitter self content_ chunk_type_ base_id metadata_)
    = split_text text_splitter self content_.
Proof.
  unfold create_overlapping_chunks. now apply map_content_imap.
Qed.

(** X23. [create_overlapping_chunks] makes one dict per chunk of
    [split_text], in order and with that chunk as content and embedding
    text.  In the metadata of the dict at position [i], "chunk_index" is
    [i], "total_chunks" is the number of dicts returned, "chunk_size" is
    the length of the content and "is_partial" tells whether more than one
    dict is returned; these four replace a caller's value of the same key,
    and every other key of the caller's metadata is passed on unchanged. *)
Theorem overlapping_chunks_objects (self : IntelligentChunker) (content_ chunk_type_
    base_id : string) (metadata_ : gmap string Json) :
  let objects :=
    create_overlapping_chunks text_splitter self content_ chunk_type_ base_id metadata_ in
  List.map content objects = split_text text_splitter self content_ /\
  forall i o, objects !! i = Some o ->
    embedding_text o = content o /\
    chunk_type o = chunk_type_ /\
    metadata o !! "chunk_index" = Some (JInt (Z.of_nat i)) /\
    metadata o !! "total_chunks" = Some (JInt (Z.of_nat (length objects))) /\
    metadata o !! "chunk_size" = Some (JInt (len (content o))) /\
    metadata o !! "is_partial" = Some (JBool (1 <? length objects)%nat) /\
    forall key,
      ~ In key ["chunk_index"; "total_chunks"; "chunk_size"; "is_partial"] ->
      metadata o !! key = metadata_ !! key.
Proof.
  intros objects. split; [apply create_overlapping_chunks_contents|].
  intros i o Ho.
  assert (Hlen : length objects = length (split_text text_splitter self content_))
    by apply length_imap.
  unfold objects, create_overlapping_chunks in Ho.
  apply list_lookup_imap_Some in Ho. destruct Ho as (c & _ & ->).
  fold objects. rewrite Hlen. cbn [embedding_text content chunk_type metadata].
  unfold chunk_metadata.
  split; [reflexivity|]. split; [reflexivity|].
  split; [now rewrite !lookup_insert_ne, lookup_insert_eq by discriminate|].
  split; [now rewrite !lookup_insert_ne, lookup_insert_eq by discriminate|].
  split; [now rewrite !lookup_insert_ne, lookup_insert_eq by discriminate|].
  split; [now rewrite lookup_insert_eq|].
  intros key Hkey. simpl in Hkey.
  rewrite !lookup_insert_ne; [reflexivity | | | |]; intros <-; tauto.
Qed.

(** X24. The chunk identifiers [create_overlapping_chunks] builds for one
    content are pairwise different: each is the base identifier followed
    by "_chunk_" and the decimal position of the chunk. *)
Theorem chunk_ids_distinct (self : IntelligentChunker) (content_ chunk_type_
    base_id : string) (metadata_ : gmap string Json) :
  let objects :=
    create_overlapping_chunks text_splitter self content_ chunk_type_ base_id metadata_ in
  NoDup (List.map chunk_id objects) /\
  forall i o, objects !! i = Some o -> chunk_id o = (base_id ++ "_chunk_" ++ str i)%string.
Proof.
  intros objects.
  assert (Hid : forall i o, objects !! i = Some o ->
                            chunk_id o = (base_id ++ "_chunk_" ++ str i)%string).
  { intros i o Ho. unfold objects, create_overlapping_chunks in Ho.
    apply list_lookup_imap_Some in Ho. now destruct Ho as (c & _ & ->). }
  split; [|exact Hid].
  change (NoDup (chunk_id <$> objects)). apply NoDup_alt. intros i j x Hi Hj.
  apply list_lookup_fmap_Some in Hi, Hj.
  destruct Hi as (oi & -> & Hoi), Hj as (oj & Ej & Hoj).
  rewrite (Hid _ _ Hoi), (Hid _ _ Hoj) in Ej.
  apply append_inj_r in Ej. apply (append_inj_r "_chunk_") in Ej. now apply str_inj.
Qed.

(** *** Size validation *)

Lemma is_oversized_spec (self : IntelligentChunker) (s : Z) :
  is_oversized self s = true <-> (6 * chunk_size self < 5 * s)%Z.
Proof.
  unfold is_oversized, PyList.Qlt_bool. rewrite negb_true_iff, <- not_true_iff_false.
  rewrite Qle_bool_iff. unfold Qle, Qmult, inject_Z. simpl. lia.
Qed.

Lemma filter_length_zero {A} (p : A -> bool) (l : list A) :
  length (List.filter p l) = 0%nat <-> forall x, In x l -> p x = false.
Proof.
  induction l as [|a l IH]; simpl; [tauto|].
  destruct (p a) eqn:E; simpl.
  - split; [discriminate|]. intros H. specialize (H a (or_introl eq_refl)). congruence.
  - rewrite IH. split.
    + intros H x [<-|Hx]; auto.
    + intros H x Hx. auto.
Qed.

Lemma filter_length_bound {A} (p : A -> bool) (l : list A) :
  (length (List.filter p l) <= length l)%nat.
Proof.
  induction l as [|a l IH]; simpl; [lia|]. destruct (p a); simpl; lia.
Qed.

Lemma validate_status (self : IntelligentChunker) (first : ChunkObject)
    (others : list ChunkObject) :
  status (validate_chunk_sizes self (first :: others))
    = if forallb (fun c => negb (is_oversized self (len (content c)))) (first :: others)
      then "valid" else "has_oversized".
Proof.
  unfold validate_chunk_sizes. cbn [status].
  set (l := first :: others). clearbody l.
  destruct (forallb _ l) eqn:E.
  - assert (H : length (List.filter (is_oversized self)
                          (List.map (fun chunk => len (content chunk)) l)) = 0%nat).
    { apply filter_length_zero. intros x Hx. apply in_map_iff in Hx.
      destruct Hx as (c & <- & Hc).
      rewrite forallb_forall in E. specialize (E c Hc). now apply negb_true_iff in E. }
    now rewrite H.
  - destruct (Z.eqb_spec (Z.of_nat (length (List.filter (is_oversized self)
                 (List.map (fun chunk => len (content chunk)) l)))) 0) as [H|H];
      [|reflexivity].
    assert (H' : length (List.filter (is_oversized self)
                   (List.map (fun chunk => len (content chunk)) l)) = 0%nat) by lia.
    rewrite filter_length_zero in H'.
    assert (forallb (fun c => negb (is_oversized self (len (content c)))) l = true);
      [|congruence].
    apply forallb_forall. intros c Hc. apply negb_true_iff, H', in_map_iff. eauto.
Qed.

(** X25. The status [validate_chunk_sizes] reports is "empty" exactly for
    the empty list, "valid" exactly for a non-empty list in which no
    content is longer than 1.2 times the chunk size, and "has_oversized"
    exactly when some content is longer; the statistics are left out
    exactly for the empty list. *)
Theorem validate_chunk_sizes_status (self : IntelligentChunker)
    (chunk_list : list ChunkObject) :
  let v := validate_chunk_sizes self chunk_list in
  (status v = "empty" <-> chunk_list = []) /\
  (status v = "valid" <->
     chunk_list <> [] /\
     forall c, In c chunk_list -> (5 * len (content c) <= 6 * chunk_size self)%Z) /\
  (status v = "has_oversized" <->
     exists c, In c chunk_list /\ (6 * chunk_size self < 5 * len (content c))%Z) /\
  (stats v = None <-> chunk_list = []) /\
  (chunks v = Some 0%Z <-> chunk_list = []).
Proof.
  intros v. destruct chunk_list as [|first others].
  - cbn. split; [tauto|]. split; [split; [discriminate | intros [H _]; congruence]|].
    split; [split; [discriminate | intros (c & [] & _)]|]. tauto.
  - unfold v. rewrite validate_status.
    set (l := first :: others).
    assert (Hl : l <> []) by discriminate.
    destruct (forallb _ l) eqn:E.
    + rewrite forallb_forall in E.
      assert (Hall : forall c, In c l -> (5 * len (content c) <= 6 * chunk_size self)%Z).
      { intros c Hc. specialize (E c Hc). apply negb_true_iff in E.
        destruct (Z_lt_le_dec (6 * chunk_size self) (5 * len (content c))) as [Hlt|Hle];
          [|lia].
        apply is_oversized_spec in Hlt. congruence. }
      split; [split; [discriminate | congruence]|].
      split; [tauto|].
      split; [split; [discriminate|]|].
      { intros (c & Hc & Hlt). specialize (Hall c Hc). lia. }
      cbn. split; split; (discriminate || congruence).
    + split; [split; [discriminate | congruence]|].
      assert (Hex : exists c, In c l /\ (6 * chunk_size self < 5 * len (content c))%Z).
      { apply not_true_iff_false in E.
        destruct (List.existsb (fun c => is_oversized self (len (content c))) l) eqn:Ex.
        - apply existsb_exists in Ex. destruct Ex as (c & Hc & Hov).
          exists c. split; [exact Hc|]. now apply is_oversized_spec.
        - exfalso. apply E, forallb_forall. intros c Hc. apply negb_true_iff.
          apply not_true_iff_false. intros Hov.
          assert (List.existsb (fun c => is_oversized self (len (content c))) l = true)
            by (apply existsb_exists; eauto).
          congruence. }
      split; [split; [discriminate|]|].
      { intros (_ & Hall). destruct Hex as (c & Hc & Hlt). specialize (Hall c Hc). lia. }
      split; [tauto|].
      cbn. split; split; (discriminate || congruence).
Qed.

Lemma fold_min_spec (others : list Z) (first : Z) :
  In (List.fold_left Z.min others first) (first :: others) /\
  forall y, In y (first :: others) -> (List.fold_left Z.min others first <= y)%Z.
Proof.
  revert first. induction others as [|x others IH]; intros first; simpl.
  - split; [now left|]. intros y [<-|[]]. lia.
  - destruct (IH (Z.min first x)) as (Hin & Hle). split.
    + destruct Hin as [Hin|Hin]; [|now right; right].
      rewrite <- Hin. destruct (Z.min_spec first x) as [[_ ->]|[_ ->]]; auto.
    + intros y Hy.
      assert (H0 : (List.fold_left Z.min others (Z.min first x) <= Z.min first x)%Z)
        by (apply Hle; now left).
      destruct Hy as [<-|[<-|Hy]]; [lia | lia |]. apply Hle. now right.
Qed.

Lemma fold_max_spec (others : list Z) (first : Z) :
  In (List.fold_left Z.max others first) (first :: others) /\
  forall y, In y (first :: others) -> (y <= List.fold_left Z.max others first)%Z.
Proof.
  revert first. induction others as [|x others IH]; intros first; simpl.
  - split; [now left|]. intros y [<-|[]]. lia.
  - destruct (IH (Z.max first x)) as (Hin & Hle). split.
    + destruct Hin as [Hin|Hin]; [|now right; right].
      rewrite <- Hin. destruct (Z.max_spec first x) as [[_ ->]|[_ ->]]; auto.
    + intros y Hy.
      assert (H0 : (Z.max first x <= List.fold_left Z.max others (Z.max first x))%Z)
        by (apply Hle; now left).
      destruct Hy as [<-|[<-|Hy]]; [lia | lia |]. apply Hle. now right.
Qed.

Lemma sum_bounds (a b : Z) (sizes : list Z) :
  (forall y, In y sizes -> (a <= y <= b)%Z) ->
  (a * Z.of_nat (length sizes) <= py_sum sizes <= b * Z.of_nat (length sizes))%Z.
Proof.
  induction sizes as [|x sizes IH]; intros H; simpl py_sum; simpl length; [lia|].
  assert (Hx := H x (or_introl eq_refl)).
  assert (IH' := IH (fun y Hy => H y (or_intror Hy))).
  lia.
Qed.

Lemma share_bounds (part total : Z) :
  (0 <= part <= total)%Z -> (0 < total)%Z ->
  (0 <= inject_Z part / inject_Z total * 100)%Q /\
  (inject_Z part / inject_Z total * 100 <= 100)%Q /\
  (inject_Z part / inject_Z total * 100 == 100 <-> part = total)%Q.
Proof.
  intros Hp Ht.
  assert (Ht' : (0 < inject_Z total)%Q) by (now rewrite <- (Zlt_Qlt 0)).
  assert (H0 : (0 <= inject_Z part / inject_Z total)%Q).
  { apply Qle_shift_div_l; [exact Ht'|]. rewrite Qmult_0_l, <- (Zle_Qle 0). lia. }
  assert (H1 : (inject_Z part / inject_Z total <= 1)%Q).
  { apply Qle_shift_div_r; [exact Ht'|]. rewrite Qmult_1_l, <- Zle_Qle. lia. }
  split; [lra|]. split; [lra|]. split.
  - intros E. destruct (Z.eq_dec part total) as [|Hne]; [assumption|].
    assert (H2 : (inject_Z part / inject_Z total < 1)%Q).
    { apply Qlt_shift_div_r; [exact Ht'|]. rewrite Qmult_1_l, <- Zlt_Qlt. lia. }
    lra.
  - intros ->.
    assert (H2 : (1 <= inject_Z total / inject_Z total)%Q).
    { apply Qle_shift_div_l; [exact Ht'|]. rewrite Qmult_1_l. apply Qle_refl. }
    lra.
Qed.

(** X26. For a non-empty list, the statistics of [validate_chunk_sizes]
    are consistent: the total is the number of chunks, the oversized
    count is the length of the oversized list and at most the total, the
    smallest and largest size are sizes of listed chunks that bound every
    size and the average, the compliance lies between 0 and 100, and it
    is 100 exactly when the status is "valid". *)
Theorem validate_chunk_sizes_stats (self : IntelligentChunker)
    (chunk_list : list ChunkObject) :
  chunk_list <> [] ->
  let v := validate_chunk_sizes self chunk_list in
  exists st oversized,
    stats v = Some st /\ oversized_chunks v = Some oversized /\
    total_chunks st = Z.of_nat (length chunk_list) /\
    oversized_count st = Z.of_nat (length oversized) /\
    (0 <= oversized_count st <= total_chunks st)%Z /\
    (exists c, In c chunk_list /\ min_size st = len (content c)) /\
    (exists c, In c chunk_list /\ max_size st = len (content c)) /\
    (forall c, In c chunk_list -> (min_size st <= len (content c) <= max_size st)%Z) /\
    (inject_Z (min_size st) <= avg_size st)%Q /\
    (avg_size st <= inject_Z (max_size st))%Q /\
    (0 <= size_compliance st)%Q /\ (size_compliance st <= 100)%Q /\
    (size_compliance st == 100 <-> status v = "valid")%Q.
Proof.
  intros Hne v. destruct chunk_list as [|first others]; [congruence|].
  unfold v. rewrite validate_status.
  unfold validate_chunk_sizes. cbn [stats oversized_chunks].
  set (l := first :: others).
  set (sizes := List.map (fun chunk => len (content chunk)) l).
  set (oversized := List.filter (is_oversized self) sizes).
  eexists. exists oversized.
  split; [reflexivity|]. split; [reflexivity|].
  cbn [total_chunks oversized_count min_size max_size avg_size size_compliance].
  assert (Hlen : length sizes = length l) by apply length_map.
  assert (Hov : (length oversized <= length l)%nat)
    by (rewrite <- Hlen; apply filter_length_bound).
  assert (Hpos : (0 < Z.of_nat (length l))%Z) by (unfold l; simpl length; lia).
  destruct (fold_min_spec (List.map (fun chunk => len (content chunk)) others)
              (len (content first))) as (Hmin_in & Hmin_le).
  destruct (fold_max_spec (List.map (fun chunk => len (content chunk)) others)
              (len (content first))) as (Hmax_in & Hmax_le).
  change (In (py_min sizes) sizes) in Hmin_in.
  change (In (py_max sizes) sizes) in Hmax_in.
  change (forall y, In y sizes -> (py_min sizes <= y)%Z) in Hmin_le.
  change (forall y, In y sizes -> (y <= py_max sizes)%Z) in Hmax_le.
  split; [reflexivity|]. split; [reflexivity|]. split; [lia|].
  split. { apply in_map_iff in Hmin_in. destruct Hmin_in as (c & Hc & Hin). eauto. }
  split. { apply in_map_iff in Hmax_in. destruct Hmax_in as (c & Hc & Hin). eauto. }
  split.
  { intros c Hc.
    assert (Hs : In (len (content c)) sizes) by (apply in_map_iff; eauto).
    split; [now apply Hmin_le | now apply Hmax_le]. }
  assert (Hsum := sum_bounds (py_min sizes) (py_max sizes) sizes
                    (fun y Hy => conj (Hmin_le y Hy) (Hmax_le y Hy))).
  assert (Hn : (0 < inject_Z (Z.of_nat (length sizes)))%Q)
    by (rewrite <- (Zlt_Qlt 0), Hlen; exact Hpos).
  split.
  { apply Qle_shift_div_l; [exact Hn|]. rewrite <- inject_Z_mult, <- Zle_Qle. lia. }
  split.
  { apply Qle_shift_div_r; [exact Hn|]. rewrite <- inject_Z_mult, <- Zle_Qle. lia. }
  destruct (share_bounds (Z.of_nat (length l) - Z.of_nat (length oversized))
              (Z.of_nat (length l))) as (H0 & H1 & H2); [lia | exact Hpos |].
  split; [exact H0|]. split; [exact H1|].
  rewrite H2. split.
  - intros E. assert (E0 : length oversized = 0%nat) by lia.
    unfold oversized in E0. rewrite filter_length_zero in E0.
    assert (Hf : forallb (fun c => negb (is_oversized self (len (content c)))) l = true).
    { apply forallb_forall. intros c Hc. apply negb_true_iff, E0, in_map_iff. eauto. }
    now rewrite Hf.
  - intros E. destruct (forallb _ l) eqn:Hf; [|discriminate].
    assert (E0 : length oversized = 0%nat); [|lia].
    apply filter_length_zero. intros x Hx. apply in_map_iff in Hx.
    destruct Hx as (c & <- & Hc). rewrite forallb_forall in Hf.
    specialize (Hf c Hc). now apply negb_true_iff in Hf.
Qed.

(** *** Chunk sizes under the contract of the library splitter *)

Lemma split_text_bounded (self : IntelligentChunker) (text : string) :
  (forall c, In c (text_splitter self text) -> (len c <= chunk_size self)%Z) ->
  forall c, In c (split_text text_splitter self text) -> (len c <= chunk_size self)%Z.
Proof.
  intros H c. unfold split_text.
  destruct (String.eqb_spec text "") as [->|Hne]; cbn [orb]; [intros []|].
  destruct (Z.leb_spec (Z.of_nat (String.length text)) (chunk_size self)) as [Hle|Hgt].
  - intros [<-|[]]. exact Hle.
  - apply H.
Qed.

(** X27. [split_json_content] returns the serialised value alone when it
    fits the maximum size; and when the library splitter never returns a
    chunk longer than the chunk size, no chunk it returns is longer than
    the larger of the maximum size and the chunk size. *)
Theorem split_json_content_bounded (self : IntelligentChunker) (json_obj : Json)
    (max_chunk_size : Z) :
  (forall text c, In c (text_splitter self text) -> (len c <= chunk_size self)%Z) ->
  ((len (dumps json_obj) <= max_chunk_size)%Z ->
   split_json_content text_splitter dumps self json_obj max_chunk_size = [dumps json_obj]) /\
  forall c, In c (split_json_content text_splitter dumps self json_obj max_chunk_size) ->
    (len c <= Z.max max_chunk_size (chunk_size self))%Z.
Proof.
  intros Hsplit. unfold split_json_content. split.
  - intros Hle. apply Z.leb_le in Hle. now rewrite Hle.
  - assert (Htext : forall text c, In c (split_text text_splitter self text) ->
                                   (len c <= Z.max max_chunk_size (chunk_size self))%Z).
    { intros text c Hc. apply (split_text_bounded self text (Hsplit text)) in Hc. lia. }
    intros c.
    destruct (Z.leb_spec (len (dumps json_obj)) max_chunk_size) as [Hle|Hgt].
    + intros [<-|[]]. lia.
    + destruct json_obj as [| | | | |items]; try apply Htext.
      destruct (1 <? length items)%nat; [|apply Htext].
      intros Hc. apply in_flat_map in Hc. destruct Hc as (item & _ & Hc).
      unfold split_item in Hc.
      destruct (Z.ltb_spec max_chunk_size (len (dumps (JDict [item])))) as [Hlt|Hge].
      * now apply Htext in Hc.
      * destruct Hc as [<-|[]]. lia.
Qed.

(** X28. The chunk dicts of [create_overlapping_chunks] pass
    [validate_chunk_sizes] whenever the library splitter keeps to the
    chunk size on the content: the status is "valid", or "empty" when
    [split_text] returns no chunk, and never "has_oversized". *)
Theorem created_chunks_validate (self : IntelligentChunker) (content_ chunk_type_
    base_id : string) (metadata_ : gmap string Json) :
  (forall c, In c (text_splitter self content_) -> (len c <= chunk_size self)%Z) ->
  let objects :=
    create_overlapping_chunks text_splitter self content_ chunk_type_ base_id metadata_ in
  status (validate_chunk_sizes self objects)
    = if decide (split_text text_splitter self content_ = []) then "empty" else "valid".
Proof.
  intros Hsplit objects.
  pose proof (create_overlapping_chunks_contents self content_ chunk_type_ base_id
                metadata_) as Hmap.
  fold objects in Hmap.
  destruct (decide (split_text text_splitter self content_ = [])) as [E|Hne].
  - rewrite E in Hmap. destruct objects; [reflexivity | discriminate].
  - destruct objects as [|first others] eqn:Eo; [simpl in Hmap; congruence|].
    rewrite validate_status.
    assert (Hf : forallb (fun c => negb (is_oversized self (len (content c))))
                   (first :: others) = true); [|now rewrite Hf].
    apply forallb_forall. intros o Ho. apply negb_true_iff, not_true_iff_false.
    intros Hov. apply is_oversized_spec in Hov.
    assert (Hin : In (content o) (split_text text_splitter self content_))
      by (rewrite <- Hmap; now apply in_map).
    apply (split_text_bounded self content_ Hsplit) in Hin.
    assert (0 <= len (content o))%Z by (unfold len; lia). lia.
Qed.

End ChunkObjectFacts.

Section ChunkObjectWitnesses.

Import ChunkingUtils ChunkObjects.

Lemma characters_length (text c : string) :
  In c (MoreSamples.characters text) -> len c = 1%Z.
Proof.
  induction text as [|a text IH]; simpl; [intros []|].
  intros [<-|H]; [reflexivity | now apply IH].
Qed.

Lemma validate_chunk_sizes_stats_witness :
  let v := validate_chunk_sizes MoreSamples.small_chunker MoreSamples.sample_chunks in
  MoreSamples.sample_chunks <> [] /\
  exists st oversized,
    stats v = Some st /\ oversized_chunks v = Some oversized /\
    total_chunks st = Z.of_nat (length MoreSamples.sample_chunks) /\
    oversized_count st = Z.of_nat (length oversized) /\
    (0 <= oversized_count st <= total_chunks st)%Z /\
    (exists c, In c MoreSamples.sample_chunks /\ min_size st = len (content c)) /\
    (exists c, In c MoreSamples.sample_chunks /\ max_size st = len (content c)) /\
    (forall c, In c MoreSamples.sample_chunks ->
       (min_size st <= len (content c) <= max_size st)%Z) /\
    (inject_Z (min_size st) <= avg_size st)%Q /\
    (avg_size st <= inject_Z (max_size st))%Q /\
    (0 <= size_compliance st)%Q /\ (size_compliance st <= 100)%Q /\
    (size_compliance st == 100 <-> status v = "valid")%Q.
Proof.
  intros v.
  assert (H : MoreSamples.sample_chunks <> []) by discriminate.
  split; [exact H|].
  exact (validate_chunk_sizes_stats MoreSamples.small_chunker MoreSamples.sample_chunks H).
Defined.

Lemma split_json_content_bounded_witness :
  (forall text c, In c (MoreSamples.character_splitter MoreSamples.small_chunker text) ->
     (len c <= chunk_size MoreSamples.small_chunker)%Z) /\
  ((len (MoreSamples.sample_dumps MoreSamples.sample_properties) <= 12)%Z ->
   split_json_content MoreSamples.character_splitter MoreSamples.sample_dumps
     MoreSamples.small_chunker MoreSamples.sample_properties 12
     = [MoreSamples.sample_dumps MoreSamples.sample_properties]) /\
  forall c,
    In c (split_json_content MoreSamples.character_splitter MoreSamples.sample_dumps
            MoreSamples.small_chunker MoreSamples.sample_properties 12) ->
    (len c <= Z.max 12 (chunk_size MoreSamples.small_chunker))%Z.
Proof.
  assert (H : forall text c,
             In c (MoreSamples.character_splitter MoreSamples.small_chunker text) ->
             (len c <= chunk_size MoreSamples.small_chunker)%Z).
  { intros text c Hc. apply characters_length in Hc. rewrite Hc. vm_compute. discriminate. }
  split; [exact H|].
  exact (split_json_content_bounded MoreSamples.character_splitter MoreSamples.sample_dumps
           MoreSamples.small_chunker MoreSamples.sample_properties 12 H).
Defined.

Lemma created_chunks_validate_witness :
  let content_ := "send a slack message every morning" in
  (forall c, In c (Samples.sample_splitter MoreSamples.small_chunker content_) ->
     (len c <= chunk_size MoreSamples.small_chunker)%Z) /\
  status (validate_chunk_sizes MoreSamples.small_chunker
            (create_overlapping_chunks Samples.sample_splitter MoreSamples.small_chunker
               content_ "node_documentation" "slack_docs" ∅))
    = if decide (split_text Samples.sample_splitter MoreSamples.small_chunker content_ = [])
      then "empty" else "valid".
Proof.
  intros content_.
  assert (H : forall c,
             In c (Samples.sample_splitter MoreSamples.small_chunker content_) ->
             (len c <= chunk_size MoreSamples.small_chunker)%Z).
  { intros c Hc. vm_compute in Hc.
    repeat (destruct Hc as [<-|Hc]; [vm_compute; discriminate|]). destruct Hc. }
  split; [exact H|].
  exact (created_chunks_validate Samples.sample_splitter MoreSamples.small_chunker
           content_ "node_documentation" "slack_docs" ∅ H).
Defined.

End ChunkObjectWitnesses.

(** ** Workflow validation (4_ollama_integration.py) *)

Section WorkflowValidationFacts.

Import WorkflowValidation.

Lemma validate_nodes_app (rest : list Node) (i : nat) (node_ids : gset string)
    (errors : list string) :
  validate_nodes i rest node_ids errors = errors ++ validate_nodes i rest node_ids [].
Proof.
  revert i node_ids errors. induction rest as [|node rest IH]; intros i node_ids errors.
  - simpl. now rewrite app_nil_r.
  - simpl. destruct (id node) as [x|].
    + destruct (decide (x ∈ node_ids)).
      * rewrite IH, (IH _ _ (missing_fields i node ++ _)). now rewrite !app_assoc.
      * rewrite IH, (IH _ _ (missing_fields i node)). now rewrite !app_assoc.
    + rewrite IH, (IH _ _ (missing_fields i node)). now rewrite !app_assoc.
Qed.

Lemma missing_fields_nil (i : nat) (node : Node) :
  missing_fields i node = [] <-> complete node.
Proof.
  unfold missing_fields, complete, missing. split.
  - intros H. destruct (id node), (name node), (type node); simpl in H; try discriminate.
    repeat split; eauto.
  - intros ((a & ->) & (b & ->) & (c & ->)). reflexivity.
Qed.

(** The loop adds no error exactly when every node is complete and no
    identifier is seen twice. *)
Lemma validate_nodes_nil (rest : list Node) (i : nat) (node_ids : gset string) :
  validate_nodes i rest node_ids [] = [] <->
  Forall complete rest /\ NoDup (omap id rest) /\
  forall x, x ∈ omap id rest -> x ∉ node_ids.
Proof.
  revert i node_ids. induction rest as [|node rest IH]; intros i node_ids.
  - simpl. split; [intros _|reflexivity].
    split; [constructor|]. split; [constructor|]. intros x Hx. inversion Hx.
  - cbn [validate_nodes omap list_omap]. rewrite app_nil_l.
    destruct (id node) as [x|] eqn:Eid.
    + rewrite validate_nodes_app. split.
      * intros H. apply app_eq_nil in H. destruct H as (H1 & H2).
        destruct (decide (x ∈ node_ids)) as [Hin|Hnin];
          [apply app_eq_nil in H1; destruct H1 as (_ & H1); discriminate|].
        apply missing_fields_nil in H1. apply IH in H2. destruct H2 as (Hc & Hnd & Hfresh).
        split; [now constructor|]. split.
        -- constructor; [|exact Hnd]. intros Hx. apply Hfresh in Hx. apply Hx, elem_of_union. left. now apply elem_of_singleton.
        -- intros y Hy. apply elem_of_cons in Hy. destruct Hy as [->|Hy]; [exact Hnin|].
           apply Hfresh in Hy. intros Hin. apply Hy, elem_of_union. now right.
      * intros (Hc & Hnd & Hfresh).
        assert (Hnode := Forall_inv Hc). assert (Hrest := Forall_inv_tail Hc).
        apply NoDup_cons in Hnd. destruct Hnd as (Hx & Hnd').
        assert (Hnin : x ∉ node_ids) by (apply Hfresh; left).
        destruct (decide (x ∈ node_ids)) as [Hin|_]; [contradiction|].
        apply (proj2 (missing_fields_nil i node)) in Hnode. rewrite Hnode. simpl.
        apply IH. split; [exact Hrest|]. split; [exact Hnd'|].
        intros y Hy. assert (y ∉ node_ids) by (apply Hfresh; now right).
        assert (y <> x) by (intros ->; contradiction).
        intros Hu. apply elem_of_union in Hu. destruct Hu as [Hu|Hu]; [|contradiction].
        apply elem_of_singleton in Hu. contradiction.
    + rewrite validate_nodes_app. split.
      * intros H. apply app_eq_nil in H. destruct H as (H1 & _).
        apply missing_fields_nil in H1. destruct H1 as (H1 & _).
        rewrite Eid in H1. now destruct H1.
      * intros (Hc & _). destruct (Forall_inv Hc) as (H1 & _).
        rewrite Eid in H1. now destruct H1.
Qed.

(** X29. [validate_workflow] accepts a workflow exactly when it reports
    no error, and it does so exactly for a workflow with the key
    "connections" and a non-empty list under "nodes" in which every node
    has the keys "id", "name" and "type" and no two nodes have the same
    identifier.  For no workflow, or the empty dict, the only error is
    "No workflow generated". *)
Theorem validate_workflow_accepts (workflow : option WorkflowDict) :
  let result := validate_workflow workflow in
  (result.1 = true <-> result.2 = []) /\
  (result.1 = true <->
     exists w node_list,
       workflow = Some w /\ nodes w = Some node_list /\ node_list <> [] /\
       is_Some (connections w) /\
       Forall complete node_list /\ NoDup (omap id node_list)) /\
  (truthy workflow = false -> result = (false, ["No workflow generated"])).
Proof.
  intros result.
  assert (Hflag : result.1 = true <-> result.2 = []).
  { unfold result, validate_workflow.
    destruct workflow as [w|]; [|split; discriminate].
    destruct (truthy (Some w)); [|split; discriminate].
    cbn [fst snd]. rewrite Nat.eqb_eq. apply length_zero_iff_nil. }
  split; [exact Hflag|]. split.
  - rewrite Hflag. unfold result, validate_workflow.
    destruct workflow as [w|]; [|split; [discriminate | intros (w & l & H & _); discriminate]].
    destruct (truthy (Some w)) eqn:Et.
    + cbn [snd]. destruct (nodes w) as [[|node rest]|] eqn:En.
      * split.
        -- intros H. apply app_eq_nil in H. destruct H as (_ & H). discriminate.
        -- intros (w' & l & Hw & Hl & Hne & _). injection Hw as <-. congruence.
      * rewrite validate_nodes_app. split.
        -- intros H. apply app_eq_nil in H. destruct H as (H1 & H2).
           apply validate_nodes_nil in H2. destruct H2 as (Hc & Hnd & _).
           exists w, (node :: rest). split; [reflexivity|]. split; [exact En|].
           split; [discriminate|].
           split; [|split; assumption].
           destruct (connections w); [eauto | discriminate].
        -- intros (w' & l & Hw & Hl & Hne & Hconn & Hc & Hnd).
           injection Hw as <-. rewrite En in Hl. injection Hl as <-.
           destruct Hconn as (c & ->).
           change (validate_nodes 0 (node :: rest) ∅ [] = []). apply validate_nodes_nil.
           split; [exact Hc|]. split; [exact Hnd|]. intros x _. apply not_elem_of_empty.
      * split.
        -- intros H. apply app_eq_nil in H. destruct H as (_ & H). discriminate.
        -- intros (w' & l & Hw & Hl & _). injection Hw as <-. congruence.
    + split; [discriminate|].
      intros (w' & l & Hw & Hl & _). injection Hw as <-.
      unfold truthy in Et. rewrite Hl in Et. discriminate.
  - unfold result, validate_workflow. intros Ht.
    destruct workflow as [w|]; [|reflexivity]. now rewrite Ht.
Qed.

End WorkflowValidationFacts.
